(** * Arachgraph: the session logic of the spider-chart application

    A shallow embedding of [arachgraph.py].  The slots of [SpiderChartApp]
    ([load_factors], [add_sample], [save_sample], [load_sample],
    [change_sample_color]) become functions on an explicit session state;
    the values that [json.load] hands to the program are kept dynamically
    typed, as Python has them, and every Python operation the slots perform
    on them ([in], subscripting, iteration, truth value, [.keys()]) is
    written out together with the exception it raises.

    Widgets are kept only as far as the slots read them back: the sliders
    (whose values become scores) and the enabled flag of the two buttons
    that start disabled.  Widget construction and drawing are taken to
    succeed.  Angles are real numbers, the idealisation of numpy's
    float64. *)

From Stdlib Require Import ZArith QArith Reals List String Ascii Bool Lia Lra.
From Stdlib Require Import Permutation.
Import ListNotations.

Local Open Scope string_scope.
Local Open Scope list_scope.
Local Open Scope nat_scope.

(** ** Python values and exceptions *)

Module Py.

(** What [json.load] can return.  A [PFloat] carries the (finite) value of
    the float as a rational.  A [PDict] lists its items in insertion
    order; the keys of a dictionary loaded from JSON are all [PStr]. *)
#[warnings="-register-all"]
Inductive pyval : Type :=
| PNone
| PBool (b : bool)
| PInt (z : Z)
| PFloat (q : Q)
| PStr (s : string)
| PList (l : list pyval)
| PDict (d : list (pyval * pyval)).

Inductive exn : Type :=
| JSONDecodeError | ValueError | IOError
| TypeError | KeyError | IndexError | AttributeError.

(** A computation that returns or raises. *)
Inductive res (A : Type) : Type :=
| Ok (a : A)
| Raise (e : exn).
Arguments Ok {A} a.
Arguments Raise {A} e.

Definition bind {A B} (m : res A) (k : A -> res B) : res B :=
  match m with
  | Ok a => k a
  | Raise e => Raise e
  end.

Notation "x <- m ;; k" := (bind m (fun x => k))
  (at level 61, m at next level, right associativity).

(** [[body x for x in l]], left to right, stopping at the first raise. *)
Fixpoint comprehension {A B} (body : A -> res B) (l : list A) : res (list B) :=
  match l with
  | [] => Ok []
  | x :: l' =>
      y <- body x ;;
      ys <- comprehension body l' ;;
      Ok (y :: ys)
  end.

(** [all(cond x for x in l)]: stops at the first false. *)
Fixpoint py_all {A} (cond : A -> res bool) (l : list A) : res bool :=
  match l with
  | [] => Ok true
  | x :: l' =>
      b <- cond x ;;
      if b then py_all cond l' else Ok false
  end.

(** Lists and dictionaries cannot be dictionary keys or set members. *)
Definition hashable (v : pyval) : bool :=
  match v with
  | PList _ | PDict _ => false
  | _ => true
  end.

(** [True == 1 == 1.0]: booleans, ints and floats compare by value. *)
Definition py_num (v : pyval) : option Q :=
  match v with
  | PBool b => Some (if b then 1%Q else 0%Q)
  | PInt z => Some (inject_Z z)
  | PFloat q => Some q
  | _ => None
  end.

(** [a == b] on hashable values, the equality of dictionary keys. *)
Definition key_eqb (a b : pyval) : bool :=
  match a, b with
  | PNone, PNone => true
  | PStr s, PStr t => String.eqb s t
  | _, _ =>
      match py_num a, py_num b with
      | Some x, Some y => Qeq_bool x y
      | _, _ => false
      end
  end.

(** [bool(v)]. *)
Definition truthy (v : pyval) : bool :=
  match v with
  | PNone => false
  | PBool b => b
  | PInt z => negb (z =? 0)%Z
  | PFloat q => negb (Qeq_bool q 0)
  | PStr s => negb (String.eqb s "")
  | PList l => negb (List.length l =? 0)
  | PDict d => negb (List.length d =? 0)
  end.

Fixpoint chars (s : string) : list pyval :=
  match s with
  | EmptyString => []
  | String c s' => PStr (String c EmptyString) :: chars s'
  end.

(** The items a [for] loop sees: the elements of a list, the keys of a
    dictionary, the characters of a string. *)
Definition py_iter (v : pyval) : res (list pyval) :=
  match v with
  | PList l => Ok l
  | PDict d => Ok (map fst d)
  | PStr s => Ok (chars s)
  | _ => Raise TypeError
  end.

Definition py_len (v : pyval) : res nat :=
  match v with
  | PList l => Ok (List.length l)
  | PDict d => Ok (List.length d)
  | PStr s => Ok (String.length s)
  | _ => Raise TypeError
  end.

(** [needle in s] for two strings. *)
Fixpoint substring_of (needle s : string) : bool :=
  String.prefix needle s ||
  match s with
  | EmptyString => false
  | String _ s' => substring_of needle s'
  end.

Definition is_str (k : string) (v : pyval) : bool :=
  match v with
  | PStr s => String.eqb k s
  | _ => false
  end.

(** [k in c] for a string literal [k]: a key of a dictionary, an element
    of a list, a substring of a string; a [TypeError] on anything else. *)
Definition py_in (k : string) (c : pyval) : res bool :=
  match c with
  | PDict d => Ok (existsb (fun kv => is_str k (fst kv)) d)
  | PList l => Ok (existsb (is_str k) l)
  | PStr s => Ok (substring_of k s)
  | _ => Raise TypeError
  end.

End Py.
Export Py.

(** ** Dictionaries, in insertion order *)

Module Dict.

Definition pydict (V : Type) : Type := list (pyval * V).

Section Ops.
Context {V : Type}.

Fixpoint dget (k : pyval) (d : pydict V) : option V :=
  match d with
  | [] => None
  | (k', v) :: d' => if key_eqb k' k then Some v else dget k d'
  end.

Definition dmem (k : pyval) (d : pydict V) : bool :=
  match dget k d with
  | Some _ => true
  | None => false
  end.

(** [d[k] = v]: an existing key keeps its place, a new one goes last. *)
Fixpoint dset (k : pyval) (v : V) (d : pydict V) : pydict V :=
  match d with
  | [] => [(k, v)]
  | (k', v') :: d' =>
      if key_eqb k' k then (k', v) :: d' else (k', v') :: dset k v d'
  end.

Definition dkeys (d : pydict V) : list pyval := map fst d.
End Ops.

End Dict.
Export Dict.

(** [c[k]] on Python values. *)
Definition py_index (k : pyval) : option Z :=
  match k with
  | PInt z => Some z
  | PBool b => Some (if b then 1%Z else 0%Z)
  | _ => None
  end.

Definition seq_item {A} (l : list A) (i : Z) : res A :=
  let n := Z.of_nat (List.length l) in
  let j := if (i <? 0)%Z then (i + n)%Z else i in
  if ((0 <=? j)%Z && (j <? n)%Z)%bool then
    match nth_error l (Z.to_nat j) with
    | Some x => Ok x
    | None => Raise IndexError
    end
  else Raise IndexError.

Definition py_getitem (c k : pyval) : res pyval :=
  match c with
  | PDict d =>
      if hashable k then
        match dget k d with
        | Some v => Ok v
        | None => Raise KeyError
        end
      else Raise TypeError
  | PList l =>
      match py_index k with
      | Some i => seq_item l i
      | None => Raise TypeError
      end
  | PStr s =>
      match py_index k with
      | Some i => seq_item (chars s) i
      | None => Raise TypeError
      end
  | _ => Raise TypeError
  end.

(** [v.keys()]: only a dictionary has the method. *)
Definition py_keys (v : pyval) : res (list pyval) :=
  match v with
  | PDict d => Ok (dkeys d)
  | _ => Raise AttributeError
  end.

(** A set, kept as the list of its members; building one hashes them. *)
Definition py_set (l : list pyval) : res (list pyval) :=
  if forallb hashable l then Ok l else Raise TypeError.

Definition set_mem (x : pyval) (s : list pyval) : bool :=
  existsb (key_eqb x) s.

Definition set_subset (s t : list pyval) : bool :=
  forallb (fun x => set_mem x t) s.

(** [s == t] on sets. *)
Definition set_eqb (s t : list pyval) : bool :=
  set_subset s t && set_subset t s.

Definition hashed (v : pyval) : res pyval :=
  if hashable v then Ok v else Raise TypeError.

(** ** The widgets the slots read back *)

Module Qt.

(** A [QSlider]: Qt keeps [value] between [minimum] and [maximum]. *)
Record QSlider : Type := { minimum : Z; maximum : Z; value : Z }.

Definition bound (lo v hi : Z) : Z := Z.max lo (Z.min hi v).

(** [QSlider(...)]: the range of a new slider is 0..99 and its value 0. *)
Definition new_QSlider : QSlider :=
  {| minimum := 0; maximum := 99; value := 0 |}.

Definition setRange (lo hi : Z) (s : QSlider) : QSlider :=
  let hi' := Z.max lo hi in
  {| minimum := lo; maximum := hi'; value := bound lo (value s) hi' |}.

Definition setValue (v : Z) (s : QSlider) : QSlider :=
  {| minimum := minimum s; maximum := maximum s;
     value := bound (minimum s) v (maximum s) |}.

(** What a file dialog followed by [open] and [json.load] yields: no path
    (the dialog was cancelled), or the outcome of reading the chosen
    file, a document or an [IOError] or [JSONDecodeError]. *)
Inductive file_dialog : Type :=
| NoFile
| File (content : res pyval).

(** The save dialog: no path, or a path that can or cannot be written. *)
Inductive save_dialog : Type :=
| NoSaveFile
| SaveTo (writable : bool).

(** The message boxes of the application. *)
Inductive message : Type :=
| FailedToLoadFactorFile   (* critical, "Failed to load or parse factor file" *)
| FailedToLoadSampleFile   (* critical, "Failed to load sample file" *)
| DuplicateName            (* warning, "Duplicate Name" *)
| PleaseLoadFactors        (* information, "Please load factors before loading a sample." *)
| CouldNotSaveFile.        (* critical, "Could not save file" *)

End Qt.
Export Qt.

(** ** The session state *)

(** An entry of [self.samples].  Its third item, the colour button of
    the sample list, is a widget and is left out. *)
Record sample : Type := { values : list pyval; color : pyval }.

Record state : Type := {
  factors : pyval;
  samples : pydict sample;
  factor_controls : pydict QSlider;
  btn_add_sample : bool;       (* enabled? *)
  btn_save_sample : bool       (* enabled? *)
}.

(** [__init__]: no factors, no samples, both buttons disabled. *)
Definition init : state :=
  {| factors := PList []; samples := []; factor_controls := [];
     btn_add_sample := false; btn_save_sample := false |}.

(** How a slot ends: it returns, possibly after a message box, or an
    exception leaves it.  Nothing handles an exception that leaves a
    slot, PyQt6 aborts the application, so no state comes with it. *)
Inductive outcome : Type :=
| Returned (st : state) (shown : option message)
| Uncaught (e : exn).

(** [except (json.JSONDecodeError, ValueError, IOError)] *)
Definition caught (e : exn) : bool :=
  match e with
  | JSONDecodeError | ValueError | IOError => true
  | _ => false
  end.

(** ** The slots *)

Definition _clear_all (st : state) : state :=
  {| factors := PList []; samples := []; factor_controls := [];
     btn_add_sample := false; btn_save_sample := false |}.

Definition factor_slider : QSlider := setValue 5 (setRange 1 10 new_QSlider).

Fixpoint setup_controls (items : list pyval) (controls : pydict QSlider)
  : res (pydict QSlider) :=
  match items with
  | [] => Ok controls
  | factor :: rest =>
      name <- py_getitem factor (PStr "name") ;;
      description <- py_getitem factor (PStr "description") ;;
      key <- hashed name ;;
      setup_controls rest (dset key factor_slider controls)
  end.

Definition _setup_ui_for_factors (st : state) : res state :=
  items <- py_iter (factors st) ;;
  controls <- setup_controls items (factor_controls st) ;;
  Ok {| factors := factors st; samples := samples st;
        factor_controls := controls;
        btn_add_sample := btn_add_sample st;
        btn_save_sample := btn_save_sample st |}.

(** ["name" in item and "description" in item] *)
Definition has_name_and_description (item : pyval) : res bool :=
  b <- py_in "name" item ;;
  if b then py_in "description" item else Ok false.

(** The [try] block of [load_factors]. *)
Definition read_factors (content : res pyval) : res pyval :=
  loaded_factors <- content ;;
  items <- py_iter loaded_factors ;;
  ok <- py_all has_name_and_description items ;;
  if ok then Ok loaded_factors else Raise ValueError.

Definition load_factors (st : state) (dlg : file_dialog) : outcome :=
  match dlg with
  | NoFile => Returned st None
  | File content =>
      match read_factors content with
      | Raise e =>
          if caught e then Returned st (Some FailedToLoadFactorFile)
          else Uncaught e
      | Ok loaded_factors =>
          let st1 := _clear_all st in
          let st2 := {| factors := loaded_factors; samples := samples st1;
                        factor_controls := factor_controls st1;
                        btn_add_sample := btn_add_sample st1;
                        btn_save_sample := btn_save_sample st1 |} in
          match _setup_ui_for_factors st2 with
          | Raise e => Uncaught e
          | Ok st3 =>
              Returned {| factors := factors st3; samples := samples st3;
                          factor_controls := factor_controls st3;
                          btn_add_sample := true;
                          btn_save_sample := btn_save_sample st3 |} None
          end
      end
  end.

Definition default_colors : list string :=
  ["#34a853"; "#4285f4"; "#fbbc05"; "#ea4335"; "#9c27b0"; "#00bcd4"].

(** [self.factor_controls[f['name']]['slider'].value()] *)
Definition slider_reading (controls : pydict QSlider) (f : pyval) : res pyval :=
  name <- py_getitem f (PStr "name") ;;
  key <- hashed name ;;
  match dget key controls with
  | Some slider => Ok (PInt (value slider))
  | None => Raise KeyError
  end.

Definition add_sample (st : state) (name : string) (ok : bool) : outcome :=
  if negb (ok && negb (String.eqb name "")) then Returned st None
  else if dmem (PStr name) (samples st) then Returned st (Some DuplicateName)
  else
    match (items <- py_iter (factors st) ;;
           comprehension (slider_reading (factor_controls st)) items) with
    | Raise e => Uncaught e
    | Ok vals =>
        match nth_error default_colors
                (List.length (samples st) mod List.length default_colors) with
        | None => Uncaught IndexError
        | Some c =>
            Returned
              {| factors := factors st;
                 samples := dset (PStr name)
                              {| values := vals; color := PStr c |} (samples st);
                 factor_controls := factor_controls st;
                 btn_add_sample := btn_add_sample st;
                 btn_save_sample := true |} None
        end
    end.

(** [{self.factors[i]['name']: val for i, val in enumerate(vals)}],
    counting from [i]. *)
Fixpoint values_by_name (fs : pyval) (i : nat) (vals : list pyval)
    (acc : pydict pyval) : res (pydict pyval) :=
  match vals with
  | [] => Ok acc
  | val :: rest =>
      f <- py_getitem fs (PInt (Z.of_nat i)) ;;
      name <- py_getitem f (PStr "name") ;;
      key <- hashed name ;;
      values_by_name fs (S i) rest (dset key val acc)
  end.

(** The [output_data] of [save_sample] for the sample called [name]. *)
Definition output_data (fs : pyval) (name : string) (sample_data : sample)
  : res pyval :=
  by_name <- values_by_name fs 0 (values sample_data) [] ;;
  Ok (PDict [(PStr "name", PStr name);
             (PStr "color", color sample_data);
             (PStr "values", PDict by_name)]).

(** What [save_sample] leaves behind: nothing (possibly after a message
    box), or the object it passed to [json.dump]. *)
Inductive saved : Type :=
| NothingSaved (shown : option message)
| Dumped (doc : pyval).

Definition save_sample (st : state) (sample_to_save : string) (ok : bool)
    (dlg : save_dialog) : res saved :=
  if (List.length (samples st) =? 0) then Ok (NothingSaved None)
  else if negb (ok && negb (String.eqb sample_to_save "")) then
    Ok (NothingSaved None)
  else
    match dget (PStr sample_to_save) (samples st) with
    | None => Raise KeyError
    | Some sample_data =>
        doc <- output_data (factors st) sample_to_save sample_data ;;
        match dlg with
        | NoSaveFile => Ok (NothingSaved None)
        | SaveTo true => Ok (Dumped doc)
        | SaveTo false => Ok (NothingSaved (Some CouldNotSaveFile))
        end
    end.

(** [{f['name'] for f in self.factors}] *)
Definition factor_names (fs : pyval) : res (list pyval) :=
  items <- py_iter fs ;;
  comprehension (fun f => name <- py_getitem f (PStr "name") ;; hashed name) items.

(** The [try] block of [load_sample]. *)
Definition read_sample (fs : pyval) (content : res pyval) : res pyval :=
  data <- content ;;
  ok <- py_all (fun k => py_in k data) ["name"; "values"; "color"] ;;
  if negb ok then Raise ValueError
  else
    vals <- py_getitem data (PStr "values") ;;
    ks <- py_keys vals ;;
    lhs <- comprehension hashed ks ;;
    rhs <- factor_names fs ;;
    if negb (set_eqb lhs rhs) then Raise ValueError else Ok data.

(** [[data['values'][f['name']] for f in self.factors]] *)
Definition ordered_values (fs data : pyval) : res (list pyval) :=
  items <- py_iter fs ;;
  comprehension
    (fun f =>
       vals <- py_getitem data (PStr "values") ;;
       name <- py_getitem f (PStr "name") ;;
       py_getitem vals name)
    items.

Definition load_sample (st : state) (dlg : file_dialog) : outcome :=
  if negb (truthy (factors st)) then Returned st (Some PleaseLoadFactors)
  else
    match dlg with
    | NoFile => Returned st None
    | File content =>
        match read_sample (factors st) content with
        | Raise e =>
            if caught e then Returned st (Some FailedToLoadSampleFile)
            else Uncaught e
        | Ok data =>
            match (name <- py_getitem data (PStr "name") ;; hashed name) with
            | Raise e => Uncaught e
            | Ok name =>
                if dmem name (samples st) then Returned st (Some DuplicateName)
                else
                  match (vals <- ordered_values (factors st) data ;;
                         c <- py_getitem data (PStr "color") ;;
                         Ok {| values := vals; color := c |}) with
                  | Raise e => Uncaught e
                  | Ok s =>
                      Returned
                        {| factors := factors st;
                           samples := dset name s (samples st);
                           factor_controls := factor_controls st;
                           btn_add_sample := btn_add_sample st;
                           btn_save_sample := true |} None
                  end
            end
        end
    end.

(** [picked] is [new_color.name()] when the colour dialog returned a valid
    colour, [None] when it was cancelled. *)
Definition change_sample_color (st : state) (sample_name : pyval)
    (picked : option string) : outcome :=
  match (key <- hashed sample_name ;;
         match dget key (samples st) with
         | Some s => Ok s
         | None => Raise KeyError
         end) with
  | Raise e => Uncaught e
  | Ok s =>
      match picked with
      | None => Returned st None
      | Some color_hex =>
          Returned
            {| factors := factors st;
               samples := dset sample_name
                            {| values := values s; color := PStr color_hex |}
                            (samples st);
               factor_controls := factor_controls st;
               btn_add_sample := btn_add_sample st;
               btn_save_sample := btn_save_sample st |} None
      end
  end.

(** The user drags the slider of the factor [name] to [position]. *)
Definition slider_moved (st : state) (name : pyval) (position : Z) : state :=
  match dget name (factor_controls st) with
  | None => st
  | Some slider =>
      {| factors := factors st; samples := samples st;
         factor_controls :=
           dset name (setValue position slider) (factor_controls st);
         btn_add_sample := btn_add_sample st;
         btn_save_sample := btn_save_sample st |}
  end.

(** ** The session as a transition system *)

Inductive event : Type :=
| LoadFactorsClicked (dlg : file_dialog)
| LoadSampleClicked (dlg : file_dialog)
| AddSampleClicked (name : string) (ok : bool)
| SaveSampleClicked (sample_to_save : string) (ok : bool) (dlg : save_dialog)
| ColorButtonClicked (sample_name : pyval) (picked : option string)
| SliderMoved (name : pyval) (position : Z).

(** A disabled button is not clicked, and only the samples of the list
    have a colour button. *)
Definition step (st : state) (ev : event) : outcome :=
  match ev with
  | LoadFactorsClicked dlg => load_factors st dlg
  | LoadSampleClicked dlg => load_sample st dlg
  | AddSampleClicked name ok =>
      if btn_add_sample st then add_sample st name ok else Returned st None
  | SaveSampleClicked sample_to_save ok dlg =>
      if btn_save_sample st then
        match save_sample st sample_to_save ok dlg with
        | Raise e => Uncaught e
        | Ok (NothingSaved shown) => Returned st shown
        | Ok (Dumped _) => Returned st None
        end
      else Returned st None
  | ColorButtonClicked sample_name picked =>
      if dmem sample_name (samples st) then
        change_sample_color st sample_name picked
      else Returned st None
  | SliderMoved name position => Returned (slider_moved st name position) None
  end.

(** The session after a list of events; an uncaught exception ends it. *)
Fixpoint run (st : state) (evs : list event) : outcome :=
  match evs with
  | [] => Returned st None
  | ev :: rest =>
      match step st ev with
      | Returned st' shown =>
          match rest with
          | [] => Returned st' shown
          | _ => run st' rest
          end
      | Uncaught e => Uncaught e
      end
  end.

Inductive reachable : state -> Prop :=
| reachable_init : reachable init
| reachable_step st ev st' shown :
    reachable st -> step st ev = Returned st' shown -> reachable st'.

(** ** The chart *)

(** [np.linspace(start, stop, num, endpoint=False)]: [num] values
    [i * ((stop - start) / num) + start]. *)
Definition linspace (start stop : R) (num : nat) : list R :=
  let delta := ((stop - start) / INR num)%R in
  map (fun i => (INR i * delta + start)%R) (seq 0 num).

(** [l + l[:1]] *)
Definition close_loop {A} (l : list A) : list A := l ++ firstn 1 l.

Definition chart_angles (num_vars : nat) : list R :=
  close_loop (linspace 0 (2 * PI) num_vars).

(** [ax.plot(xs, ys)] draws the points [(xs[j], ys[j])]; it raises a
    [ValueError] when the two lengths differ. *)
Definition plot (xs : list R) (ys : list pyval) : res (list (R * pyval)) :=
  if List.length xs =? List.length ys then Ok (combine xs ys)
  else Raise ValueError.

(** The closed polygon of one score vector on [num_vars] axes. *)
Definition polygon (num_vars : nat) (scores : list pyval)
  : res (list (R * pyval)) :=
  plot (chart_angles num_vars) (close_loop scores).

Record line : Type := {
  label : pyval;
  line_color : pyval;
  points : list (R * pyval)
}.

Record chart : Type := {
  thetagrids : list R;
  axis_labels : list pyval;
  lines : list line
}.

(** What [_update_chart] asks the canvas to draw: [None] stands for the
    text 'Load factors to begin'. *)
Definition _update_chart (st : state) : res (option chart) :=
  if negb (truthy (factors st)) then Ok None
  else
    num_vars <- py_len (factors st) ;;
    let angles := chart_angles num_vars in
    items <- py_iter (factors st) ;;
    names <- comprehension (fun f => py_getitem f (PStr "name")) items ;;
    drawn <- comprehension
               (fun kv : pyval * sample =>
                  pts <- polygon num_vars (values (snd kv)) ;;
                  Ok {| label := fst kv; line_color := color (snd kv);
                        points := pts |})
               (samples st) ;;
    Ok (Some {| thetagrids := removelast angles; axis_labels := names;
                lines := drawn |}).

(** ** Documents *)

(** The values on which [json.dump] followed by [json.load] is the
    identity: every dictionary key is a string. *)
Fixpoint plain_json (v : pyval) : bool :=
  match v with
  | PList l => forallb plain_json l
  | PDict d =>
      forallb (fun kv =>
                 match fst kv with
                 | PStr _ => plain_json (snd kv)
                 | _ => false
                 end) d
  | _ => true
  end.

(** A factor object, as the factor file lists them. *)
Definition factor (name description : string) : pyval :=
  PDict [(PStr "name", PStr name); (PStr "description", PStr description)].

(** A sample object, as the sample file holds it. *)
Definition sample_doc (name c : string) (vals : list (string * Z)) : pyval :=
  PDict [(PStr "name", PStr name);
         (PStr "color", PStr c);
         (PStr "values",
          PDict (map (fun kv => (PStr (fst kv), PInt (snd kv))) vals))].

(** A score as the application means it: an integer from 1 to 10. *)
Definition is_score (v : pyval) : Prop :=
  exists z, v = PInt z /\ (1 <= z <= 10)%Z.

(** Membership in a set, up to the equality of keys. *)
Definition member (x : pyval) (s : list pyval) : Prop :=
  exists y, In y s /\ key_eqb x y = true.

Definition same_set (s t : list pyval) : Prop :=
  forall x, member x s <-> member x t.

(** ** What every reachable session satisfies *)

(** The range [_setup_ui_for_factors] gives each slider. *)
Definition slider_in_range (s : QSlider) : Prop :=
  minimum s = 1%Z /\ maximum s = 10%Z /\ (1 <= value s <= 10)%Z.

(** The factor [f] has a name and [factor_controls] has a slider for it. *)
Definition has_control (controls : pydict QSlider) (f : pyval) : Prop :=
  exists name, py_getitem f (PStr "name") = Ok name /\
               hashable name = true /\ dmem name controls = true.

Record consistent (st : state) : Prop := {
  sliders_ok :
    Forall (fun kv => slider_in_range (snd kv)) (factor_controls st);
  controls_ok :
    exists items, py_iter (factors st) = Ok items /\
                  Forall (has_control (factor_controls st)) items;
  shapes_ok :
    Forall (fun kv => py_len (factors st) = Ok (List.length (values (snd kv))))
           (samples st);
  disabled_ok :
    btn_add_sample st = false -> factors st = PList [] /\ samples st = []
}.

(** ** Sessions used as examples *)

Module Examples.

Definition factors_A : pyval := PList [factor "A" "the only axis"].

Definition factors_ABC : pyval :=
  PList [factor "A" "first axis"; factor "B" "second axis";
         factor "C" "third axis"].

(** A sample file whose only score is 100. *)
Definition sample_X_100 : pyval := sample_doc "X" "#000000" [("A", 100%Z)].

(** Factors A, B, C loaded, the slider of B moved to 8, sample "X" added. *)
Definition trace_ABC_X : list event :=
  [LoadFactorsClicked (File (Ok factors_ABC));
   SliderMoved (PStr "B") 8;
   AddSampleClicked "X" true].

Definition session_ABC_X : state :=
  Eval vm_compute in
    match run init trace_ABC_X with
    | Returned st _ => st
    | Uncaught _ => init
    end.

End Examples.

(** The state [add_sample] leaves when it stores [vals] under [name] with
    the colour [c]. *)
Definition with_sample (st : state) (name : pyval) (s : sample) : state :=
  {| factors := factors st;
     samples := dset name s (samples st);
     factor_controls := factor_controls st;
     btn_add_sample := btn_add_sample st;
     btn_save_sample := true |}.

(** Every stored score vector has one valid score per factor. *)
Definition scores_valid (st : state) : Prop :=
  forall name s, In (name, s) (samples st) ->
    Forall is_score (values s) /\
    py_len (factors st) = Ok (List.length (values s)).

(** The object [d] has the field [k]. *)
Definition has_key (k : string) (d : list (pyval * pyval)) : Prop :=
  exists v, In (PStr k, v) d.

(** A factor file written as the application expects it. *)
Definition factor_list (l : list (string * string)) : pyval :=
  PList (map (fun nd => factor (fst nd) (snd nd)) l).

Module MoreExamples.

(** Two factors with the same name. *)
Definition factors_A_A : pyval := factor_list [("A", "one"); ("A", "two")].

(** An object without a description, between two complete ones. *)
Definition objects_missing_description : list (list (pyval * pyval)) :=
  [[(PStr "name", PStr "A"); (PStr "description", PStr "one")];
   [(PStr "name", PStr "B")];
   [(PStr "name", PStr "C"); (PStr "description", PStr "three")]].

(** The session of [Examples.session_ABC_X] after the factor file A is
    loaded on top of it. *)
Definition session_reloaded : state :=
  Eval vm_compute in
    match load_factors Examples.session_ABC_X (File (Ok Examples.factors_A)) with
    | Returned st _ => st
    | Uncaught _ => init
    end.

(** A factor file that is an object keyed by factor name, not a list. *)
Definition object_of_factors : pyval :=
  PDict [(PStr "A", PStr "first axis"); (PStr "B", PStr "second axis")].

End MoreExamples.

(** The colour [add_sample] gives the next sample:
    [default_colors[len(self.samples) % len(default_colors)]]. *)
Definition next_default_color (st : state) : option string :=
  nth_error default_colors
    (List.length (samples st) mod List.length default_colors).

Module SampleFiles.

(** Scenario C: a sample file that scores A and B only. *)
Definition values_A_B : list (pyval * pyval) :=
  [(PStr "A", PInt 7); (PStr "B", PInt 3)].

Definition sample_Y_A_B : list (pyval * pyval) :=
  [(PStr "name", PStr "Y"); (PStr "color", PStr "#4285f4");
   (PStr "values", PDict values_A_B)].

(** A well-formed sample file for the factors A, B, C, called X. *)
Definition sample_X_ABC : pyval :=
  sample_doc "X" "#ea4335" [("C", 9%Z); ("A", 1%Z); ("B", 4%Z)].

(** The same file under the name Z. *)
Definition sample_Z_ABC : pyval :=
  sample_doc "Z" "#ea4335" [("C", 9%Z); ("A", 1%Z); ("B", 4%Z)].

Definition names_ABC : list pyval := [PStr "A"; PStr "B"; PStr "C"].

End SampleFiles.

Module Sessions.

(** Two factors, both with the empty name. *)
Definition factors_unnamed : pyval := factor_list [("", "one"); ("", "two")].

Definition trace_unnamed_X : list event :=
  [LoadFactorsClicked (File (Ok factors_unnamed)); AddSampleClicked "X" true].

(** Sample "X" of [Examples.session_ABC_X] recoloured. *)
Definition session_recolored : state :=
  Eval vm_compute in
    match change_sample_color Examples.session_ABC_X (PStr "X") (Some "#123456") with
    | Returned st _ => st
    | Uncaught _ => init
    end.

(** [Examples.session_ABC_X] after the sample file Z is loaded. *)
Definition session_with_Z : state :=
  Eval vm_compute in
    match load_sample Examples.session_ABC_X (File (Ok SampleFiles.sample_Z_ABC)) with
    | Returned st _ => st
    | Uncaught _ => init
    end.

End Sessions.

(** The factor objects [fs] are called [names], in this order. *)
Definition named (fs : list pyval) (names : list string) : Prop :=
  Forall2 (fun f n => py_getitem f (PStr "name") = Ok (PStr n)) fs names.

(** The [values] object [save_sample] writes for the scores [vals]. *)
Definition scores_by_name (names : list string) (vals : list pyval)
  : pydict pyval :=
  combine (map PStr names) vals.

(** The document [save_sample] dumps for a sample. *)
Definition saved_doc (name : string) (names : list string) (s : sample) : pyval :=
  PDict [(PStr "name", PStr name);
         (PStr "color", color s);
         (PStr "values", PDict (scores_by_name names (values s)))].

Module RoundTrip.

(** The factor file A, B, C loaded into a fresh session. *)
Definition session_ABC : state :=
  Eval vm_compute in
    match load_factors init (File (Ok Examples.factors_ABC)) with
    | Returned st _ => st
    | Uncaught _ => init
    end.

Definition sample_X : sample :=
  {| values := [PInt 5; PInt 8; PInt 5]; color := PStr "#34a853" |}.

End RoundTrip.

Module EmptyFactors.

(** An empty factor file, then a click on "Add Sample to chart". *)
Definition trace_empty_X : list event :=
  [LoadFactorsClicked (File (Ok (PList []))); AddSampleClicked "X" true].

End EmptyFactors.

(** ** Further notions about the slots *)

(** No two items of the dictionary have equal keys. *)
Fixpoint unique_keys {V} (d : pydict V) : bool :=
  match d with
  | [] => true
  | kv :: d' => negb (dmem (fst kv) d') && unique_keys d'
  end.

(** A value that is neither a string nor a container. *)
Definition scalar (v : pyval) : bool :=
  match v with
  | PNone | PBool _ | PInt _ | PFloat _ => true
  | _ => false
  end.

Module Frames.

(** [Examples.session_ABC_X] with a second sample, "Z", from a file. *)
Definition trace_ABC_X_Z : list event :=
  Examples.trace_ABC_X ++
  [LoadSampleClicked (File (Ok SampleFiles.sample_Z_ABC))].

Definition sample_Z : sample :=
  {| values := [PInt 1; PInt 4; PInt 9]; color := PStr "#ea4335" |}.

Definition sample_Y : sample :=
  {| values := [PInt 5; PInt 8; PInt 5]; color := PStr "#4285f4" |}.

(** [Sessions.session_with_Z] with the sample "X" recoloured. *)
Definition session_Z_recolored : state :=
  Eval vm_compute in
    match change_sample_color Sessions.session_with_Z (PStr "X") (Some "#123456") with
    | Returned st _ => st
    | Uncaught _ => init
    end.

End Frames.

(** What the store, the sliders and the buttons of a reachable session
    satisfy besides [consistent]. *)
Record tidy (st : state) : Prop := {
  samples_unique : unique_keys (samples st) = true;
  controls_unique : unique_keys (factor_controls st) = true;
  save_enabled :
    btn_save_sample st = negb (List.length (samples st) =? 0);
  controls_named :
    forall k, In k (dkeys (factor_controls st)) ->
      exists items f, py_iter (factors st) = Ok items /\ In f items /\
                      py_getitem f (PStr "name") = Ok k;
  add_disabled : btn_add_sample st = false -> st = init
}.

(** The factors [items] have the hashable names [names], in this order. *)
Definition called (items names : list pyval) : Prop :=
  Forall2 (fun f n => py_getitem f (PStr "name") = Ok n /\ hashable n = true)
          items names.

(** The scores [vals] are what the dictionary [D] holds for the names of
    the factors [items], in their order. *)
Definition scored_by (D : pydict pyval) (items vals : list pyval) : Prop :=
  Forall2 (fun f v => exists n, py_getitem f (PStr "name") = Ok n /\
                                hashable n = true /\ dget n D = Some v)
          items vals.

(** Every stored score vector comes from some dictionary by the names of
    the factors; so two factors of the same name have the same score. *)
Definition scores_go_by_name (st : state) : Prop :=
  exists items,
    py_iter (factors st) = Ok items /\
    Forall (fun kv => exists D, scored_by D items (values (snd kv))) (samples st).

(** The dictionary after the assignments [d[n] = v] for the pairs
    [(n, v)] of [pairs], in their order. *)
Definition assign_all (pairs : list (pyval * pyval)) (d : pydict pyval)
  : pydict pyval :=
  fold_left (fun acc nv => dset (fst nv) (snd nv) acc) pairs d.

(** What a slider dictionary reads as. *)
Definition readings (controls : pydict QSlider) : pydict pyval :=
  map (fun kv => (fst kv, PInt (value (snd kv)))) controls.

Module Repeated.

(** Two factors called A loaded, then the sample "X" added. *)
Definition trace_A_A_X : list event :=
  [LoadFactorsClicked (File (Ok MoreExamples.factors_A_A));
   AddSampleClicked "X" true].

Definition session_A_A_X : state :=
  Eval vm_compute in
    match run init trace_A_A_X with
    | Returned st _ => st
    | Uncaught _ => init
    end.

(** The two factors called A loaded into a fresh session. *)
Definition session_A_A : state :=
  Eval vm_compute in
    match load_factors init (File (Ok MoreExamples.factors_A_A)) with
    | Returned st _ => st
    | Uncaught _ => init
    end.

Definition sample_X : sample :=
  {| values := [PInt 5; PInt 5]; color := PStr "#34a853" |}.

End Repeated.

Module BadFiles.

(** A factor list with a number after a complete factor. *)
Definition complete_objects : list (list (pyval * pyval)) :=
  [[(PStr "name", PStr "A"); (PStr "description", PStr "one")]].

(** A sample file whose [values] is a list of scores. *)
Definition sample_with_list : list (pyval * pyval) :=
  [(PStr "name", PStr "Y"); (PStr "color", PStr "#4285f4");
   (PStr "values", PList [PInt 7; PInt 3; PInt 5])].

(** A sample file without a colour. *)
Definition sample_without_color : list (pyval * pyval) :=
  [(PStr "name", PStr "Y");
   (PStr "values", PDict [(PStr "A", PInt 7); (PStr "B", PInt 3); (PStr "C", PInt 5)])].

End BadFiles.

(** A sample document with the items [D] in its [values]. *)
Definition sample_object (name c : pyval) (D : list (pyval * pyval)) : pyval :=
  PDict [(PStr "name", name); (PStr "color", c); (PStr "values", PDict D)].

Module Orders.

Definition values_ABC : list (pyval * pyval) :=
  [(PStr "A", PInt 1); (PStr "B", PInt 4); (PStr "C", PInt 9)].

Definition values_CAB : list (pyval * pyval) :=
  [(PStr "C", PInt 9); (PStr "A", PInt 1); (PStr "B", PInt 4)].

End Orders.

(** * Properties *)

(** ** Keys and dictionaries *)

Lemma key_eqb_refl k : hashable k = true -> key_eqb k k = true.
Proof.
  destruct k; simpl; intros H; try discriminate; try reflexivity.
  - destruct b; reflexivity.
  - apply Qeq_bool_iff. reflexivity.
  - apply Qeq_bool_iff. reflexivity.
  - apply String.eqb_refl.
Qed.

Lemma py_num_hashable v q : py_num v = Some q -> hashable v = true.
Proof. destruct v; simpl; intros H; try discriminate; reflexivity. Qed.

Lemma key_eqb_cases a b :
  key_eqb a b = true ->
  (a = PNone /\ b = PNone) \/
  (exists s, a = PStr s /\ b = PStr s) \/
  (exists x y, py_num a = Some x /\ py_num b = Some y /\ Qeq x y).
Proof.
  unfold key_eqb. intros H.
  destruct a; destruct b; simpl in H; try discriminate;
    try (left; split; reflexivity);
    try (right; left; apply String.eqb_eq in H; subst; eexists; split; reflexivity);
    right; right; simpl; do 2 eexists; (split; [reflexivity|]; split; [reflexivity|]);
    apply Qeq_bool_iff; exact H.
Qed.

Lemma key_eqb_hashable a b :
  key_eqb a b = true -> hashable a = true /\ hashable b = true.
Proof.
  intros H. destruct (key_eqb_cases _ _ H) as [[-> ->]|[(s & -> & ->)|(x & y & Hx & Hy & _)]];
    try (split; reflexivity).
  split; eapply py_num_hashable; eassumption.
Qed.

Lemma key_eqb_num a b x y :
  py_num a = Some x -> py_num b = Some y -> key_eqb a b = Qeq_bool x y.
Proof.
  destruct a; simpl; intros Ha; try discriminate;
    destruct b; simpl; intros Hb; try discriminate;
    injection Ha as <-; injection Hb as <-; reflexivity.
Qed.

Lemma key_eqb_sym a b : key_eqb a b = true -> key_eqb b a = true.
Proof.
  intros H. destruct (key_eqb_cases _ _ H) as [[-> ->]|[(s & -> & ->)|(x & y & Hx & Hy & E)]].
  - reflexivity.
  - simpl. apply String.eqb_refl.
  - rewrite (key_eqb_num _ _ _ _ Hy Hx). apply Qeq_bool_iff. symmetry. exact E.
Qed.

Lemma key_eqb_trans a b c :
  key_eqb a b = true -> key_eqb b c = true -> key_eqb a c = true.
Proof.
  intros H1 H2.
  destruct (key_eqb_cases _ _ H1) as [[-> ->]|[(s & -> & ->)|(x & y & Hx & Hy & E)]];
    try exact H2.
  destruct (key_eqb_cases _ _ H2) as [[-> _]|[(s & -> & _)|(y' & z & Hy' & Hz & E')]];
    try discriminate.
  rewrite Hy in Hy'. injection Hy' as <-.
  rewrite (key_eqb_num _ _ _ _ Hx Hz). apply Qeq_bool_iff.
  transitivity y; assumption.
Qed.

Section DictFacts.
Context {V : Type}.
Implicit Types (d : pydict V) (k : pyval) (v : V).

Lemma dget_dset_same k v d :
  hashable k = true -> dget k (dset k v d) = Some v.
Proof.
  intros Hk. induction d as [|[k' v'] d IH]; simpl.
  - rewrite key_eqb_refl by assumption. reflexivity.
  - destruct (key_eqb k' k) eqn:E; simpl; rewrite E; [reflexivity | exact IH].
Qed.

Lemma dget_dset_other k k' v d :
  key_eqb k k' = false -> dget k' (dset k v d) = dget k' d.
Proof.
  intros Hne. induction d as [|[k0 v0] d IH]; simpl.
  - rewrite Hne. reflexivity.
  - destruct (key_eqb k0 k) eqn:E; simpl.
    + destruct (key_eqb k0 k') eqn:E'; [|reflexivity].
      apply key_eqb_sym in E.
      rewrite (key_eqb_trans _ _ _ E E') in Hne. discriminate.
    + destruct (key_eqb k0 k'); [reflexivity | exact IH].
Qed.

Lemma dset_length_mem k v d :
  dmem k d = true -> List.length (dset k v d) = List.length d.
Proof.
  unfold dmem. induction d as [|[k' v'] d IH]; simpl; [discriminate|].
  destruct (key_eqb k' k); simpl; intros H; [reflexivity|].
  f_equal. apply IH. exact H.
Qed.

Lemma dset_fresh k v d : dmem k d = false -> dset k v d = d ++ [(k, v)].
Proof.
  unfold dmem. induction d as [|[k' v'] d IH]; simpl; [reflexivity|].
  destruct (key_eqb k' k); simpl; intros H; [discriminate|].
  f_equal. apply IH. exact H.
Qed.

Lemma dset_Forall (P : V -> Prop) k v d :
  Forall (fun kv => P (snd kv)) d -> P v ->
  Forall (fun kv => P (snd kv)) (dset k v d).
Proof.
  intros Hd Hv. induction Hd as [|[k' v'] d Hx Hd IH]; simpl.
  - constructor; [exact Hv | constructor].
  - destruct (key_eqb k' k); constructor; simpl; assumption.
Qed.

Lemma dget_Forall (P : V -> Prop) k v d :
  Forall (fun kv => P (snd kv)) d -> dget k d = Some v -> P v.
Proof.
  intros Hd. induction Hd as [|[k' v'] d Hx Hd IH]; simpl; [discriminate|].
  destruct (key_eqb k' k); [|exact IH].
  intros H. injection H as <-. exact Hx.
Qed.

Lemma dmem_hashable k d : dmem k d = true -> hashable k = true.
Proof.
  unfold dmem. induction d as [|[k' v'] d IH]; simpl; [discriminate|].
  destruct (key_eqb k' k) eqn:E; [|exact IH].
  intros _. apply (key_eqb_hashable _ _ E).
Qed.

Lemma dmem_dset k v d : hashable k = true -> dmem k (dset k v d) = true.
Proof. intros H. unfold dmem. rewrite dget_dset_same by assumption. reflexivity. Qed.
End DictFacts.

(** ** Comprehensions *)

Lemma comprehension_length {A B} (body : A -> res B) l ys :
  comprehension body l = Ok ys -> List.length ys = List.length l.
Proof.
  revert ys. induction l as [|x l IH]; simpl; intros ys H.
  - injection H as <-. reflexivity.
  - destruct (body x) as [y|e]; simpl in H; [|discriminate].
    destruct (comprehension body l) as [ys'|e]; simpl in H; [|discriminate].
    injection H as <-. simpl. f_equal. apply IH. reflexivity.
Qed.

Lemma comprehension_Forall {A B} (body : A -> res B) (P : B -> Prop) l ys :
  (forall x y, In x l -> body x = Ok y -> P y) ->
  comprehension body l = Ok ys -> Forall P ys.
Proof.
  revert ys. induction l as [|x l IH]; simpl; intros ys HP H.
  - injection H as <-. constructor.
  - destruct (body x) as [y|e] eqn:Ey; simpl in H; [|discriminate].
    destruct (comprehension body l) as [ys'|e]; simpl in H; [|discriminate].
    injection H as <-. constructor.
    + apply (HP x); [left; reflexivity | exact Ey].
    + apply IH; [|reflexivity]. intros x' y' Hin. apply HP. right. exact Hin.
Qed.

Lemma comprehension_ok {A B} (body : A -> res B) l :
  (forall x, In x l -> exists y, body x = Ok y) ->
  exists ys, comprehension body l = Ok ys.
Proof.
  induction l as [|x l IH]; simpl; intros H.
  - eexists. reflexivity.
  - destruct (H x) as [y Hy]; [left; reflexivity|]. rewrite Hy. simpl.
    destruct IH as [ys Hys]; [intros; apply H; right; assumption|].
    rewrite Hys. simpl. eexists. reflexivity.
Qed.

Lemma chars_length s : List.length (chars s) = String.length s.
Proof. induction s; simpl; congruence. Qed.

Lemma py_iter_len v items :
  py_iter v = Ok items -> py_len v = Ok (List.length items).
Proof.
  destruct v; simpl; intros H; try discriminate; injection H as <-.
  - rewrite chars_length. reflexivity.
  - reflexivity.
  - rewrite length_map. reflexivity.
Qed.

(** ** The invariant of the session *)

Lemma dmem_dset_mono {V} (k k' : pyval) (v : V) (d : pydict V) :
  dmem k d = true -> dmem k (dset k' v d) = true.
Proof.
  unfold dmem. induction d as [|[k0 v0] d IH]; simpl; [discriminate|].
  destruct (key_eqb k0 k') eqn:E'; simpl;
    destruct (key_eqb k0 k) eqn:E; auto.
Qed.

Lemma has_control_dset controls k s f :
  has_control controls f -> has_control (dset k s controls) f.
Proof.
  intros (name & Hn & Hh & Hm). exists name. repeat split; try assumption.
  apply dmem_dset_mono. exact Hm.
Qed.

Lemma factor_slider_in_range : slider_in_range factor_slider.
Proof.
  unfold slider_in_range, factor_slider, setValue, setRange, new_QSlider, bound.
  cbn [minimum maximum value]. repeat split; lia.
Qed.

Lemma setValue_in_range v s : slider_in_range s -> slider_in_range (setValue v s).
Proof.
  intros (Hlo & Hhi & _). unfold slider_in_range, setValue, bound. simpl.
  rewrite Hlo, Hhi. repeat split; lia.
Qed.

Lemma setup_controls_spec items : forall c0 c,
  setup_controls items c0 = Ok c ->
  Forall (fun kv => slider_in_range (snd kv)) c0 ->
  Forall (fun kv => slider_in_range (snd kv)) c /\
  Forall (has_control c) items /\
  (forall k, dmem k c0 = true -> dmem k c = true).
Proof.
  induction items as [|f items IH]; simpl; intros c0 c H Hc0.
  - injection H as <-. repeat split; auto.
  - destruct (py_getitem f (PStr "name")) as [name|e] eqn:En; simpl in H; [|discriminate].
    destruct (py_getitem f (PStr "description")) as [descr|e]; simpl in H; [|discriminate].
    unfold hashed in H. destruct (hashable name) eqn:Eh; simpl in H; [|discriminate].
    apply IH in H.
    + destruct H as (H1 & H2 & H3). repeat split.
      * exact H1.
      * constructor; [|exact H2]. exists name. repeat split; try assumption.
        apply H3. apply dmem_dset. exact Eh.
      * intros k Hk. apply H3. apply dmem_dset_mono. exact Hk.
    + apply dset_Forall; [exact Hc0 | apply factor_slider_in_range].
Qed.

Lemma slider_reading_score controls f y :
  Forall (fun kv => slider_in_range (snd kv)) controls ->
  slider_reading controls f = Ok y -> is_score y.
Proof.
  intros Hc. unfold slider_reading, hashed.
  destruct (py_getitem f (PStr "name")) as [name|e]; simpl; [|discriminate].
  destruct (hashable name); simpl; [|discriminate].
  destruct (dget name controls) as [s|] eqn:Es; [|discriminate].
  intros H. injection H as <-.
  apply (dget_Forall slider_in_range) in Es; [|exact Hc].
  exists (value s). split; [reflexivity | apply Es].
Qed.

Lemma slider_reading_ok controls f :
  has_control controls f -> exists y, slider_reading controls f = Ok y.
Proof.
  intros (name & Hn & Hh & Hm). unfold slider_reading, hashed.
  rewrite Hn. simpl. rewrite Hh. simpl.
  unfold dmem in Hm. destruct (dget name controls); [|discriminate].
  eexists. reflexivity.
Qed.

Lemma init_consistent : consistent init.
Proof.
  split; simpl.
  - constructor.
  - exists []. split; [reflexivity | constructor].
  - constructor.
  - intros _. split; reflexivity.
Qed.

Lemma load_factors_consistent st dlg st' shown :
  consistent st -> load_factors st dlg = Returned st' shown -> consistent st'.
Proof.
  intros Hst. unfold load_factors. destruct dlg as [|content].
  - intros H. injection H as <- _. exact Hst.
  - destruct (read_factors content) as [loaded|e].
    + unfold _setup_ui_for_factors. cbn [_clear_all factors samples factor_controls
        btn_add_sample btn_save_sample].
      destruct (py_iter loaded) as [items|e] eqn:Ei; simpl; [|discriminate].
      destruct (setup_controls items []) as [c|e] eqn:Ec; simpl; [|discriminate].
      intros H. injection H as <- _.
      destruct (setup_controls_spec _ _ _ Ec) as (H1 & H2 & _); [constructor|].
      split; simpl.
      * exact H1.
      * exists items. split; assumption.
      * constructor.
      * discriminate.
    + destruct (caught e); [|discriminate].
      intros H. injection H as <- _. exact Hst.
Qed.

Lemma add_sample_consistent st name ok st' shown :
  consistent st -> btn_add_sample st = true ->
  add_sample st name ok = Returned st' shown -> consistent st'.
Proof.
  intros Hst Hbtn. unfold add_sample.
  destruct (negb (ok && negb (String.eqb name ""))).
  { intros H. injection H as <- _. exact Hst. }
  destruct (dmem (PStr name) (samples st)).
  { intros H. injection H as <- _. exact Hst. }
  destruct (py_iter (factors st)) as [items|e] eqn:Ei; simpl; [|discriminate].
  destruct (comprehension _ items) as [vals|e] eqn:Ev; [|discriminate].
  destruct (nth_error _ _) as [c|]; [|discriminate].
  intros H. injection H as <- _. destruct Hst as [H1 H2 H3 H4].
  split; simpl.
  - exact H1.
  - exact H2.
  - apply (dset_Forall (fun s => py_len (factors st) = Ok (List.length (values s))));
      [exact H3|].
    simpl. rewrite (comprehension_length _ _ _ Ev). apply py_iter_len. exact Ei.
  - rewrite Hbtn. discriminate.
Qed.

Lemma ordered_values_length fs data vals items :
  py_iter fs = Ok items -> ordered_values fs data = Ok vals ->
  List.length vals = List.length items.
Proof.
  unfold ordered_values. intros ->. simpl. apply comprehension_length.
Qed.

Lemma load_sample_consistent st dlg st' shown :
  consistent st -> load_sample st dlg = Returned st' shown -> consistent st'.
Proof.
  intros Hst. unfold load_sample.
  destruct (negb (truthy (factors st))) eqn:Et.
  { intros H. injection H as <- _. exact Hst. }
  destruct dlg as [|content].
  { intros H. injection H as <- _. exact Hst. }
  destruct (read_sample (factors st) content) as [data|e].
  2:{ destruct (caught e); [|discriminate]. intros H. injection H as <- _. exact Hst. }
  destruct (name <- py_getitem data (PStr "name") ;; hashed name) as [name|e];
    [|discriminate].
  destruct (dmem name (samples st)).
  { intros H. injection H as <- _. exact Hst. }
  destruct (ordered_values (factors st) data) as [vals|e] eqn:Ev; simpl; [|discriminate].
  destruct (py_getitem data (PStr "color")) as [c|e]; simpl; [|discriminate].
  intros H. injection H as <- _. destruct Hst as [H1 H2 H3 H4].
  split; simpl.
  - exact H1.
  - exact H2.
  - apply (dset_Forall (fun s => py_len (factors st) = Ok (List.length (values s))));
      [exact H3|].
    simpl. destruct H2 as (items & Hi & _).
    rewrite (ordered_values_length _ _ _ _ Hi Ev). apply py_iter_len. exact Hi.
  - intros Hb. destruct (H4 Hb) as [Hf _]. rewrite Hf in Et. discriminate.
Qed.

Lemma change_sample_color_consistent st name picked st' shown :
  consistent st ->
  change_sample_color st name picked = Returned st' shown -> consistent st'.
Proof.
  intros Hst. unfold change_sample_color, hashed.
  destruct (hashable name); simpl; [|discriminate].
  destruct (dget name (samples st)) as [s|] eqn:Es; [|discriminate].
  destruct picked as [hex|].
  2:{ intros H. injection H as <- _. exact Hst. }
  intros H. injection H as <- _. destruct Hst as [H1 H2 H3 H4].
  split; simpl; try assumption.
  - apply (dset_Forall (fun s => py_len (factors st) = Ok (List.length (values s))));
      [exact H3|].
    simpl.
    exact (dget_Forall (fun s => py_len (factors st) = Ok (List.length (values s)))
             _ _ _ H3 Es).
  - intros Hb. destruct (H4 Hb) as [_ Hs]. rewrite Hs in Es. discriminate.
Qed.

Lemma slider_moved_consistent st name position :
  consistent st -> consistent (slider_moved st name position).
Proof.
  intros Hst. unfold slider_moved.
  destruct (dget name (factor_controls st)) as [s|] eqn:Es; [|exact Hst].
  destruct Hst as [H1 H2 H3 H4]. split; simpl; try assumption.
  - apply (dset_Forall slider_in_range); [exact H1|].
    apply setValue_in_range. exact (dget_Forall slider_in_range _ _ _ H1 Es).
  - destruct H2 as (items & Hi & Hc). exists items. split; [exact Hi|].
    eapply Forall_impl; [|exact Hc]. intros f. apply has_control_dset.
Qed.

Lemma step_consistent st ev st' shown :
  consistent st -> step st ev = Returned st' shown -> consistent st'.
Proof.
  intros Hst. destruct ev; simpl.
  - apply load_factors_consistent. exact Hst.
  - apply load_sample_consistent. exact Hst.
  - destruct (btn_add_sample st) eqn:Hb.
    + apply add_sample_consistent; assumption.
    + intros H. injection H as <- _. exact Hst.
  - destruct (btn_save_sample st).
    + destruct (save_sample st sample_to_save ok dlg) as [[m|doc]|e];
        try discriminate; intros H; injection H as <- _; exact Hst.
    + intros H. injection H as <- _. exact Hst.
  - destruct (dmem sample_name (samples st)).
    + apply change_sample_color_consistent. exact Hst.
    + intros H. injection H as <- _. exact Hst.
  - intros H. injection H as <- _. apply slider_moved_consistent. exact Hst.
Qed.

Lemma reachable_consistent st : reachable st -> consistent st.
Proof.
  induction 1 as [|st ev st' shown _ IH Hstep].
  - apply init_consistent.
  - exact (step_consistent _ _ _ _ IH Hstep).
Qed.

Lemma run_reachable evs : forall st st' shown,
  reachable st -> run st evs = Returned st' shown -> reachable st'.
Proof.
  induction evs as [|ev evs IH]; simpl; intros st st' shown Hst H.
  - injection H as <- _. exact Hst.
  - destruct (step st ev) as [st1 shown1|e] eqn:Es; [|discriminate].
    assert (reachable st1) by (eapply reachable_step; eassumption).
    destruct evs as [|ev' evs'].
    + injection H as <- _. assumption.
    + eapply IH; eassumption.
Qed.

(** ** Adding a sample by hand *)

Lemma default_color_exists n :
  exists c, nth_error default_colors (n mod List.length default_colors) = Some c.
Proof.
  destruct (nth_error default_colors (n mod List.length default_colors)) as [c|] eqn:E.
  - exists c. reflexivity.
  - apply nth_error_None in E.
    pose proof (Nat.mod_upper_bound n (List.length default_colors)) as Hlt.
    simpl in *. lia.
Qed.

(** In a consistent session [add_sample] with a new, non-empty name
    always stores a sample: the slider readings, one per factor, under
    the next default colour. *)
Lemma add_sample_stores st name :
  consistent st -> name <> "" -> dmem (PStr name) (samples st) = false ->
  exists vals c,
    add_sample st name true =
      Returned (with_sample st (PStr name) {| values := vals; color := PStr c |}) None /\
    nth_error default_colors
      (List.length (samples st) mod List.length default_colors) = Some c /\
    Forall is_score vals /\
    py_len (factors st) = Ok (List.length vals).
Proof.
  intros [H1 (items & Hi & Hc) _ _] Hname Hnew.
  destruct (comprehension_ok (slider_reading (factor_controls st)) items) as [vals Hv].
  { intros f Hf. apply slider_reading_ok. rewrite Forall_forall in Hc. auto. }
  destruct (default_color_exists (List.length (samples st))) as [c Hcol].
  exists vals, c. repeat split.
  - unfold add_sample. apply String.eqb_neq in Hname. rewrite Hname, Hnew, Hi.
    simpl. rewrite Hv. simpl in Hcol |- *. rewrite Hcol. reflexivity.
  - exact Hcol.
  - eapply comprehension_Forall; [|exact Hv].
    intros f y _. apply slider_reading_score. exact H1.
  - rewrite (comprehension_length _ _ _ Hv). apply py_iter_len. exact Hi.
Qed.

(** ** C1: the scores of stored samples *)

(** C1, as stated, fails: [load_sample] does not look at the scores of a
    sample file, so after loading the factor A and a sample file that
    gives A the score 100 the store holds a sample whose score is 100. *)
Lemma loaded_score_out_of_range :
  exists st,
    run init [LoadFactorsClicked (File (Ok Examples.factors_A));
              LoadSampleClicked (File (Ok Examples.sample_X_100))]
      = Returned st None /\
    samples st = [(PStr "X", {| values := [PInt 100]; color := PStr "#000000" |})] /\
    ~ scores_valid st.
Proof.
  eexists. split; [vm_compute; reflexivity|]. split; [reflexivity|].
  intros H. destruct (H _ _ (or_introl eq_refl)) as [Hs _].
  inversion Hs as [|v l (z & Hz & Hr) _]; subst.
  injection Hz as <-. lia.
Qed.

(** C1, amended: in every session reachable from the initial one, each
    stored sample has exactly one value per loaded factor; and a sample
    added by hand with [add_sample] under a new name is always stored
    with one integer score in [1,10] per factor.  (The values of a
    sample loaded from a file are not checked.) *)
Theorem score_vector_shape st :
  reachable st ->
  (forall name s, In (name, s) (samples st) ->
     py_len (factors st) = Ok (List.length (values s))) /\
  (forall name, name <> "" -> dmem (PStr name) (samples st) = false ->
     exists st' s,
       add_sample st name true = Returned st' None /\
       dget (PStr name) (samples st') = Some s /\
       Forall is_score (values s) /\
       py_len (factors st') = Ok (List.length (values s))).
Proof.
  intros Hr. pose proof (reachable_consistent _ Hr) as Hc. split.
  - intros name s Hin. pose proof (shapes_ok _ Hc) as H3.
    rewrite Forall_forall in H3. exact (H3 _ Hin).
  - intros name Hname Hnew.
    destruct (add_sample_stores _ _ Hc Hname Hnew) as (vals & c & Ha & _ & Hs & Hl).
    eexists. eexists. split; [exact Ha|]. simpl.
    rewrite dget_dset_same by reflexivity. repeat split; assumption.
Qed.

Lemma score_vector_shape_witness :
  py_len (factors Examples.session_ABC_X)
    = Ok (List.length (values RoundTrip.sample_X)) /\
  exists st' s,
    add_sample Examples.session_ABC_X "Y" true = Returned st' None /\
    dget (PStr "Y") (samples st') = Some s /\
    Forall is_score (values s) /\
    py_len (factors st') = Ok (List.length (values s)).
Proof.
  destruct (score_vector_shape Examples.session_ABC_X) as [H1 H2].
  - apply (run_reachable Examples.trace_ABC_X init _ None reachable_init).
    vm_compute. reflexivity.
  - split.
    + apply (H1 (PStr "X") RoundTrip.sample_X). left. reflexivity.
    + apply (H2 "Y"); [discriminate | reflexivity].
Defined.

(** ** Reading a factor file *)

Lemma is_str_eq k v : is_str k v = true <-> v = PStr k.
Proof.
  destruct v; simpl; split; intros H; try discriminate.
  - apply String.eqb_eq in H. subst. reflexivity.
  - injection H as ->. apply String.eqb_refl.
Qed.

Lemma py_in_dict k d b :
  py_in k (PDict d) = Ok b -> (b = true <-> has_key k d).
Proof.
  simpl. intros H. injection H as <-. rewrite existsb_exists. split.
  - intros ([k' v] & Hin & Hk). simpl in Hk. apply is_str_eq in Hk. subst.
    exists v. exact Hin.
  - intros (v & Hin). exists (PStr k, v). split; [exact Hin|].
    simpl. apply String.eqb_refl.
Qed.

Lemma py_in_dict_true k d : has_key k d -> py_in k (PDict d) = Ok true.
Proof.
  intros H. destruct (existsb (fun kv => is_str k (fst kv)) d) eqn:E.
  - simpl. rewrite E. reflexivity.
  - exfalso. assert (Hb : false = true); [|discriminate].
    apply (py_in_dict k d false); [simpl; rewrite E; reflexivity | exact H].
Qed.

Lemma py_in_dict_false k d : ~ has_key k d -> py_in k (PDict d) = Ok false.
Proof.
  intros H. destruct (existsb (fun kv => is_str k (fst kv)) d) eqn:E.
  - exfalso. apply H. apply (py_in_dict k d true); [simpl; rewrite E|]; reflexivity.
  - simpl. rewrite E. reflexivity.
Qed.

Lemma has_name_and_description_object d :
  exists b, has_name_and_description (PDict d) = Ok b /\
            (b = true <-> has_key "name" d /\ has_key "description" d).
Proof.
  unfold has_name_and_description.
  destruct (py_in "name" (PDict d)) as [b1|e] eqn:E1; [|discriminate].
  destruct (py_in "description" (PDict d)) as [b2|e] eqn:E2; [|discriminate].
  pose proof (py_in_dict _ _ _ E1) as H1. pose proof (py_in_dict _ _ _ E2) as H2.
  cbn [bind]. destruct b1.
  - exists b2. split; [reflexivity|]. rewrite H2. tauto.
  - exists false. split; [reflexivity|]. split; [discriminate|].
    intros [Hn _]. apply H1. exact Hn.
Qed.

Lemma py_all_objects_missing objs :
  (exists d, In d objs /\ (~ has_key "name" d \/ ~ has_key "description" d)) ->
  py_all has_name_and_description (map PDict objs) = Ok false.
Proof.
  induction objs as [|d objs IH]; intros (d0 & Hin & Hmiss).
  - destruct Hin.
  - cbn [map py_all].
    destruct (has_name_and_description_object d) as (b & -> & Hb). cbn [bind].
    destruct b; [|reflexivity].
    destruct (proj1 Hb eq_refl) as [Hn Hd].
    destruct Hin as [<-|Hin]; [tauto|].
    apply IH. exists d0. split; assumption.
Qed.

(** A list of objects one of which lacks a field is refused, and the
    session stays as it was. *)
Lemma load_factors_missing_field st objs :
  (exists d, In d objs /\ (~ has_key "name" d \/ ~ has_key "description" d)) ->
  load_factors st (File (Ok (PList (map PDict objs))))
    = Returned st (Some FailedToLoadFactorFile).
Proof.
  intros H. unfold load_factors, read_factors. simpl.
  rewrite (py_all_objects_missing _ H). reflexivity.
Qed.

Lemma setup_controls_factor_list l : forall c0,
  exists c,
    setup_controls (map (fun nd => factor (fst nd) (snd nd)) l) c0 = Ok c.
Proof.
  induction l as [|[n d] l IH]; intros c0; simpl.
  - eexists. reflexivity.
  - apply IH.
Qed.

Lemma py_all_factor_list l :
  py_all has_name_and_description (map (fun nd => factor (fst nd) (snd nd)) l)
    = Ok true.
Proof. induction l as [|[n d] l IH]; simpl; [reflexivity | exact IH]. Qed.

(** Any list of factor objects is accepted, whatever the names: the
    session then holds the list as loaded, no samples, and the add
    button is enabled. *)
Lemma load_factors_accepts st l :
  exists controls,
    load_factors st (File (Ok (factor_list l)))
      = Returned {| factors := factor_list l; samples := [];
                    factor_controls := controls;
                    btn_add_sample := true; btn_save_sample := false |} None.
Proof.
  unfold load_factors, read_factors, factor_list. simpl.
  rewrite py_all_factor_list. simpl.
  unfold _setup_ui_for_factors. simpl.
  destruct (setup_controls_factor_list l []) as [c Hc]. rewrite Hc. simpl.
  exists c. reflexivity.
Qed.

(** Whenever [load_factors] goes through, the session holds the loaded
    document itself, no sample, and the save button is disabled. *)
Lemma load_factors_success st content st' :
  load_factors st (File content) = Returned st' None ->
  content = Ok (factors st') /\ samples st' = [] /\
  btn_add_sample st' = true /\ btn_save_sample st' = false.
Proof.
  unfold load_factors, read_factors.
  destruct content as [doc|e]; simpl.
  2:{ destruct (caught e); discriminate. }
  destruct (py_iter doc) as [items|e] eqn:Ei; simpl.
  2:{ destruct (caught e); discriminate. }
  destruct (py_all has_name_and_description items) as [[|]|e]; simpl;
    try discriminate.
  2:{ destruct (caught e); discriminate. }
  unfold _setup_ui_for_factors. simpl. rewrite Ei. simpl.
  destruct (setup_controls items []) as [c|e]; simpl; [|discriminate].
  intros H. injection H as <-. simpl. repeat split.
Qed.

(** ** C2: what [load_factors] validates *)

(** C2, as stated, fails: the names of the loaded factors are never
    compared, so a factor file with two factors called A is accepted. *)
Lemma duplicate_factor_names_accepted :
  ~ NoDup ["A"; "A"] /\
  exists st,
    load_factors init (File (Ok MoreExamples.factors_A_A)) = Returned st None /\
    factors st = MoreExamples.factors_A_A.
Proof.
  split.
  - intros H. inversion H as [|x l Hx _]; subst. apply Hx. left. reflexivity.
  - eexists. split; vm_compute; reflexivity.
Qed.

(** C2, amended: [load_factors] refuses, with the factor-file message and
    without touching the session, every list of objects one of which
    lacks the name or the description; it accepts every list of factor
    objects, whether or not their names are unique; and whenever it
    accepts a document the factor list of the session is that document,
    in its order. *)
Theorem load_factors_validation st :
  (forall objs,
     (exists d, In d objs /\ (~ has_key "name" d \/ ~ has_key "description" d)) ->
     load_factors st (File (Ok (PList (map PDict objs))))
       = Returned st (Some FailedToLoadFactorFile)) /\
  (forall l, exists st',
     load_factors st (File (Ok (factor_list l))) = Returned st' None) /\
  (forall doc st',
     load_factors st (File (Ok doc)) = Returned st' None -> factors st' = doc).
Proof.
  split; [|split].
  - apply load_factors_missing_field.
  - intros l. destruct (load_factors_accepts st l) as [c Hc].
    eexists. exact Hc.
  - intros doc st' H. apply load_factors_success in H.
    destruct H as [H _]. injection H as ->. reflexivity.
Qed.

Lemma load_factors_validation_witness :
  load_factors Examples.session_ABC_X
      (File (Ok (PList (map PDict MoreExamples.objects_missing_description))))
    = Returned Examples.session_ABC_X (Some FailedToLoadFactorFile) /\
  factors MoreExamples.session_reloaded = Examples.factors_A.
Proof.
  destruct (load_factors_validation Examples.session_ABC_X) as (H1 & _ & H3).
  split.
  - apply H1. exists [(PStr "name", PStr "B")]. split.
    + right. left. reflexivity.
    + right. intros [v Hv]. simpl in Hv.
      destruct Hv as [Hv|[]]. discriminate Hv.
  - apply H3. vm_compute. reflexivity.
Defined.

(** ** C5: loading factors empties the store *)

(** C5: whenever [load_factors] accepts a factor file, the session it
    leaves has no samples, whatever the store held before. *)
Theorem load_factors_resets_samples st content st' :
  load_factors st (File content) = Returned st' None -> samples st' = [].
Proof. intros H. apply load_factors_success in H. apply H. Qed.

Lemma load_factors_resets_samples_witness :
  samples Examples.session_ABC_X <> [] /\
  samples MoreExamples.session_reloaded = [].
Proof.
  split; [discriminate|].
  apply (load_factors_resets_samples Examples.session_ABC_X (Ok Examples.factors_A)).
  vm_compute. reflexivity.
Defined.

(** ** C10: the shape of a factor document *)

Lemma name_not_in_char a : substring_of "name" (String a "") = false.
Proof.
  cbn [substring_of String.prefix].
  destruct (ascii_dec "n" a); reflexivity.
Qed.

Lemma has_name_and_description_str s :
  exists b, has_name_and_description (PStr s) = Ok b.
Proof.
  unfold has_name_and_description. cbn [py_in bind].
  destruct (substring_of "name" s); eexists; reflexivity.
Qed.

Lemma py_all_strs items :
  Forall (fun v => exists s, v = PStr s) items ->
  exists b, py_all has_name_and_description items = Ok b.
Proof.
  induction 1 as [|v items (s & ->) _ (b & IH)].
  - eexists. reflexivity.
  - cbn [py_all]. destruct (has_name_and_description_str s) as ([|] & ->); cbn [bind].
    + exists b. exact IH.
    + eexists. reflexivity.
Qed.

Lemma plain_dict_keys d :
  plain_json (PDict d) = true -> Forall (fun v => exists s, v = PStr s) (map fst d).
Proof.
  cbn [plain_json]. induction d as [|[k v] d IH]; cbn [forallb map fst snd]; intros H.
  - constructor.
  - apply andb_true_iff in H. destruct H as [Hk Hd].
    constructor; [|exact (IH Hd)].
    destruct k; try discriminate. eexists. reflexivity.
Qed.

(** A JSON document that is not a list, not the empty object and not the
    empty string is refused, or a [TypeError] leaves the slot. *)
Lemma load_factors_non_list st doc :
  plain_json doc = true -> (forall l, doc <> PList l) ->
  doc <> PDict [] -> doc <> PStr "" ->
  load_factors st (File (Ok doc)) = Returned st (Some FailedToLoadFactorFile) \/
  load_factors st (File (Ok doc)) = Uncaught TypeError.
Proof.
  intros Hj Hl Hd Hs. unfold load_factors, read_factors.
  destruct doc as [| b | z | q | s | l | d]; try (right; reflexivity).
  - destruct s as [|a s]; [congruence|]. left.
    cbn [bind py_iter chars py_all]. unfold has_name_and_description at 1.
    cbn [py_in bind]. rewrite name_not_in_char. reflexivity.
  - exfalso. apply (Hl l). reflexivity.
  - destruct d as [|[k v] d]; [congruence|].
    destruct (py_all_strs _ (plain_dict_keys _ Hj)) as [b Hb].
    cbn [bind py_iter]. rewrite Hb. cbn [bind]. destruct b.
    + right. simpl in Hj. destruct k; try discriminate. reflexivity.
    + left. reflexivity.
Qed.

(** C10, as stated, fails: an empty JSON object is not a list, yet
    [load_factors] accepts it as the factor set and enables the add
    button (and so it does the empty string). *)
Lemma empty_object_accepted :
  load_factors init (File (Ok (PDict [])))
    = Returned {| factors := PDict []; samples := []; factor_controls := [];
                  btn_add_sample := true; btn_save_sample := false |} None /\
  load_factors init (File (Ok (PStr "")))
    = Returned {| factors := PStr ""; samples := []; factor_controls := [];
                  btn_add_sample := true; btn_save_sample := false |} None.
Proof. split; reflexivity. Qed.

(** C10, amended: a factor document that is a list of objects one of
    which lacks the name or the description field is refused with the
    factor-file message and the session is left as it was; a JSON
    document that is not a list is never accepted (it is refused the
    same way, or a [TypeError] leaves the slot), except the empty object
    and the empty string. *)
Theorem factor_document_shape st :
  (forall objs d,
     In d objs -> ~ has_key "name" d \/ ~ has_key "description" d ->
     read_factors (Ok (PList (map PDict objs))) = Raise ValueError /\
     load_factors st (File (Ok (PList (map PDict objs))))
       = Returned st (Some FailedToLoadFactorFile)) /\
  (forall doc,
     plain_json doc = true -> (forall l, doc <> PList l) ->
     doc <> PDict [] -> doc <> PStr "" ->
     load_factors st (File (Ok doc)) = Returned st (Some FailedToLoadFactorFile) \/
     load_factors st (File (Ok doc)) = Uncaught TypeError).
Proof.
  split.
  - intros objs d Hin Hmiss.
    assert (H : exists d, In d objs /\
                (~ has_key "name" d \/ ~ has_key "description" d))
      by (exists d; split; assumption).
    split; [|apply load_factors_missing_field; exact H].
    unfold read_factors. simpl. rewrite (py_all_objects_missing _ H). reflexivity.
  - apply load_factors_non_list.
Qed.

Lemma factor_document_shape_witness :
  (read_factors (Ok (PList (map PDict MoreExamples.objects_missing_description)))
     = Raise ValueError /\
   load_factors init
       (File (Ok (PList (map PDict MoreExamples.objects_missing_description))))
     = Returned init (Some FailedToLoadFactorFile)) /\
  (load_factors init (File (Ok MoreExamples.object_of_factors))
     = Returned init (Some FailedToLoadFactorFile) \/
   load_factors init (File (Ok MoreExamples.object_of_factors))
     = Uncaught TypeError).
Proof.
  destruct (factor_document_shape init) as [H1 H2]. split.
  - apply (H1 _ [(PStr "name", PStr "B")]).
    + right. left. reflexivity.
    + right. intros [v Hv]. simpl in Hv.
      destruct Hv as [Hv|[]]. discriminate Hv.
  - apply (H2 MoreExamples.object_of_factors).
    + reflexivity.
    + intros l. discriminate.
    + discriminate.
    + discriminate.
Defined.

(** ** Sets of keys *)

Lemma set_mem_member x s : set_mem x s = true <-> member x s.
Proof. unfold set_mem, member. apply existsb_exists. Qed.

Lemma set_subset_spec s t :
  forallb hashable s = true ->
  (set_subset s t = true <-> forall x, member x s -> member x t).
Proof.
  intros Hs. unfold set_subset. rewrite forallb_forall. split.
  - intros H x (y & Hy & Exy).
    destruct (proj1 (set_mem_member y t) (H y Hy)) as (z & Hz & Eyz). exists z. split; [exact Hz|].
    exact (key_eqb_trans _ _ _ Exy Eyz).
  - intros H y Hy. apply set_mem_member. apply H. exists y. split; [exact Hy|].
    apply key_eqb_refl. rewrite forallb_forall in Hs. auto.
Qed.

Lemma set_eqb_spec s t :
  forallb hashable s = true -> forallb hashable t = true ->
  (set_eqb s t = true <-> same_set s t).
Proof.
  intros Hs Ht. unfold set_eqb, same_set. rewrite andb_true_iff.
  rewrite (set_subset_spec s t Hs), (set_subset_spec t s Ht).
  split.
  - intros [H1 H2] x. split; auto.
  - intros H. split; intros x; apply H.
Qed.

Lemma comprehension_hashed l :
  forallb hashable l = true -> comprehension hashed l = Ok l.
Proof.
  induction l as [|x l IH]; simpl; [reflexivity|].
  rewrite andb_true_iff. intros [Hx Hl]. unfold hashed at 1. rewrite Hx.
  simpl. rewrite (IH Hl). reflexivity.
Qed.

Lemma factor_names_hashable fs names :
  factor_names fs = Ok names -> forallb hashable names = true.
Proof.
  unfold factor_names. destruct (py_iter fs) as [items|e]; simpl; [|discriminate].
  intros H. apply forallb_forall. apply Forall_forall.
  eapply comprehension_Forall; [|exact H].
  intros f y _. simpl. destruct (py_getitem f (PStr "name")) as [n|e]; simpl; [|discriminate].
  unfold hashed. destruct (hashable n) eqn:E; [|discriminate].
  intros Hy. injection Hy as <-. exact E.
Qed.

(** The factors of a reachable session all have a hashable name. *)
Lemma consistent_factor_names st :
  consistent st -> exists names, factor_names (factors st) = Ok names.
Proof.
  intros [_ (items & Hi & Hc) _ _]. unfold factor_names. rewrite Hi. simpl.
  apply comprehension_ok. intros f Hf. rewrite Forall_forall in Hc.
  destruct (Hc f Hf) as (name & Hn & Hh & _). rewrite Hn. simpl.
  unfold hashed. rewrite Hh. eexists. reflexivity.
Qed.

(** ** C3: the keys of a sample file *)

Lemma read_sample_keys_differ fs d vals names :
  dget (PStr "values") d = Some (PDict vals) ->
  forallb hashable (dkeys vals) = true ->
  factor_names fs = Ok names ->
  ~ same_set (dkeys vals) names ->
  read_sample fs (Ok (PDict d)) = Raise ValueError.
Proof.
  intros Hv Hk Hn Hne. unfold read_sample. cbn [bind].
  destruct (py_all (fun k => py_in k (PDict d)) ["name"; "values"; "color"])
    as [[|]|e] eqn:Ea; cbn [bind negb].
  - cbn [py_getitem hashable]. rewrite Hv. cbn [bind py_keys].
    rewrite (comprehension_hashed _ Hk). cbn [bind]. rewrite Hn. cbn [bind].
    destruct (set_eqb (dkeys vals) names) eqn:E; [|reflexivity].
    exfalso. apply Hne.
    apply (set_eqb_spec _ _ Hk (factor_names_hashable _ _ Hn)). exact E.
  - reflexivity.
  - exfalso. simpl in Ea.
    repeat match type of Ea with
           | context [existsb ?f ?l] => destruct (existsb f l); simpl in Ea
           end; discriminate.
Qed.

(** C3: when the factor list is not empty and the keys of the [values]
    object of a sample document are not exactly the names of the
    factors, [load_sample] refuses the document with the sample-file
    message and leaves the session as it was, whatever the scores are. *)
Theorem sample_keys_must_match st d vals names :
  truthy (factors st) = true ->
  factor_names (factors st) = Ok names ->
  dget (PStr "values") d = Some (PDict vals) ->
  forallb hashable (dkeys vals) = true ->
  ~ same_set (dkeys vals) names ->
  read_sample (factors st) (Ok (PDict d)) = Raise ValueError /\
  load_sample st (File (Ok (PDict d)))
    = Returned st (Some FailedToLoadSampleFile).
Proof.
  intros Ht Hn Hv Hk Hne.
  pose proof (read_sample_keys_differ _ _ _ _ Hv Hk Hn Hne) as Hr.
  split; [exact Hr|].
  unfold load_sample. rewrite Ht. cbn [negb]. rewrite Hr. reflexivity.
Qed.

Lemma sample_keys_must_match_witness :
  read_sample (factors Examples.session_ABC_X) (Ok (PDict SampleFiles.sample_Y_A_B))
    = Raise ValueError /\
  load_sample Examples.session_ABC_X (File (Ok (PDict SampleFiles.sample_Y_A_B)))
    = Returned Examples.session_ABC_X (Some FailedToLoadSampleFile).
Proof.
  apply (sample_keys_must_match Examples.session_ABC_X SampleFiles.sample_Y_A_B
           SampleFiles.values_A_B SampleFiles.names_ABC).
  - reflexivity.
  - reflexivity.
  - reflexivity.
  - reflexivity.
  - intros H. destruct (proj2 (H (PStr "C"))) as (y & Hy & E).
    + exists (PStr "C"). split; [right; right; left; reflexivity | reflexivity].
    + simpl in Hy. destruct Hy as [<-|[<-|[]]]; discriminate E.
Defined.

(** ** C4: a name already in the store *)

(** C4: a sample whose name is already in the store is refused with the
    duplicate-name message and the session is left exactly as it was,
    both when the name is typed into [add_sample] and when it comes from
    a sample file that [load_sample] has read and checked. *)
Theorem duplicate_name_rejected st :
  (forall name,
     name <> "" -> dmem (PStr name) (samples st) = true ->
     add_sample st name true = Returned st (Some DuplicateName)) /\
  (forall data name,
     truthy (factors st) = true ->
     read_sample (factors st) (Ok data) = Ok data ->
     py_getitem data (PStr "name") = Ok name ->
     dmem name (samples st) = true ->
     load_sample st (File (Ok data)) = Returned st (Some DuplicateName)).
Proof.
  split.
  - intros name Hname Hdup. unfold add_sample.
    apply String.eqb_neq in Hname. rewrite Hname, Hdup. reflexivity.
  - intros data name Ht Hr Hn Hdup. unfold load_sample.
    rewrite Ht. cbn [negb]. rewrite Hr, Hn. cbn [bind]. unfold hashed.
    rewrite (dmem_hashable _ _ Hdup). rewrite Hdup. reflexivity.
Qed.

Lemma duplicate_name_rejected_witness :
  add_sample Examples.session_ABC_X "X" true
    = Returned Examples.session_ABC_X (Some DuplicateName) /\
  load_sample Examples.session_ABC_X (File (Ok SampleFiles.sample_X_ABC))
    = Returned Examples.session_ABC_X (Some DuplicateName).
Proof.
  destruct (duplicate_name_rejected Examples.session_ABC_X) as [H1 H2]. split.
  - apply H1; [discriminate | reflexivity].
  - apply (H2 SampleFiles.sample_X_ABC (PStr "X")); reflexivity.
Defined.

(** ** C8: the default colour *)

Lemma load_sample_success st data st' :
  load_sample st (File (Ok data)) = Returned st' None ->
  exists name vals c,
    py_getitem data (PStr "name") = Ok name /\
    hashable name = true /\
    dmem name (samples st) = false /\
    ordered_values (factors st) data = Ok vals /\
    py_getitem data (PStr "color") = Ok c /\
    st' = with_sample st name {| values := vals; color := c |}.
Proof.
  unfold load_sample.
  destruct (negb (truthy (factors st))); [discriminate|].
  destruct (read_sample (factors st) (Ok data)) as [data'|e] eqn:Er.
  2:{ destruct (caught e); discriminate. }
  assert (data' = data) as ->.
  { unfold read_sample in Er. cbn [bind] in Er.
    destruct (py_all _ _) as [[|]|e]; cbn [bind negb] in Er; try discriminate.
    destruct (py_getitem data (PStr "values")) as [v|e]; cbn [bind] in Er; [|discriminate].
    destruct (py_keys v) as [ks|e]; cbn [bind] in Er; [|discriminate].
    destruct (comprehension hashed ks) as [lhs|e]; cbn [bind] in Er; [|discriminate].
    destruct (factor_names (factors st)) as [rhs|e]; cbn [bind] in Er; [|discriminate].
    destruct (negb (set_eqb lhs rhs)); [discriminate|].
    injection Er as <-. reflexivity. }
  destruct (py_getitem data (PStr "name")) as [name|e] eqn:En; cbn [bind];
    [|discriminate].
  unfold hashed. destruct (hashable name) eqn:Eh; [|discriminate].
  destruct (dmem name (samples st)) eqn:Ed; [discriminate|].
  destruct (ordered_values (factors st) data) as [vals|e] eqn:Ev; cbn [bind];
    [|discriminate].
  destruct (py_getitem data (PStr "color")) as [c|e] eqn:Ec; cbn [bind];
    [|discriminate].
  intros H. injection H as <-. exists name, vals, c. repeat split; assumption.
Qed.

(** C8: a sample added with [add_sample] gets the colour
    [default_colors[n mod 6]], [n] being the number of samples in the
    store just before; a sample loaded from a file keeps the colour of
    the file and a recoloured sample the colour picked; and recolouring
    a sample does not change the colour the next added sample gets. *)
Theorem default_color_cycles st :
  reachable st ->
  (forall name, name <> "" -> dmem (PStr name) (samples st) = false ->
     exists st' s c,
       add_sample st name true = Returned st' None /\
       dget (PStr name) (samples st') = Some s /\
       nth_error default_colors (List.length (samples st) mod 6) = Some c /\
       color s = PStr c) /\
  (forall data st',
     load_sample st (File (Ok data)) = Returned st' None ->
     exists name s,
       py_getitem data (PStr "name") = Ok name /\
       dget name (samples st') = Some s /\
       py_getitem data (PStr "color") = Ok (color s)) /\
  (forall other color_hex st' shown,
     change_sample_color st other (Some color_hex) = Returned st' shown ->
     (exists s, dget other (samples st') = Some s /\ color s = PStr color_hex) /\
     next_default_color st' = next_default_color st).
Proof.
  intros Hr. pose proof (reachable_consistent _ Hr) as Hc. split; [|split].
  - intros name Hname Hnew.
    destruct (add_sample_stores _ _ Hc Hname Hnew) as (vals & c & Ha & Hcol & _ & _).
    eexists. eexists. exists c. split; [exact Ha|]. simpl.
    rewrite dget_dset_same by reflexivity. repeat split. exact Hcol.
  - intros data st' H.
    destruct (load_sample_success _ _ _ H) as (name & vals & c & Hn & Hh & _ & _ & Hcol & ->).
    eexists. eexists. split; [exact Hn|]. simpl.
    rewrite dget_dset_same by assumption. split; [reflexivity | exact Hcol].
  - intros other hex st' shown. unfold change_sample_color, hashed.
    destruct (hashable other) eqn:Eh; cbn [bind]; [|discriminate].
    destruct (dget other (samples st)) as [s|] eqn:Es; [|discriminate].
    intros H. injection H as <- _. simpl. split.
    + eexists. rewrite dget_dset_same by assumption. split; reflexivity.
    + unfold next_default_color. simpl. rewrite dset_length_mem; [reflexivity|].
      unfold dmem. rewrite Es. reflexivity.
Qed.

Lemma default_color_cycles_witness :
  (exists st' s c,
     add_sample Examples.session_ABC_X "Y" true = Returned st' None /\
     dget (PStr "Y") (samples st') = Some s /\
     nth_error default_colors (List.length (samples Examples.session_ABC_X) mod 6)
       = Some c /\
     color s = PStr c) /\
  (exists name s,
     py_getitem SampleFiles.sample_Z_ABC (PStr "name") = Ok name /\
     dget name (samples Sessions.session_with_Z) = Some s /\
     py_getitem SampleFiles.sample_Z_ABC (PStr "color") = Ok (color s)) /\
  ((exists s, dget (PStr "X") (samples Sessions.session_recolored) = Some s /\
              color s = PStr "#123456") /\
   next_default_color Sessions.session_recolored
     = next_default_color Examples.session_ABC_X).
Proof.
  assert (Hc : reachable Examples.session_ABC_X).
  { apply (run_reachable Examples.trace_ABC_X init _ None reachable_init).
    vm_compute. reflexivity. }
  destruct (default_color_cycles Examples.session_ABC_X Hc) as (H1 & H2 & H3).
  split; [|split].
  - apply H1; [discriminate | reflexivity].
  - apply H2. vm_compute. reflexivity.
  - apply (H3 (PStr "X") "#123456" _ None). vm_compute. reflexivity.
Defined.

(** ** C9: samples need a loaded factor file *)

(** C9, as stated, fails: after a factor file whose two factors both
    have the empty name is loaded, [add_sample] creates a sample. *)
Lemma sample_created_with_unnamed_factors :
  exists st,
    run init Sessions.trace_unnamed_X = Returned st None /\
    factors st = Sessions.factors_unnamed /\
    samples st = [(PStr "X", {| values := [PInt 5; PInt 5];
                                color := PStr "#34a853" |})].
Proof. eexists. split; [vm_compute; reflexivity|]. split; reflexivity. Qed.

Lemma load_factors_same_or_empty st dlg st' shown :
  load_factors st dlg = Returned st' shown -> st' = st \/ samples st' = [].
Proof.
  destruct dlg as [|content].
  - simpl. intros H. injection H as <- _. left. reflexivity.
  - destruct shown as [m|].
    + unfold load_factors. destruct (read_factors content) as [doc|e].
      * cbv zeta. destruct (_setup_ui_for_factors _); discriminate.
      * destruct (caught e); [|discriminate].
        intros H. injection H as <- _. left. reflexivity.
    + intros H. right. apply load_factors_success in H. apply H.
Qed.

(** C9, amended: no sample can be created before a factor file has been
    accepted.  In a reachable session whose add button is still
    disabled, no event leaves a sample in the store; and [load_sample]
    refuses, without reading the file, whenever the factor list is
    empty.  (Factor names need be neither unique nor non-empty.) *)
Theorem no_sample_before_factors st :
  reachable st ->
  (btn_add_sample st = false ->
   forall ev st' shown, step st ev = Returned st' shown -> samples st' = []) /\
  (truthy (factors st) = false ->
   forall dlg, load_sample st dlg = Returned st (Some PleaseLoadFactors)).
Proof.
  intros Hr. split.
  - intros Hb ev st' shown.
    destruct (disabled_ok _ (reachable_consistent _ Hr) Hb) as [Hf Hs].
    destruct ev; simpl.
    + intros H. destruct (load_factors_same_or_empty _ _ _ _ H) as [->|H']; assumption.
    + unfold load_sample. rewrite Hf. simpl. intros H. injection H as <- _. exact Hs.
    + rewrite Hb. intros H. injection H as <- _. exact Hs.
    + destruct (btn_save_sample st);
        [destruct (save_sample st sample_to_save ok dlg) as [[m|doc]|e]|];
        try discriminate; intros H; injection H as <- _; exact Hs.
    + rewrite Hs. simpl. intros H. injection H as <- _. exact Hs.
    + intros H. injection H as <- _. unfold slider_moved.
      destruct (dget name (factor_controls st)); exact Hs.
  - intros Ht dlg. unfold load_sample. rewrite Ht. reflexivity.
Qed.

Lemma no_sample_before_factors_witness :
  samples init = [] /\
  load_sample init (File (Ok SampleFiles.sample_X_ABC))
    = Returned init (Some PleaseLoadFactors).
Proof.
  destruct (no_sample_before_factors init reachable_init) as [H1 H2]. split.
  - apply (H1 eq_refl (AddSampleClicked "X" true) init None). reflexivity.
  - apply H2. reflexivity.
Defined.

(** ** C7: the polygon of a sample *)

Lemma nth_error_map_seq {A} (f : nat -> A) n : forall s i,
  i < n -> nth_error (map f (seq s n)) i = Some (f (s + i)).
Proof.
  induction n as [|n IH]; intros s i Hi; [lia|].
  destruct i as [|i]; simpl.
  - rewrite Nat.add_0_r. reflexivity.
  - rewrite IH by lia. f_equal. f_equal. lia.
Qed.

Lemma linspace_length start stop num : List.length (linspace start stop num) = num.
Proof. unfold linspace. rewrite length_map, length_seq. reflexivity. Qed.

Lemma linspace_nth start stop num i :
  i < num ->
  nth_error (linspace start stop num) i
    = Some (INR i * ((stop - start) / INR num) + start)%R.
Proof. intros Hi. unfold linspace. rewrite nth_error_map_seq by exact Hi. reflexivity. Qed.

Lemma close_loop_length {A} (l : list A) :
  l <> [] -> List.length (close_loop l) = S (List.length l).
Proof.
  destruct l as [|x l]; [congruence|]. intros _. unfold close_loop.
  rewrite length_app. simpl. lia.
Qed.

Lemma close_loop_nth {A} (l : list A) i :
  i < List.length l -> nth_error (close_loop l) i = nth_error l i.
Proof. intros Hi. unfold close_loop. apply nth_error_app1. exact Hi. Qed.

Lemma close_loop_last {A} (l : list A) :
  nth_error (close_loop l) (List.length l) = nth_error l 0.
Proof.
  unfold close_loop. rewrite nth_error_app2 by lia. rewrite Nat.sub_diag.
  destruct l; reflexivity.
Qed.

Lemma nth_error_combine_some {A B} (xs : list A) (ys : list B) : forall i x y,
  nth_error xs i = Some x -> nth_error ys i = Some y ->
  nth_error (combine xs ys) i = Some (x, y).
Proof.
  revert ys. induction xs as [|x0 xs IH]; intros ys i x y Hx Hy.
  - destruct i; discriminate.
  - destruct ys as [|y0 ys]; [destruct i; discriminate|].
    destruct i as [|i]; simpl in *.
    + injection Hx as <-. injection Hy as <-. reflexivity.
    + apply IH; assumption.
Qed.

(** C7: for [m >= 1] factors and a score vector of length [m], the
    polygon has exactly [m + 1] points; for [i < m] the [i]-th point has
    the angle [i * (2 * PI / m)] and the [i]-th score as radius; and the
    last point equals the first. *)
Theorem polygon_closed m scores :
  1 <= m -> List.length scores = m ->
  exists pts,
    polygon m scores = Ok pts /\
    List.length pts = m + 1 /\
    (forall i, i < m ->
       exists r, nth_error scores i = Some r /\
                 nth_error pts i = Some ((INR i * (2 * PI / INR m))%R, r)) /\
    nth_error pts m = nth_error pts 0.
Proof.
  intros Hm Hlen.
  assert (Hs : scores <> []) by (intros ->; simpl in Hlen; lia).
  assert (Ha : linspace 0 (2 * PI) m <> []).
  { intros E. pose proof (linspace_length 0 (2 * PI) m) as L.
    rewrite E in L. simpl in L. lia. }
  assert (Hla : List.length (chart_angles m) = S m).
  { unfold chart_angles. rewrite close_loop_length by exact Ha.
    rewrite linspace_length. reflexivity. }
  assert (Hls : List.length (close_loop scores) = S m).
  { rewrite close_loop_length by exact Hs. congruence. }
  assert (Hpt : forall i, i < m ->
            exists r, nth_error scores i = Some r /\
              nth_error (combine (chart_angles m) (close_loop scores)) i
                = Some ((INR i * (2 * PI / INR m))%R, r)).
  { intros i Hi.
    destruct (nth_error scores i) as [r|] eqn:Er.
    2:{ apply nth_error_None in Er. lia. }
    exists r. split; [reflexivity|].
    apply nth_error_combine_some.
    - unfold chart_angles. rewrite close_loop_nth by (rewrite linspace_length; exact Hi).
      rewrite linspace_nth by exact Hi. f_equal. unfold Rdiv. ring.
    - rewrite close_loop_nth by lia. exact Er. }
  exists (combine (chart_angles m) (close_loop scores)). repeat split.
  - unfold polygon, plot. rewrite Hla, Hls, Nat.eqb_refl. reflexivity.
  - rewrite length_combine, Hla, Hls. lia.
  - exact Hpt.
  - destruct (Hpt 0) as (r & Hr & Hp); [lia|]. rewrite Hp.
    apply nth_error_combine_some.
    + unfold chart_angles.
      replace m with (List.length (linspace 0 (2 * PI) m)) at 2
        by apply linspace_length.
      rewrite close_loop_last. rewrite linspace_nth by lia.
      f_equal. unfold Rdiv. ring.
    + rewrite <- Hlen. rewrite close_loop_last. exact Hr.
Qed.

Lemma polygon_closed_witness :
  exists pts,
    polygon 3 [PInt 5; PInt 8; PInt 5] = Ok pts /\
    List.length pts = 3 + 1 /\
    (forall i, i < 3 ->
       exists r, nth_error [PInt 5; PInt 8; PInt 5] i = Some r /\
                 nth_error pts i = Some ((INR i * (2 * PI / INR 3))%R, r)) /\
    nth_error pts 3 = nth_error pts 0.
Proof. apply (polygon_closed 3 [PInt 5; PInt 8; PInt 5]); [lia | reflexivity]. Defined.

(** ** C6: saving a sample and loading it back *)

Lemma dmem_fresh_name {V} (acc : pydict V) pre n :
  dkeys acc = map PStr pre -> ~ In n pre -> dmem (PStr n) acc = false.
Proof.
  unfold dmem. revert pre. induction acc as [|[k v] acc IH]; intros pre Hk Hn.
  - reflexivity.
  - destruct pre as [|p pre]; [discriminate|]. simpl in Hk.
    injection Hk as -> Hk. simpl.
    destruct (String.eqb p n) eqn:E.
    + apply String.eqb_eq in E. subst. exfalso. apply Hn. left. reflexivity.
    + apply (IH pre Hk). intros Hin. apply Hn. right. exact Hin.
Qed.

Lemma seq_item_app {A} (pre : list A) x post :
  seq_item (pre ++ x :: post) (Z.of_nat (List.length pre)) = Ok x.
Proof.
  unfold seq_item.
  destruct (Z.of_nat (List.length pre) <? 0)%Z eqn:E.
  { apply Z.ltb_lt in E. lia. }
  rewrite length_app. cbn [List.length].
  rewrite (proj2 (Z.leb_le _ _)) by lia.
  rewrite (proj2 (Z.ltb_lt _ _)) by lia.
  cbn [andb]. rewrite Nat2Z.id. rewrite nth_error_app2 by lia.
  rewrite Nat.sub_diag. reflexivity.
Qed.

Lemma values_by_name_named : forall post fpost vals pre fpre acc,
  named fpre pre -> named fpost post -> NoDup (pre ++ post) ->
  List.length vals = List.length post ->
  dkeys acc = map PStr pre ->
  values_by_name (PList (fpre ++ fpost)) (List.length pre) vals acc
    = Ok (acc ++ scores_by_name post vals).
Proof.
  induction post as [|n post IH]; intros fpost vals pre fpre acc Hpre Hpost Hnd Hlen Hacc.
  - destruct vals; [|discriminate]. simpl. rewrite app_nil_r. reflexivity.
  - destruct vals as [|v vals]; [discriminate|].
    inversion Hpost as [|f n' fpost' post' Hf Hpost']; subst.
    cbn [values_by_name py_getitem py_index].
    rewrite <- (Forall2_length Hpre). rewrite seq_item_app. cbn [bind].
    rewrite Hf. cbn [bind hashed hashable].
    assert (Hfresh : ~ In n pre).
    { apply NoDup_remove_2 in Hnd. intros Hin. apply Hnd.
      apply in_or_app. left. exact Hin. }
    rewrite (dset_fresh _ _ _ (dmem_fresh_name acc pre n Hacc Hfresh)).
    replace (fpre ++ f :: fpost') with ((fpre ++ [f]) ++ fpost')
      by (rewrite <- app_assoc; reflexivity).
    replace (S (List.length fpre)) with (List.length (pre ++ [n]))
      by (rewrite length_app, (Forall2_length Hpre); simpl; lia).
    rewrite (IH fpost' vals (pre ++ [n]) (fpre ++ [f]) (acc ++ [(PStr n, v)])).
    + rewrite <- app_assoc. reflexivity.
    + apply Forall2_app; [exact Hpre | constructor; [exact Hf | constructor]].
    + exact Hpost'.
    + rewrite <- app_assoc. exact Hnd.
    + simpl in Hlen. lia.
    + unfold dkeys in *. rewrite !map_app, Hacc. reflexivity.
Qed.

Lemma dget_scores_by_name : forall pre vpre n v post vpost,
  List.length vpre = List.length pre -> ~ In n pre ->
  dget (PStr n) (scores_by_name (pre ++ n :: post) (vpre ++ v :: vpost)) = Some v.
Proof.
  unfold scores_by_name.
  induction pre as [|p pre IH]; intros vpre n v post vpost Hlen Hn.
  - destruct vpre; [|discriminate]. simpl. rewrite String.eqb_refl. reflexivity.
  - destruct vpre as [|w vpre]; [discriminate|]. simpl.
    destruct (String.eqb p n) eqn:E.
    + apply String.eqb_eq in E. subst. exfalso. apply Hn. left. reflexivity.
    + apply IH; [simpl in Hlen; lia|]. intros Hin. apply Hn. right. exact Hin.
Qed.

Lemma ordered_values_named by_all : forall post fpost vpost pre vpre,
  named fpost post -> NoDup (pre ++ post) ->
  List.length vpre = List.length pre -> List.length vpost = List.length post ->
  by_all = scores_by_name (pre ++ post) (vpre ++ vpost) ->
  comprehension
    (fun f => name <- py_getitem f (PStr "name") ;; py_getitem (PDict by_all) name)
    fpost = Ok vpost.
Proof.
  induction post as [|n post IH]; intros fpost vpost pre vpre Hpost Hnd Hl1 Hl2 Hby.
  - inversion Hpost; subst. destruct vpost; [reflexivity | discriminate].
  - inversion Hpost as [|f n' fpost' post' Hf Hpost']; subst.
    destruct vpost as [|v vpost]; [discriminate|].
    set (body := fun f => name <- py_getitem f (PStr "name") ;; _).
    cbn [comprehension]. unfold body at 1. rewrite Hf.
    cbn [bind py_getitem hashable].
    rewrite dget_scores_by_name.
    + cbn [bind]. unfold body.
      rewrite (IH fpost' vpost (pre ++ [n]) (vpre ++ [v])).
      * reflexivity.
      * exact Hpost'.
      * rewrite <- app_assoc. exact Hnd.
      * rewrite !length_app. simpl. lia.
      * simpl in Hl2. lia.
      * rewrite <- !app_assoc. reflexivity.
    + exact Hl1.
    + apply NoDup_remove_2 in Hnd. intros Hin. apply Hnd.
      apply in_or_app. left. exact Hin.
Qed.

Lemma factor_names_named fs names :
  named fs names -> factor_names (PList fs) = Ok (map PStr names).
Proof.
  unfold factor_names. cbn [py_iter bind].
  induction 1 as [|f n fs names Hf _ IH]; [reflexivity|].
  cbn [comprehension map]. rewrite Hf. cbn [bind hashed hashable].
  rewrite IH. reflexivity.
Qed.

Lemma hashable_names names : forallb hashable (map PStr names) = true.
Proof. induction names; simpl; auto. Qed.

Lemma set_eqb_refl s : forallb hashable s = true -> set_eqb s s = true.
Proof. intros H. apply set_eqb_spec; try assumption. intros x. reflexivity. Qed.

Lemma dkeys_scores_by_name names vals :
  List.length vals = List.length names ->
  dkeys (scores_by_name names vals) = map PStr names.
Proof.
  unfold dkeys, scores_by_name. revert vals.
  induction names as [|n names IH]; intros vals Hlen.
  - reflexivity.
  - destruct vals as [|v vals]; [discriminate|]. simpl. f_equal.
    apply IH. simpl in Hlen. lia.
Qed.

Lemma plain_scores_by_name names vals :
  forallb plain_json vals = true ->
  plain_json (PDict (scores_by_name names vals)) = true.
Proof.
  unfold scores_by_name. revert vals.
  induction names as [|n names IH]; intros vals Hv; [reflexivity|].
  destruct vals as [|v vals]; [reflexivity|].
  simpl in Hv. apply andb_true_iff in Hv. destruct Hv as [Hv Hvs].
  cbn [map combine plain_json forallb fst snd]. rewrite Hv.
  apply (IH vals Hvs).
Qed.

Lemma comprehension_ext {A B} (f g : A -> res B) l :
  (forall x, f x = g x) -> comprehension f l = comprehension g l.
Proof.
  intros H. induction l as [|x l IH]; simpl; [reflexivity|].
  rewrite H, IH. reflexivity.
Qed.

Lemma named_nonempty fs names : named fs names -> names <> [] -> truthy (PList fs) = true.
Proof. intros H Hn. destruct H; [congruence | reflexivity]. Qed.

Lemma read_sample_saved fs names name s :
  named fs names -> List.length (values s) = List.length names ->
  read_sample (PList fs) (Ok (saved_doc name names s)) = Ok (saved_doc name names s).
Proof.
  intros Hf Hlen. unfold read_sample, saved_doc.
  cbn [bind py_all py_in existsb fst is_str String.eqb Ascii.eqb Bool.eqb orb negb
       py_getitem hashable dget key_eqb py_keys].
  rewrite (dkeys_scores_by_name _ _ Hlen).
  rewrite (comprehension_hashed _ (hashable_names names)). cbn [bind].
  rewrite (factor_names_named _ _ Hf). cbn [bind].
  rewrite (set_eqb_refl _ (hashable_names names)). reflexivity.
Qed.

Lemma ordered_values_saved fs names name s :
  named fs names -> NoDup names -> List.length (values s) = List.length names ->
  ordered_values (PList fs) (saved_doc name names s) = Ok (values s).
Proof.
  intros Hf Hnd Hlen. unfold ordered_values. cbn [py_iter bind].
  rewrite (comprehension_ext _
             (fun f => n <- py_getitem f (PStr "name") ;;
                       py_getitem (PDict (scores_by_name names (values s))) n)).
  - apply (ordered_values_named _ names fs (values s) [] []); auto.
  - intros f. reflexivity.
Qed.

(** C6: when the factors of the session have distinct string names and
    the sample [s] stored under [name] has one JSON value per factor,
    [save_sample] dumps a document made of plain JSON; that document
    passes the checks of [load_sample] against the same factors, which
    recovers from it the name, the colour and the scores of [s] in
    factor order; so in any session with the same factors and no sample
    called [name], [load_sample] stores exactly [s] under [name]. *)
Theorem sample_round_trip st fs names name s :
  factors st = PList fs -> named fs names -> names <> [] -> NoDup names ->
  name <> "" ->
  dget (PStr name) (samples st) = Some s ->
  List.length (values s) = List.length names ->
  forallb plain_json (values s) = true -> plain_json (color s) = true ->
  exists doc,
    save_sample st name true (SaveTo true) = Ok (Dumped doc) /\
    plain_json doc = true /\
    (read_sample (factors st) (Ok doc) = Ok doc /\
     py_getitem doc (PStr "name") = Ok (PStr name) /\
     py_getitem doc (PStr "color") = Ok (color s) /\
     ordered_values (factors st) doc = Ok (values s)) /\
    forall st',
      factors st' = factors st -> dmem (PStr name) (samples st') = false ->
      exists st'',
        load_sample st' (File (Ok doc)) = Returned st'' None /\
        dget (PStr name) (samples st'') = Some s /\
        List.length (samples st'') = S (List.length (samples st')).
Proof.
  intros Hfs Hf Hne Hnd Hname Hs Hlen Hpv Hpc.
  exists (saved_doc name names s).
  pose proof (read_sample_saved fs names name s Hf Hlen) as Hr.
  pose proof (ordered_values_saved fs names name s Hf Hnd Hlen) as Ho.
  repeat split.
  - unfold save_sample.
    destruct (samples st) as [|kv rest] eqn:Es; [discriminate|].
    cbn [List.length Nat.eqb]. apply String.eqb_neq in Hname. rewrite Hname.
    cbn [negb andb]. rewrite Hs. unfold output_data. rewrite Hfs.
    pose proof (values_by_name_named names fs (values s) [] [] []
                  (Forall2_nil _) Hf Hnd Hlen eq_refl) as Hv.
    cbn [app List.length] in Hv. rewrite Hv. reflexivity.
  - pose proof (plain_scores_by_name names _ Hpv) as Hps.
    unfold saved_doc. cbn [plain_json forallb fst snd] in Hps |- *.
    rewrite Hpc, Hps. reflexivity.
  - rewrite Hfs. exact Hr.
  - rewrite Hfs. exact Ho.
  - intros st' Hst' Hnew. unfold load_sample. rewrite Hst', Hfs.
    rewrite (named_nonempty _ _ Hf Hne). cbn [negb]. rewrite Hr.
    cbn [saved_doc py_getitem hashable dget key_eqb String.eqb Ascii.eqb Bool.eqb
         bind hashed].
    rewrite Hnew.
    rewrite Ho.
    cbn [bind]. eexists. split; [reflexivity|]. cbn [samples]. split.
    + rewrite dget_dset_same by reflexivity. destruct s. reflexivity.
    + rewrite (dset_fresh _ _ _ Hnew). rewrite length_app. simpl. lia.
Qed.

Lemma sample_round_trip_witness :
  exists doc,
    save_sample Examples.session_ABC_X "X" true (SaveTo true) = Ok (Dumped doc) /\
    plain_json doc = true /\
    exists st'',
      load_sample RoundTrip.session_ABC (File (Ok doc)) = Returned st'' None /\
      dget (PStr "X") (samples st'') = Some RoundTrip.sample_X.
Proof.
  destruct (sample_round_trip Examples.session_ABC_X
              [factor "A" "first axis"; factor "B" "second axis";
               factor "C" "third axis"]
              ["A"; "B"; "C"] "X" RoundTrip.sample_X)
    as (doc & Hsave & Hplain & _ & Hload).
  - reflexivity.
  - repeat constructor.
  - discriminate.
  - repeat constructor; simpl; intuition discriminate.
  - discriminate.
  - reflexivity.
  - reflexivity.
  - reflexivity.
  - reflexivity.
  - exists doc. split; [exact Hsave|]. split; [exact Hplain|].
    destruct (Hload RoundTrip.session_ABC) as (st'' & H1 & H2 & _);
      [reflexivity | reflexivity |].
    exists st''. split; assumption.
Defined.

(** ** The chart of a reachable session *)

Lemma polygon_draws m scores :
  1 <= m -> List.length scores = m ->
  polygon m scores = Ok (combine (chart_angles m) (close_loop scores)).
Proof.
  intros Hm Hlen. unfold polygon, plot.
  assert (Ha : linspace 0 (2 * PI) m <> []).
  { intros E. pose proof (linspace_length 0 (2 * PI) m) as L.
    rewrite E in L. simpl in L. lia. }
  assert (Hs : scores <> []) by (intros ->; simpl in Hlen; lia).
  unfold chart_angles. rewrite !close_loop_length by assumption.
  rewrite linspace_length, Hlen, Nat.eqb_refl. reflexivity.
Qed.

Lemma truthy_len v m : truthy v = true -> py_len v = Ok m -> 1 <= m.
Proof.
  destruct v; simpl; try discriminate; intros Ht Hl; injection Hl as <-.
  - destruct s; [discriminate | simpl; lia].
  - destruct l; [discriminate | simpl; lia].
  - destruct d; [discriminate | simpl; lia].
Qed.

(** In a reachable session [_update_chart] always has a chart to draw:
    every stored score vector fits the angles of the loaded factors. *)
Lemma update_chart_draws st :
  reachable st -> exists c, _update_chart st = Ok c.
Proof.
  intros Hr. destruct (reachable_consistent _ Hr) as [_ (items & Hi & Hc) H3 _].
  unfold _update_chart. destruct (truthy (factors st)) eqn:Ht; cbn [negb].
  2:{ eexists. reflexivity. }
  pose proof (py_iter_len _ _ Hi) as Hl. rewrite Hl, Hi. cbn [bind].
  pose proof (truthy_len _ _ Ht Hl) as Hm.
  destruct (comprehension_ok (fun f => py_getitem f (PStr "name")) items) as [names Hn].
  { intros f Hf. rewrite Forall_forall in Hc.
    destruct (Hc f Hf) as (name & Hname & _). exists name. exact Hname. }
  rewrite Hn. cbn [bind].
  match goal with
  | |- context [comprehension ?body (samples st)] =>
      destruct (comprehension_ok body (samples st)) as [drawn Hd]
  end.
  { intros kv Hkv. rewrite Forall_forall in H3. specialize (H3 kv Hkv).
    rewrite Hl in H3. injection H3 as H3.
    rewrite (polygon_draws _ _ Hm (eq_sym H3)). cbn [bind]. eexists. reflexivity. }
  rewrite Hd. cbn [bind]. eexists. reflexivity.
Qed.

(** ** The empty factor list *)

(** After an empty factor file the add button is enabled and
    [add_sample] stores a sample with no scores, although [load_sample]
    refuses to run in the same session. *)
Lemma empty_factor_list_enables_add_sample :
  run init EmptyFactors.trace_empty_X
    = Returned {| factors := PList [];
                  samples := [(PStr "X", {| values := []; color := PStr "#34a853" |})];
                  factor_controls := [];
                  btn_add_sample := true; btn_save_sample := true |} None /\
  load_sample {| factors := PList []; samples := []; factor_controls := [];
                 btn_add_sample := true; btn_save_sample := false |}
              (File (Ok (sample_doc "X" "#34a853" [])))
    = Returned {| factors := PList []; samples := []; factor_controls := [];
                  btn_add_sample := true; btn_save_sample := false |}
               (Some PleaseLoadFactors).
Proof. split; reflexivity. Qed.

(** ** The scenarios of the specification *)

(** Scenario A: factors A, B, C, then sample "X" with the sliders at 5. *)
Example scenario_A :
  run init [LoadFactorsClicked (File (Ok Examples.factors_ABC));
            AddSampleClicked "X" true]
    = Returned
        {| factors := Examples.factors_ABC;
           samples := [(PStr "X", {| values := [PInt 5; PInt 5; PInt 5];
                                     color := PStr "#34a853" |})];
           factor_controls := [(PStr "A", factor_slider); (PStr "B", factor_slider);
                               (PStr "C", factor_slider)];
           btn_add_sample := true; btn_save_sample := true |} None.
Proof. reflexivity. Qed.

(** Scenario B: adding "X" again shows the duplicate-name warning and
    changes nothing. *)
Example scenario_B :
  step Examples.session_ABC_X (AddSampleClicked "X" true)
    = Returned Examples.session_ABC_X (Some DuplicateName).
Proof. reflexivity. Qed.

(** Scenario C: a sample file with the keys A and B only is refused
    while A, B, C are loaded. *)
Example scenario_C :
  step RoundTrip.session_ABC
       (LoadSampleClicked (File (Ok (PDict SampleFiles.sample_Y_A_B))))
    = Returned RoundTrip.session_ABC (Some FailedToLoadSampleFile).
Proof. reflexivity. Qed.

(** Scenario D: after two samples, loading the factor file A empties
    the store, and the next sample has one score. *)
Example scenario_D :
  run Examples.session_ABC_X
      [LoadSampleClicked (File (Ok SampleFiles.sample_Z_ABC));
       LoadFactorsClicked (File (Ok Examples.factors_A));
       AddSampleClicked "W" true]
    = Returned
        {| factors := Examples.factors_A;
           samples := [(PStr "W", {| values := [PInt 5]; color := PStr "#34a853" |})];
           factor_controls := [(PStr "A", factor_slider)];
           btn_add_sample := true; btn_save_sample := true |} None.
Proof. reflexivity. Qed.

(** * Further properties of the slots *)

(** ** Message boxes and frames *)

Lemma load_factors_message st dlg st' m :
  load_factors st dlg = Returned st' (Some m) -> st' = st.
Proof.
  unfold load_factors. destruct dlg as [|content]; [discriminate|].
  destruct (read_factors content) as [doc|e].
  - cbv zeta. destruct (_setup_ui_for_factors _); discriminate.
  - destruct (caught e); [|discriminate]. intros H. injection H as <- _. reflexivity.
Qed.

Lemma load_sample_cases st dlg st' shown :
  load_sample st dlg = Returned st' shown ->
  st' = st \/
  (shown = None /\
   exists data name s,
     dlg = File (Ok data) /\
     py_getitem data (PStr "name") = Ok name /\
     hashable name = true /\
     dmem name (samples st) = false /\
     ordered_values (factors st) data = Ok (values s) /\
     py_getitem data (PStr "color") = Ok (color s) /\
     st' = with_sample st name s).
Proof.
  destruct shown as [m|].
  - intros H. left. revert H. unfold load_sample.
    destruct (negb (truthy (factors st))).
    { intros H. injection H as <- _. reflexivity. }
    destruct dlg as [|content]; [discriminate|].
    destruct (read_sample (factors st) content) as [data|e].
    2:{ destruct (caught e); [|discriminate]. intros H. injection H as <- _. reflexivity. }
    destruct (name <- py_getitem data (PStr "name") ;; hashed name) as [name|e];
      [|discriminate].
    destruct (dmem name (samples st)).
    { intros H. injection H as <- _. reflexivity. }
    destruct (vals <- ordered_values (factors st) data ;; _); discriminate.
  - destruct dlg as [|[data|e]].
    + unfold load_sample. destruct (negb (truthy (factors st))); [discriminate|].
      intros H. injection H as <-. left. reflexivity.
    + intros H. right. split; [reflexivity|].
      destruct (load_sample_success _ _ _ H)
        as (name & vals & c & H1 & H2 & H3 & H4 & H5 & H6).
      exists data, name, {| values := vals; color := c |}.
      repeat split; assumption.
    + unfold load_sample. destruct (negb (truthy (factors st))); [discriminate|].
      unfold read_sample. cbn [bind]. destruct (caught e); discriminate.
Qed.

Lemma add_sample_cases st name ok st' shown :
  add_sample st name ok = Returned st' shown ->
  st' = st \/
  (shown = None /\ ok = true /\ name <> "" /\
   dmem (PStr name) (samples st) = false /\
   exists vals c,
     (items <- py_iter (factors st) ;;
      comprehension (slider_reading (factor_controls st)) items) = Ok vals /\
     next_default_color st = Some c /\
     st' = with_sample st (PStr name) {| values := vals; color := PStr c |}).
Proof.
  unfold add_sample.
  destruct ok; cbn [andb negb].
  2:{ intros H. injection H as <- _. left. reflexivity. }
  destruct (String.eqb name "") eqn:En; cbn [negb].
  { intros H. injection H as <- _. left. reflexivity. }
  destruct (dmem (PStr name) (samples st)) eqn:Ed.
  { intros H. injection H as <- _. left. reflexivity. }
  destruct (items <- py_iter (factors st) ;; _) as [vals|e]; [|discriminate].
  destruct (nth_error default_colors _) as [c|] eqn:Ec; [|discriminate].
  intros H. injection H as <- <-. right.
  apply String.eqb_neq in En. repeat split; try assumption.
  exists vals, c. repeat split. exact Ec.
Qed.

Lemma change_sample_color_cases st name picked st' shown :
  change_sample_color st name picked = Returned st' shown ->
  shown = None /\
  exists s,
    hashable name = true /\ dget name (samples st) = Some s /\
    match picked with
    | None => st' = st
    | Some color_hex =>
        st' = {| factors := factors st;
                 samples := dset name {| values := values s; color := PStr color_hex |}
                              (samples st);
                 factor_controls := factor_controls st;
                 btn_add_sample := btn_add_sample st;
                 btn_save_sample := btn_save_sample st |}
    end.
Proof.
  unfold change_sample_color, hashed.
  destruct (hashable name) eqn:Eh; cbn [bind]; [|discriminate].
  destruct (dget name (samples st)) as [s|] eqn:Es; [|discriminate].
  destruct picked as [hex|]; intros H; injection H as <- <-;
    (split; [reflexivity|]); exists s; repeat split.
Qed.

(** X1: a slot that shows a message box leaves the whole session, the
    factors, the samples, the sliders and the buttons, exactly as it
    was. *)
Theorem message_leaves_session st ev st' m :
  step st ev = Returned st' (Some m) -> st' = st.
Proof.
  destruct ev; simpl.
  - apply load_factors_message.
  - intros H. destruct (load_sample_cases _ _ _ _ H) as [E|[E _]];
      [exact E | discriminate].
  - destruct (btn_add_sample st).
    + intros H. destruct (add_sample_cases _ _ _ _ _ H) as [E|[E _]];
        [exact E | discriminate].
    + discriminate.
  - destruct (btn_save_sample st); [|discriminate].
    destruct (save_sample st sample_to_save ok dlg) as [[shown|doc]|e];
      try discriminate.
    intros H. injection H as <- _. reflexivity.
  - destruct (dmem sample_name (samples st)); [|discriminate].
    intros H. destruct (change_sample_color_cases _ _ _ _ _ H) as [E _].
    discriminate.
  - discriminate.
Qed.

Lemma message_leaves_session_witness :
  Examples.session_ABC_X = Examples.session_ABC_X.
Proof.
  apply (message_leaves_session Examples.session_ABC_X
           (AddSampleClicked "X" true) Examples.session_ABC_X DuplicateName).
  reflexivity.
Defined.

(** X2: a new sample, typed in or loaded from a file, goes to the end of
    the store: the samples already there keep their place, their scores
    and their colour, and the factors and the sliders are untouched. *)
Theorem new_sample_goes_last st :
  (forall name ok st',
     add_sample st name ok = Returned st' None -> st' <> st ->
     exists s, samples st' = samples st ++ [(PStr name, s)] /\
               factors st' = factors st /\
               factor_controls st' = factor_controls st) /\
  (forall dlg st',
     load_sample st dlg = Returned st' None -> st' <> st ->
     exists data name s,
       dlg = File (Ok data) /\
       py_getitem data (PStr "name") = Ok name /\
       samples st' = samples st ++ [(name, s)] /\
       factors st' = factors st /\
       factor_controls st' = factor_controls st).
Proof.
  split.
  - intros name ok st' H Hne.
    destruct (add_sample_cases _ _ _ _ _ H) as [E|(_ & _ & _ & Hd & vals & c & _ & _ & ->)];
      [contradiction|].
    eexists. cbn [with_sample samples factors factor_controls].
    rewrite (dset_fresh _ _ _ Hd). repeat split.
  - intros dlg st' H Hne.
    destruct (load_sample_cases _ _ _ _ H)
      as [E|(_ & data & name & s & -> & Hn & _ & Hd & _ & _ & ->)];
      [contradiction|].
    exists data, name, s. cbn [with_sample samples factors factor_controls].
    rewrite (dset_fresh _ _ _ Hd). repeat split. exact Hn.
Qed.

Lemma new_sample_goes_last_witness :
  (exists s,
     samples (with_sample Examples.session_ABC_X (PStr "Y") Frames.sample_Y)
       = samples Examples.session_ABC_X ++ [(PStr "Y", s)] /\
     factors (with_sample Examples.session_ABC_X (PStr "Y") Frames.sample_Y)
       = factors Examples.session_ABC_X /\
     factor_controls (with_sample Examples.session_ABC_X (PStr "Y") Frames.sample_Y)
       = factor_controls Examples.session_ABC_X) /\
  (exists data name s,
     File (Ok SampleFiles.sample_Z_ABC) = File (Ok data) /\
     py_getitem data (PStr "name") = Ok name /\
     samples Sessions.session_with_Z
       = samples Examples.session_ABC_X ++ [(name, s)] /\
     factors Sessions.session_with_Z = factors Examples.session_ABC_X /\
     factor_controls Sessions.session_with_Z
       = factor_controls Examples.session_ABC_X).
Proof.
  destruct (new_sample_goes_last Examples.session_ABC_X) as [H1 H2]. split.
  - apply (H1 "Y" true); [reflexivity | discriminate].
  - apply (H2 (File (Ok SampleFiles.sample_Z_ABC))); [reflexivity | discriminate].
Defined.

(** ** More on dictionaries *)

Lemma key_eqb_false_sym a b : key_eqb a b = false -> key_eqb b a = false.
Proof.
  intros H. destruct (key_eqb b a) eqn:E; [|reflexivity].
  apply key_eqb_sym in E. congruence.
Qed.

Lemma dget_key_eqb {V} (k k' : pyval) (d : pydict V) :
  key_eqb k k' = true -> dget k d = dget k' d.
Proof.
  intros E. induction d as [|[k0 v0] d IH]; simpl; [reflexivity|].
  destruct (key_eqb k0 k) eqn:E1.
  - rewrite (key_eqb_trans _ _ _ E1 E). reflexivity.
  - destruct (key_eqb k0 k') eqn:E2; [|exact IH].
    rewrite (key_eqb_trans _ _ _ E2 (key_eqb_sym _ _ E)) in E1. discriminate.
Qed.

Lemma dmem_dset_other {V} (k k' : pyval) (v : V) (d : pydict V) :
  key_eqb k k' = false -> dmem k' (dset k v d) = dmem k' d.
Proof. intros H. unfold dmem. rewrite dget_dset_other by exact H. reflexivity. Qed.

Lemma dkeys_dset_mem {V} (k : pyval) (v : V) (d : pydict V) :
  dmem k d = true -> dkeys (dset k v d) = dkeys d.
Proof.
  unfold dmem, dkeys. induction d as [|[k0 v0] d IH]; simpl; [discriminate|].
  destruct (key_eqb k0 k); simpl; intros H; [reflexivity|].
  f_equal. apply IH. exact H.
Qed.

Lemma dkeys_dset_in {V} (k k' : pyval) (v : V) (d : pydict V) :
  In k' (dkeys (dset k v d)) -> In k' (dkeys d) \/ k' = k.
Proof.
  destruct (dmem k d) eqn:E.
  - rewrite dkeys_dset_mem by exact E. auto.
  - rewrite dset_fresh by exact E. unfold dkeys. rewrite map_app, in_app_iff.
    simpl. intros [H|[H|[]]]; auto.
Qed.

Lemma unique_keys_dset {V} (k : pyval) (v : V) (d : pydict V) :
  unique_keys d = true -> unique_keys (dset k v d) = true.
Proof.
  induction d as [|[k0 v0] d IH]; simpl; [reflexivity|].
  rewrite !andb_true_iff, !negb_true_iff. intros [H0 Hd].
  destruct (key_eqb k0 k) eqn:E; simpl; rewrite andb_true_iff, negb_true_iff.
  - split; assumption.
  - split; [|exact (IH Hd)].
    rewrite dmem_dset_other; [exact H0 | apply key_eqb_false_sym; exact E].
Qed.

Lemma dset_nonempty {V} (k : pyval) (v : V) (d : pydict V) :
  (List.length (dset k v d) =? 0) = false.
Proof. destruct d as [|[k0 v0] d]; simpl; [|destruct (key_eqb k0 k)]; reflexivity. Qed.

Lemma dmem_In_dkeys {V} (k : pyval) (d : pydict V) :
  dmem k d = true -> exists k', In k' (dkeys d) /\ key_eqb k' k = true.
Proof.
  unfold dmem, dkeys. induction d as [|[k0 v0] d IH]; simpl; [discriminate|].
  destruct (key_eqb k0 k) eqn:E.
  - intros _. exists k0. split; [left; reflexivity | exact E].
  - intros H. destruct (IH H) as (k' & Hin & Ek). exists k'. split; [right|]; assumption.
Qed.

Lemma In_dkeys_dmem {V} (k k' : pyval) (d : pydict V) :
  In k' (dkeys d) -> key_eqb k' k = true -> dmem k d = true.
Proof.
  unfold dmem, dkeys. induction d as [|[k0 v0] d IH]; simpl; [intros []|].
  intros [->|Hin] E.
  - rewrite E. reflexivity.
  - destruct (key_eqb k0 k); [reflexivity | apply IH; assumption].
Qed.

(** ** The second invariant *)

Lemma load_factors_cases st dlg st' shown :
  load_factors st dlg = Returned st' shown ->
  st' = st \/
  (shown = None /\
   exists doc items c,
     dlg = File (Ok doc) /\ py_iter doc = Ok items /\
     py_all has_name_and_description items = Ok true /\
     setup_controls items [] = Ok c /\
     st' = {| factors := doc; samples := []; factor_controls := c;
              btn_add_sample := true; btn_save_sample := false |}).
Proof.
  unfold load_factors, read_factors. destruct dlg as [|[doc|e]].
  - intros H. injection H as <- _. left. reflexivity.
  - cbn [bind]. destruct (py_iter doc) as [items|e] eqn:Ei; cbn [bind].
    2:{ destruct (caught e); [|discriminate].
        intros H. injection H as <- _. left. reflexivity. }
    destruct (py_all has_name_and_description items) as [[|]|e] eqn:Ea; cbn [bind].
    + unfold _setup_ui_for_factors.
      cbn [_clear_all factors samples factor_controls btn_add_sample btn_save_sample].
      rewrite Ei. cbn [bind].
      destruct (setup_controls items []) as [c|e] eqn:Ec; cbn [bind]; [|discriminate].
      intros H. injection H as <- <-. right. split; [reflexivity|].
      exists doc, items, c. repeat split; assumption.
    + cbn [caught]. intros H. injection H as <- _. left. reflexivity.
    + destruct (caught e); [|discriminate].
      intros H. injection H as <- _. left. reflexivity.
  - cbn [bind]. destruct (caught e); [|discriminate].
    intros H. injection H as <- _. left. reflexivity.
Qed.

Lemma setup_controls_keys items : forall c0 c,
  setup_controls items c0 = Ok c ->
  (unique_keys c0 = true -> unique_keys c = true) /\
  (forall k, In k (dkeys c) ->
     In k (dkeys c0) \/
     exists f, In f items /\ py_getitem f (PStr "name") = Ok k).
Proof.
  induction items as [|f items IH]; simpl; intros c0 c H.
  - injection H as <-. split; auto.
  - destruct (py_getitem f (PStr "name")) as [name|e] eqn:En; cbn [bind] in H;
      [|discriminate].
    destruct (py_getitem f (PStr "description")) as [descr|e]; cbn [bind] in H;
      [|discriminate].
    unfold hashed in H. destruct (hashable name); cbn [bind] in H; [|discriminate].
    destruct (IH _ _ H) as [H1 H2]. split.
    + intros Hu. apply H1. apply unique_keys_dset. exact Hu.
    + intros k Hk. destruct (H2 k Hk) as [Hin|(g & Hg & Hn)].
      * destruct (dkeys_dset_in _ _ _ _ Hin) as [Hin'| ->]; [left; exact Hin'|].
        right. exists f. split; [left; reflexivity | exact En].
      * right. exists g. split; [right; exact Hg | exact Hn].
Qed.

Lemma init_tidy : tidy init.
Proof.
  split; simpl; try reflexivity.
  intros k [].
Qed.

Lemma load_sample_init dlg st' shown :
  load_sample init dlg = Returned st' shown -> st' = init.
Proof. unfold load_sample. simpl. intros H. injection H as <- _. reflexivity. Qed.

Lemma with_sample_tidy st name s :
  tidy st -> btn_add_sample st = true -> tidy (with_sample st name s).
Proof.
  intros [H1 H2 H3 H4 H5] Hb. split; cbn [with_sample samples factors
    factor_controls btn_add_sample btn_save_sample].
  - apply unique_keys_dset. exact H1.
  - exact H2.
  - rewrite dset_nonempty. reflexivity.
  - exact H4.
  - rewrite Hb. discriminate.
Qed.

Lemma step_tidy st ev st' shown :
  tidy st -> step st ev = Returned st' shown -> tidy st'.
Proof.
  intros Hst. destruct ev; simpl.
  - intros H.
    destruct (load_factors_cases _ _ _ _ H)
      as [->|(_ & doc & items & c & _ & Hi & _ & Hc & ->)]; [exact Hst|].
    destruct (setup_controls_keys _ _ _ Hc) as [Hu Hk].
    split; simpl; try reflexivity.
    + apply Hu. reflexivity.
    + intros k Hin. destruct (Hk k Hin) as [[]|(f & Hf & Hn)].
      exists items, f. repeat split; assumption.
    + discriminate.
  - intros H.
    destruct (load_sample_cases _ _ _ _ H)
      as [->|(_ & data & name & s & -> & _ & _ & _ & _ & _ & ->)]; [exact Hst|].
    destruct (btn_add_sample st) eqn:Hb.
    + apply with_sample_tidy; assumption.
    + pose proof (add_disabled _ Hst Hb) as E. subst st.
      rewrite (load_sample_init _ _ _ H). apply init_tidy.
  - destruct (btn_add_sample st) eqn:Hb.
    + intros H.
      destruct (add_sample_cases _ _ _ _ _ H)
        as [->|(_ & _ & _ & _ & vals & c & _ & _ & ->)]; [exact Hst|].
      apply with_sample_tidy; assumption.
    + intros H. injection H as <- _. exact Hst.
  - destruct (btn_save_sample st).
    + destruct (save_sample st sample_to_save ok dlg) as [[m|doc]|e];
        try discriminate; intros H; injection H as <- _; exact Hst.
    + intros H. injection H as <- _. exact Hst.
  - destruct (dmem sample_name (samples st)) eqn:Hd.
    2:{ intros H. injection H as <- _. exact Hst. }
    intros H.
    destruct (change_sample_color_cases _ _ _ _ _ H) as (_ & s & _ & Hs & Hp).
    destruct picked as [hex|]; subst st'; [|exact Hst].
    destruct Hst as [H1 H2 H3 H4 H5]. split; simpl.
    + apply unique_keys_dset. exact H1.
    + exact H2.
    + rewrite dset_length_mem by exact Hd. exact H3.
    + exact H4.
    + intros Hb. pose proof (H5 Hb) as E. rewrite E in Hd. discriminate.
  - intros H. injection H as <- _. unfold slider_moved.
    destruct (dget name (factor_controls st)) as [sl|] eqn:Es; [|exact Hst].
    assert (Hm : dmem name (factor_controls st) = true)
      by (unfold dmem; rewrite Es; reflexivity).
    destruct Hst as [H1 H2 H3 H4 H5]. split; simpl.
    + exact H1.
    + apply unique_keys_dset. exact H2.
    + exact H3.
    + rewrite dkeys_dset_mem by exact Hm. exact H4.
    + intros Hb. pose proof (H5 Hb) as E. rewrite E in Es. discriminate.
Qed.

Lemma reachable_tidy st : reachable st -> tidy st.
Proof.
  induction 1 as [|st ev st' shown _ IH Hstep].
  - apply init_tidy.
  - exact (step_tidy _ _ _ _ IH Hstep).
Qed.

Lemma comprehension_In {A B} (body : A -> res B) l ys :
  comprehension body l = Ok ys ->
  forall y, In y ys <-> exists x, In x l /\ body x = Ok y.
Proof.
  revert ys. induction l as [|x l IH]; simpl; intros ys H y.
  - injection H as <-. split; [intros [] | intros (x & [] & _)].
  - destruct (body x) as [y0|e] eqn:Ex; cbn [bind] in H; [|discriminate].
    destruct (comprehension body l) as [ys'|e]; cbn [bind] in H; [|discriminate].
    injection H as <-. simpl. rewrite (IH ys' eq_refl y). split.
    + intros [<-|(x' & Hin & Hb)].
      * exists x. split; [left; reflexivity | exact Ex].
      * exists x'. split; [right; exact Hin | exact Hb].
    + intros (x' & [<-|Hin] & Hb).
      * left. congruence.
      * right. exists x'. split; assumption.
Qed.

Lemma unique_keys_nth {V} (d : pydict V) :
  unique_keys d = true ->
  forall i j k1 v1 k2 v2,
    nth_error d i = Some (k1, v1) -> nth_error d j = Some (k2, v2) ->
    key_eqb k1 k2 = true -> i = j.
Proof.
  induction d as [|[k0 v0] d IH]; simpl.
  - intros _ i j k1 v1 k2 v2 H. destruct i; discriminate.
  - rewrite andb_true_iff, negb_true_iff. intros [H0 Hd] i j k1 v1 k2 v2 Hi Hj E.
    assert (Hfresh : forall n k v, nth_error d n = Some (k, v) ->
                                   key_eqb k k0 = true -> False).
    { intros n k v Hn Ek. apply nth_error_In in Hn.
      assert (Hk : In k (dkeys d)) by (apply (in_map fst) in Hn; exact Hn).
      rewrite (In_dkeys_dmem _ _ _ Hk Ek) in H0. discriminate. }
    destruct i as [|i], j as [|j]; simpl in Hi, Hj.
    + reflexivity.
    + injection Hi as <- <-. exfalso.
      apply (Hfresh _ _ _ Hj). apply key_eqb_sym. exact E.
    + injection Hj as <- <-. exfalso. apply (Hfresh _ _ _ Hi). exact E.
    + f_equal. exact (IH Hd _ _ _ _ _ _ Hi Hj E).
Qed.

(** ** Names, buttons and sliders of a reachable session *)

(** X3: in every reachable session the names of the stored samples are
    pairwise different: two entries of the store whose names are equal
    are the same entry. *)
Theorem sample_names_unique st :
  reachable st ->
  forall i j name1 s1 name2 s2,
    nth_error (samples st) i = Some (name1, s1) ->
    nth_error (samples st) j = Some (name2, s2) ->
    key_eqb name1 name2 = true -> i = j.
Proof.
  intros Hr. apply unique_keys_nth. apply (samples_unique _ (reachable_tidy _ Hr)).
Qed.

(** X4: in every reachable session the "Save Sample" button is enabled
    exactly when the store holds at least one sample. *)
Theorem save_button_iff_samples st :
  reachable st -> (btn_save_sample st = true <-> samples st <> []).
Proof.
  intros Hr. rewrite (save_enabled _ (reachable_tidy _ Hr)).
  destruct (samples st); simpl; split; congruence.
Qed.

(** X5: the "Add Sample" button is disabled only in the initial session
    (no factors, no samples, no sliders), and once a reachable session
    has it enabled every later session has it enabled too. *)
Theorem add_button_enabled_for_good st :
  reachable st ->
  (btn_add_sample st = false -> st = init) /\
  (forall ev st' shown,
     btn_add_sample st = true -> step st ev = Returned st' shown ->
     btn_add_sample st' = true).
Proof.
  intros Hr. split; [apply (add_disabled _ (reachable_tidy _ Hr))|].
  intros ev st' shown Hb Hstep.
  assert (Hr' : reachable st') by (eapply reachable_step; eassumption).
  destruct (btn_add_sample st') eqn:Hb'; [reflexivity|].
  pose proof (add_disabled _ (reachable_tidy _ Hr') Hb') as E. subst st'.
  destruct ev; simpl in Hstep.
  - destruct (load_factors_cases _ _ _ _ Hstep) as [E|(_ & doc & items & c & _ & _ & _ & _ & E)].
    + rewrite <- E in Hb. discriminate.
    + discriminate.
  - destruct (load_sample_cases _ _ _ _ Hstep)
      as [E|(_ & data & name & s & _ & _ & _ & _ & _ & _ & E)].
    + rewrite <- E in Hb. discriminate.
    + apply (f_equal btn_add_sample) in E. simpl in E. congruence.
  - rewrite Hb in Hstep.
    destruct (add_sample_cases _ _ _ _ _ Hstep)
      as [E|(_ & _ & _ & _ & vals & c & _ & _ & E)].
    + rewrite <- E in Hb. discriminate.
    + apply (f_equal btn_add_sample) in E. simpl in E. congruence.
  - destruct (btn_save_sample st);
      [destruct (save_sample st sample_to_save ok dlg) as [[m|doc]|e]|];
      try discriminate; injection Hstep as E _; rewrite E in Hb; discriminate.
  - destruct (dmem sample_name (samples st)).
    + destruct (change_sample_color_cases _ _ _ _ _ Hstep) as (_ & s & _ & _ & Hp).
      destruct picked as [hex|].
      * apply (f_equal btn_add_sample) in Hp. simpl in Hp. congruence.
      * rewrite <- Hp in Hb. discriminate.
    + injection Hstep as E _. rewrite E in Hb. discriminate.
  - injection Hstep as E _. apply (f_equal btn_add_sample) in E.
    unfold slider_moved in E. destruct (dget name (factor_controls st)); simpl in E;
      congruence.
Qed.

(** X6: in every reachable session each slider of [factor_controls] has
    the range 1..10 and a value in it, no two sliders have the same
    key, and the keys of the sliders are, as a set, the names of the
    loaded factors. *)
Theorem sliders_match_factors st names :
  reachable st ->
  factor_names (factors st) = Ok names ->
  (forall k slider, In (k, slider) (factor_controls st) ->
     minimum slider = 1%Z /\ maximum slider = 10%Z /\ (1 <= value slider <= 10)%Z) /\
  unique_keys (factor_controls st) = true /\
  same_set (dkeys (factor_controls st)) names.
Proof.
  intros Hr Hn. pose proof (reachable_consistent _ Hr) as [H1 (items & Hi & Hc) _ _].
  pose proof (reachable_tidy _ Hr) as [_ H2 _ H4 _].
  split; [|split].
  - intros k slider Hin. rewrite Forall_forall in H1. exact (H1 _ Hin).
  - exact H2.
  - unfold factor_names in Hn. rewrite Hi in Hn. cbn [bind] in Hn.
    pose proof (comprehension_In _ _ _ Hn) as HIn.
    intros x. split.
    + intros (y & Hy & Exy). exists y. split; [|exact Exy].
      destruct (H4 y Hy) as (items' & f & Hi' & Hf & Hname).
      rewrite Hi in Hi'. injection Hi' as <-.
      apply HIn. exists f. split; [exact Hf|]. rewrite Hname. cbn [bind].
      unfold hashed. rewrite (proj2 (key_eqb_hashable _ _ Exy)). reflexivity.
    + intros (y & Hy & Exy). apply HIn in Hy. destruct Hy as (f & Hf & Hb).
      rewrite Forall_forall in Hc. destruct (Hc f Hf) as (n & Hname & Hh & Hm).
      rewrite Hname in Hb. cbn [bind] in Hb. unfold hashed in Hb. rewrite Hh in Hb.
      injection Hb as <-.
      destruct (dmem_In_dkeys _ _ Hm) as (k' & Hk' & Ek).
      exists k'. split; [exact Hk'|].
      apply (key_eqb_trans _ _ _ Exy). apply key_eqb_sym. exact Ek.
Qed.

Lemma session_ABC_X_reachable : reachable Examples.session_ABC_X.
Proof.
  apply (run_reachable Examples.trace_ABC_X init _ None reachable_init).
  vm_compute. reflexivity.
Qed.

Lemma session_with_Z_reachable : reachable Sessions.session_with_Z.
Proof.
  apply (run_reachable Frames.trace_ABC_X_Z init _ None reachable_init).
  vm_compute. reflexivity.
Qed.

Lemma sample_names_unique_witness : 1 = 1.
Proof.
  apply (sample_names_unique Sessions.session_with_Z session_with_Z_reachable
           1 1 (PStr "Z") Frames.sample_Z (PStr "Z") Frames.sample_Z);
    reflexivity.
Defined.

Lemma save_button_iff_samples_witness :
  btn_save_sample Examples.session_ABC_X = true <->
  samples Examples.session_ABC_X <> [].
Proof.
  apply (save_button_iff_samples Examples.session_ABC_X session_ABC_X_reachable).
Defined.

Lemma add_button_enabled_for_good_witness :
  init = init /\ btn_add_sample Sessions.session_with_Z = true.
Proof.
  split.
  - apply (proj1 (add_button_enabled_for_good init reachable_init)). reflexivity.
  - apply (proj2 (add_button_enabled_for_good Examples.session_ABC_X
                    session_ABC_X_reachable)
             (LoadSampleClicked (File (Ok SampleFiles.sample_Z_ABC)))
             Sessions.session_with_Z None); reflexivity.
Defined.

Lemma sliders_match_factors_witness :
  (forall k slider, In (k, slider) (factor_controls Examples.session_ABC_X) ->
     minimum slider = 1%Z /\ maximum slider = 10%Z /\ (1 <= value slider <= 10)%Z) /\
  unique_keys (factor_controls Examples.session_ABC_X) = true /\
  same_set (dkeys (factor_controls Examples.session_ABC_X)) SampleFiles.names_ABC.
Proof.
  apply (sliders_match_factors Examples.session_ABC_X SampleFiles.names_ABC
           session_ABC_X_reachable).
  reflexivity.
Defined.

(** ** Replacing the factors, recolouring a sample *)

(** X7: the session [load_factors] leaves after accepting a file depends
    on the file only: the factors, samples, slider positions and button
    states of the session before are all forgotten. *)
Theorem load_factors_forgets st1 st2 content st' :
  load_factors st1 (File content) = Returned st' None ->
  load_factors st2 (File content) = Returned st' None.
Proof.
  unfold load_factors. destruct (read_factors content) as [doc|e].
  - cbn [_clear_all factors samples factor_controls btn_add_sample btn_save_sample].
    intros H. exact H.
  - destruct (caught e); discriminate.
Qed.

Lemma load_factors_forgets_witness :
  load_factors init (File (Ok Examples.factors_A))
    = Returned MoreExamples.session_reloaded None.
Proof.
  apply (load_factors_forgets Examples.session_ABC_X init (Ok Examples.factors_A)).
  reflexivity.
Defined.

(** X8: [change_sample_color] with a picked colour changes the colour of
    that one sample and nothing else: its scores, the number and the
    order of the samples, every other sample, the factors, the sliders
    and the buttons stay; with the dialog cancelled nothing changes. *)
Theorem recolor_changes_one_color st name picked st' shown :
  change_sample_color st name picked = Returned st' shown ->
  exists s,
    dget name (samples st) = Some s /\
    match picked with
    | None => st' = st
    | Some color_hex =>
        dget name (samples st')
          = Some {| values := values s; color := PStr color_hex |} /\
        dkeys (samples st') = dkeys (samples st) /\
        (forall other, key_eqb name other = false ->
           dget other (samples st') = dget other (samples st)) /\
        factors st' = factors st /\
        factor_controls st' = factor_controls st /\
        btn_add_sample st' = btn_add_sample st /\
        btn_save_sample st' = btn_save_sample st
    end.
Proof.
  intros H. destruct (change_sample_color_cases _ _ _ _ _ H) as (_ & s & Hh & Hs & Hp).
  exists s. split; [exact Hs|]. destruct picked as [hex|]; [|exact Hp].
  subst st'. simpl. repeat split.
  - apply dget_dset_same. exact Hh.
  - apply dkeys_dset_mem. unfold dmem. rewrite Hs. reflexivity.
  - intros other Ho. apply dget_dset_other. exact Ho.
Qed.

Lemma recolor_changes_one_color_witness :
  exists s,
    dget (PStr "X") (samples Sessions.session_with_Z) = Some s /\
    dget (PStr "X") (samples (Frames.session_Z_recolored))
      = Some {| values := values s; color := PStr "#123456" |} /\
    dkeys (samples Frames.session_Z_recolored)
      = dkeys (samples Sessions.session_with_Z) /\
    (forall other, key_eqb (PStr "X") other = false ->
       dget other (samples Frames.session_Z_recolored)
         = dget other (samples Sessions.session_with_Z)) /\
    factors Frames.session_Z_recolored = factors Sessions.session_with_Z /\
    factor_controls Frames.session_Z_recolored
      = factor_controls Sessions.session_with_Z /\
    btn_add_sample Frames.session_Z_recolored
      = btn_add_sample Sessions.session_with_Z /\
    btn_save_sample Frames.session_Z_recolored
      = btn_save_sample Sessions.session_with_Z.
Proof.
  apply (recolor_changes_one_color Sessions.session_with_Z (PStr "X")
           (Some "#123456") Frames.session_Z_recolored None).
  reflexivity.
Defined.

(** ** The first sample after a factor file *)

Lemma load_factors_from_init st content st' :
  load_factors st (File content) = Returned st' None ->
  load_factors init (File content) = Returned st' None.
Proof.
  unfold load_factors. destruct (read_factors content) as [doc|e].
  - cbn [_clear_all factors samples factor_controls btn_add_sample btn_save_sample].
    intros H. exact H.
  - destruct (caught e); discriminate.
Qed.

Lemma setup_controls_fresh items : forall c0 c,
  setup_controls items c0 = Ok c ->
  Forall (fun kv => snd kv = factor_slider) c0 ->
  Forall (fun kv => snd kv = factor_slider) c.
Proof.
  induction items as [|f items IH]; simpl; intros c0 c H Hc0.
  - injection H as <-. exact Hc0.
  - destruct (py_getitem f (PStr "name")) as [name|e]; cbn [bind] in H; [|discriminate].
    destruct (py_getitem f (PStr "description")) as [d|e]; cbn [bind] in H; [|discriminate].
    unfold hashed in H. destruct (hashable name); cbn [bind] in H; [|discriminate].
    apply (IH _ _ H).
    apply (dset_Forall (fun s => s = factor_slider)); [exact Hc0 | reflexivity].
Qed.

Lemma slider_reading_fresh controls f y :
  Forall (fun kv => snd kv = factor_slider) controls ->
  slider_reading controls f = Ok y -> y = PInt 5.
Proof.
  intros Hc. unfold slider_reading, hashed.
  destruct (py_getitem f (PStr "name")) as [name|e]; cbn [bind]; [|discriminate].
  destruct (hashable name); cbn [bind]; [|discriminate].
  destruct (dget name controls) as [s|] eqn:Es; [|discriminate].
  intros H. injection H as <-.
  rewrite (dget_Forall (fun s => s = factor_slider) _ _ _ Hc Es). reflexivity.
Qed.

(** X9: right after a factor file is accepted, whatever the session was
    before, [add_sample] with a non-empty name stores the only sample of
    the store: the score 5 on every factor and the first default
    colour, and it enables "Save Sample". *)
Theorem first_sample_after_load st content st1 name :
  load_factors st (File content) = Returned st1 None -> name <> "" ->
  exists n,
    py_len (factors st1) = Ok n /\
    add_sample st1 name true
      = Returned {| factors := factors st1;
                    samples := [(PStr name, {| values := repeat (PInt 5) n;
                                               color := PStr "#34a853" |})];
                    factor_controls := factor_controls st1;
                    btn_add_sample := true;
                    btn_save_sample := true |} None.
Proof.
  intros Hload Hname. apply load_factors_from_init in Hload.
  pose proof (load_factors_consistent _ _ _ _ init_consistent Hload) as Hc.
  destruct (load_factors_cases _ _ _ _ Hload)
    as [E|(_ & doc & items & c & _ & Hi & _ & Hsetup & E)].
  { subst st1. apply load_factors_success in Hload.
    destruct Hload as (_ & _ & Hb & _). discriminate Hb. }
  assert (Hnew : dmem (PStr name) (samples st1) = false) by (subst st1; reflexivity).
  destruct (add_sample_stores _ _ Hc Hname Hnew) as (vals & col & Ha & Hcol & _ & Hl).
  exists (List.length vals). split; [exact Hl|].
  rewrite Ha. unfold add_sample in Ha.
  apply String.eqb_neq in Hname. rewrite Hname, Hnew in Ha. cbn [andb negb] in Ha.
  subst st1. cbn [factors samples factor_controls btn_add_sample] in *.
  rewrite Hi in Ha. cbn [bind] in Ha.
  destruct (comprehension (slider_reading c) items) as [vals'|e] eqn:Ev; [|discriminate].
  assert (Hfive : Forall (eq (PInt 5)) vals').
  { eapply comprehension_Forall; [|exact Ev]. intros f y _ Hy. symmetry.
    apply (slider_reading_fresh c f y); [|exact Hy].
    apply (setup_controls_fresh _ _ _ Hsetup). constructor. }
  cbn in Hcol. injection Hcol as <-.
  cbn in Ha. injection Ha as <-.
  unfold with_sample. cbn.
  rewrite (Forall_eq_repeat Hfive) at 1. reflexivity.
Qed.

Lemma first_sample_after_load_witness :
  exists n,
    py_len (factors RoundTrip.session_ABC) = Ok n /\
    add_sample RoundTrip.session_ABC "W" true
      = Returned {| factors := factors RoundTrip.session_ABC;
                    samples := [(PStr "W", {| values := repeat (PInt 5) n;
                                              color := PStr "#34a853" |})];
                    factor_controls := factor_controls RoundTrip.session_ABC;
                    btn_add_sample := true;
                    btn_save_sample := true |} None.
Proof.
  apply (first_sample_after_load Sessions.session_with_Z (Ok Examples.factors_ABC)
           RoundTrip.session_ABC "W"); [reflexivity | discriminate].
Defined.

(** ** Scores go by factor name *)

Lemma comprehension_Forall2 {A B} (body : A -> res B) l ys :
  comprehension body l = Ok ys <-> Forall2 (fun x y => body x = Ok y) l ys.
Proof.
  revert ys. induction l as [|x l IH]; simpl; intros ys.
  - split.
    + intros H. injection H as <-. constructor.
    + intros H. inversion H. reflexivity.
  - split.
    + destruct (body x) as [y|e] eqn:Ex; cbn [bind]; [|discriminate].
      destruct (comprehension body l) as [ys'|e]; cbn [bind]; [|discriminate].
      intros H. injection H as <-. constructor; [exact Ex | apply IH; reflexivity].
    + intros H. inversion H as [|x' y l' ys' Hxy Hrest]; subst.
      rewrite Hxy. cbn [bind]. rewrite (proj2 (IH ys') Hrest). reflexivity.
Qed.

Lemma dget_readings controls k :
  dget k (readings controls)
    = option_map (fun s => PInt (value s)) (dget k controls).
Proof.
  unfold readings. induction controls as [|[k0 s0] c IH]; simpl; [reflexivity|].
  destruct (key_eqb k0 k); [reflexivity | exact IH].
Qed.

Lemma slider_readings_scored controls items vals :
  comprehension (slider_reading controls) items = Ok vals ->
  scored_by (readings controls) items vals.
Proof.
  intros H. apply comprehension_Forall2 in H. unfold scored_by.
  eapply Forall2_impl; [|exact H]. intros f v. unfold slider_reading, hashed.
  destruct (py_getitem f (PStr "name")) as [n|e]; cbn [bind]; [|discriminate].
  destruct (hashable n) eqn:Eh; cbn [bind]; [|discriminate].
  destruct (dget n controls) as [s|] eqn:Es; [|discriminate].
  intros E. injection E as <-. exists n. repeat split; try assumption.
  rewrite dget_readings, Es. reflexivity.
Qed.

Lemma read_sample_values_object fs data data' :
  read_sample fs (Ok data) = Ok data' ->
  data' = data /\
  exists D names,
    py_getitem data (PStr "values") = Ok (PDict D) /\
    forallb hashable (dkeys D) = true /\
    factor_names fs = Ok names /\
    set_eqb (dkeys D) names = true.
Proof.
  unfold read_sample. cbn [bind].
  destruct (py_all _ _) as [[|]|e]; cbn [bind negb]; try discriminate.
  destruct (py_getitem data (PStr "values")) as [v|e]; cbn [bind]; [|discriminate].
  destruct v; cbn [py_keys bind]; try discriminate.
  destruct (comprehension hashed (dkeys d)) as [lhs|e] eqn:Eh; cbn [bind];
    [|discriminate].
  destruct (factor_names fs) as [rhs|e]; cbn [bind]; [|discriminate].
  destruct (set_eqb lhs rhs) eqn:Es; cbn [negb]; [|discriminate].
  intros H. injection H as <-. split; [reflexivity|].
  assert (Hl : lhs = dkeys d /\ forallb hashable (dkeys d) = true).
  { clear Es. revert lhs Eh. induction (dkeys d) as [|k ks IH]; simpl; intros lhs Eh.
    - injection Eh as <-. split; reflexivity.
    - unfold hashed at 1 in Eh. destruct (hashable k); cbn [bind] in Eh; [|discriminate].
      destruct (comprehension hashed ks) as [l'|e]; cbn [bind] in Eh; [|discriminate].
      injection Eh as <-. destruct (IH l' eq_refl) as [-> ->]. split; reflexivity. }
  destruct Hl as [-> Hh]. exists d, rhs. repeat split; assumption.
Qed.

Lemma ordered_values_scored fs data D items vals :
  py_getitem data (PStr "values") = Ok (PDict D) ->
  py_iter fs = Ok items ->
  ordered_values fs data = Ok vals ->
  scored_by D items vals.
Proof.
  intros Hv Hi. unfold ordered_values. rewrite Hi. cbn [bind].
  intros H. apply comprehension_Forall2 in H. unfold scored_by.
  eapply Forall2_impl; [|exact H]. intros f v. rewrite Hv. cbn [bind].
  destruct (py_getitem f (PStr "name")) as [n|e]; cbn [bind py_getitem];
    [|discriminate].
  destruct (hashable n) eqn:Eh; [|discriminate].
  destruct (dget n D) as [w|] eqn:Ed; [|discriminate].
  intros E. injection E as <-. exists n. repeat split; assumption.
Qed.

Lemma load_sample_read st data st' :
  load_sample st (File (Ok data)) = Returned st' None ->
  read_sample (factors st) (Ok data) = Ok data.
Proof.
  unfold load_sample. destruct (negb (truthy (factors st))); [discriminate|].
  destruct (read_sample (factors st) (Ok data)) as [data'|e] eqn:Er.
  - intros _. destruct (read_sample_values_object _ _ _ Er) as [-> _]. reflexivity.
  - destruct (caught e); discriminate.
Qed.

Lemma init_scores_go_by_name : scores_go_by_name init.
Proof. exists []. split; [reflexivity | constructor]. Qed.

Lemma step_scores_go_by_name st ev st' shown :
  scores_go_by_name st -> step st ev = Returned st' shown ->
  scores_go_by_name st'.
Proof.
  intros Hst. destruct ev; simpl.
  - intros H.
    destruct (load_factors_cases _ _ _ _ H)
      as [->|(_ & doc & items & c & _ & Hi & _ & _ & ->)]; [exact Hst|].
    exists items. split; [exact Hi | constructor].
  - intros H.
    destruct (load_sample_cases _ _ _ _ H)
      as [->|(-> & data & name & s & -> & _ & _ & _ & Hv & _ & ->)]; [exact Hst|].
    destruct Hst as (items & Hi & Hs). exists items. split; [exact Hi|].
    cbn [with_sample samples].
    apply (dset_Forall (fun s => exists D, scored_by D items (values s)));
      [exact Hs|].
    destruct (read_sample_values_object _ _ _ (load_sample_read _ _ _ H))
      as (_ & D & names & HD & _ & _ & _).
    exists D. exact (ordered_values_scored _ _ _ _ _ HD Hi Hv).
  - destruct (btn_add_sample st); [|intros H; injection H as <- _; exact Hst].
    intros H.
    destruct (add_sample_cases _ _ _ _ _ H)
      as [->|(_ & _ & _ & _ & vals & c & Hv & _ & ->)]; [exact Hst|].
    destruct Hst as (items & Hi & Hs). exists items. split; [exact Hi|].
    cbn [with_sample samples].
    apply (dset_Forall (fun s => exists D, scored_by D items (values s)));
      [exact Hs|].
    rewrite Hi in Hv. cbn [bind] in Hv.
    exists (readings (factor_controls st)). apply slider_readings_scored. exact Hv.
  - destruct (btn_save_sample st);
      [destruct (save_sample st sample_to_save ok dlg) as [[m|doc]|e]|];
      try discriminate; intros H; injection H as <- _; exact Hst.
  - destruct (dmem sample_name (samples st)); [|intros H; injection H as <- _; exact Hst].
    intros H. destruct (change_sample_color_cases _ _ _ _ _ H) as (_ & s & _ & Hs & Hp).
    destruct picked as [hex|]; subst st'; [|exact Hst].
    destruct Hst as (items & Hi & Hall). exists items. split; [exact Hi|].
    cbn [samples].
    apply (dset_Forall (fun s => exists D, scored_by D items (values s)));
      [exact Hall|].
    exact (dget_Forall (fun s => exists D, scored_by D items (values s)) _ _ _ Hall Hs).
  - intros H. injection H as <- _. unfold slider_moved.
    destruct (dget name (factor_controls st)); exact Hst.
Qed.

Lemma reachable_scores_go_by_name st : reachable st -> scores_go_by_name st.
Proof.
  induction 1 as [|st ev st' shown _ IH Hstep].
  - apply init_scores_go_by_name.
  - exact (step_scores_go_by_name _ _ _ _ IH Hstep).
Qed.

(** ** What [save_sample] writes *)

Lemma combine_fst_snd {A B} (l : list (A * B)) :
  combine (map fst l) (map snd l) = l.
Proof. induction l as [|[a b] l IH]; simpl; [reflexivity | rewrite IH; reflexivity]. Qed.

Lemma values_by_name_assign : forall post pairs fpre acc,
  Forall2 (fun f nv => py_getitem f (PStr "name") = Ok (fst nv) /\
                       hashable (fst nv) = true) post pairs ->
  values_by_name (PList (fpre ++ post)) (List.length fpre) (map snd pairs) acc
    = Ok (assign_all pairs acc).
Proof.
  induction post as [|f post IH]; intros pairs fpre acc H.
  - inversion H; subst. reflexivity.
  - inversion H as [|f' [n v] post' pairs' [Hn Hh] Hrest]; subst.
    cbn [map snd values_by_name py_getitem py_index].
    rewrite seq_item_app. cbn [bind]. cbn [fst] in Hn, Hh. rewrite Hn.
    cbn [bind]. unfold hashed. rewrite Hh. cbn [bind].
    replace (fpre ++ f :: post) with ((fpre ++ [f]) ++ post)
      by (rewrite <- app_assoc; reflexivity).
    replace (S (List.length fpre)) with (List.length (fpre ++ [f]))
      by (rewrite length_app; simpl; lia).
    rewrite (IH pairs' (fpre ++ [f]) (dset n v acc) Hrest). reflexivity.
Qed.

Lemma assign_all_keys pairs : forall d k,
  In k (dkeys (assign_all pairs d)) -> In k (dkeys d) \/ In k (map fst pairs).
Proof.
  induction pairs as [|[n v] pairs IH]; intros d k; cbn [assign_all fold_left map fst snd].
  - auto.
  - intros H. destruct (IH _ _ H) as [Hd|Hp]; [|right; right; exact Hp].
    destruct (dkeys_dset_in _ _ _ _ Hd) as [Hd'| ->]; [left; exact Hd'|].
    right. left. reflexivity.
Qed.

Lemma assign_all_values (P : pyval -> Prop) pairs : forall d,
  Forall (fun kv => P (snd kv)) d -> Forall (fun nv => P (snd nv)) pairs ->
  Forall (fun kv => P (snd kv)) (assign_all pairs d).
Proof.
  induction pairs as [|[n v] pairs IH]; intros d Hd Hp; cbn [assign_all fold_left].
  - exact Hd.
  - inversion Hp as [|x l Hv Hrest]; subst. apply IH; [|exact Hrest].
    apply dset_Forall; assumption.
Qed.

Lemma set_mem_false_cons x y s :
  set_mem x (y :: s) = false -> key_eqb x y = false /\ set_mem x s = false.
Proof. unfold set_mem. simpl. apply orb_false_iff. Qed.

Lemma assign_all_get pairs : forall d,
  (forall n v n' v', In (n, v) pairs -> In (n', v') pairs ->
                     key_eqb n n' = true -> v = v') ->
  (forall n v, In (n, v) pairs -> hashable n = true) ->
  forall n v,
    In (n, v) pairs \/ (dget n d = Some v /\ set_mem n (map fst pairs) = false) ->
    dget n (assign_all pairs d) = Some v.
Proof.
  induction pairs as [|[n0 v0] pairs IH]; intros d Hagree Hhash n v H;
    cbn [assign_all fold_left fst snd].
  - destruct H as [[]|[H _]]. exact H.
  - assert (Hagree' : forall n v n' v', In (n, v) pairs -> In (n', v') pairs ->
                                        key_eqb n n' = true -> v = v').
    { intros a b a' b' Ha Ha'. apply Hagree; right; assumption. }
    assert (Hhash' : forall n v, In (n, v) pairs -> hashable n = true).
    { intros a b Ha. apply (Hhash a b). right. exact Ha. }
    assert (Hhead : dget n0 (assign_all pairs (dset n0 v0 d)) = Some v0).
    { destruct (set_mem n0 (map fst pairs)) eqn:Em.
      - apply set_mem_member in Em. destruct Em as (y & Hy & Ey).
        apply in_map_iff in Hy. destruct Hy as ([y' w] & Hfst & Hin).
        simpl in Hfst. subst y'.
        assert (w = v0).
        { symmetry. apply (Hagree n0 v0 y w); [left; reflexivity | right; exact Hin | exact Ey]. }
        subst w. rewrite (dget_key_eqb _ _ _ Ey).
        apply (IH _ Hagree' Hhash'). left. exact Hin.
      - apply (IH _ Hagree' Hhash'). right. split; [|exact Em].
        apply dget_dset_same. apply (Hhash n0 v0). left. reflexivity. }
    destruct H as [[E|Hin]|[Hd Hm]].
    + injection E as <- <-. exact Hhead.
    + apply (IH _ Hagree' Hhash'). left. exact Hin.
    + cbn [map fst] in Hm. apply set_mem_false_cons in Hm. destruct Hm as [E Hm].
      apply (IH _ Hagree' Hhash'). right. split; [|exact Hm].
      rewrite dget_dset_other; [exact Hd | apply key_eqb_false_sym; exact E].
Qed.

(** The names and the scores of a stored sample, paired. *)
Lemma scored_pairs D items vals :
  scored_by D items vals ->
  exists pairs,
    vals = map snd pairs /\
    Forall2 (fun f nv => py_getitem f (PStr "name") = Ok (fst nv) /\
                         hashable (fst nv) = true) items pairs /\
    Forall (fun nv => dget (fst nv) D = Some (snd nv)) pairs.
Proof.
  induction 1 as [|f v items vals (n & Hn & Hh & Hd) _ (pairs & -> & H2 & H3)].
  - exists []. repeat split; constructor.
  - exists ((n, v) :: pairs). repeat split.
    + constructor; [split; assumption | exact H2].
    + constructor; [exact Hd | exact H3].
Qed.

Lemma factor_names_pairs items (pairs : list (pyval * pyval)) :
  Forall2 (fun f nv => py_getitem f (PStr "name") = Ok (fst nv) /\
                       hashable (fst nv) = true) items pairs ->
  factor_names (PList items) = Ok (map fst pairs).
Proof.
  unfold factor_names. cbn [py_iter bind]. intros H.
  apply comprehension_Forall2.
  induction H as [|f nv items pairs [Hn Hh] _ IH]; constructor; [|exact IH].
  rewrite Hn. cbn [bind]. unfold hashed. rewrite Hh. reflexivity.
Qed.

Lemma saved_object_reads_back D items pairs name c :
  Forall2 (fun f nv => py_getitem f (PStr "name") = Ok (fst nv) /\
                       hashable (fst nv) = true) items pairs ->
  Forall (fun nv => dget (fst nv) D = Some (snd nv)) pairs ->
  let doc := PDict [(PStr "name", name); (PStr "color", c);
                    (PStr "values", PDict (assign_all pairs []))] in
  read_sample (PList items) (Ok doc) = Ok doc /\
  ordered_values (PList items) doc = Ok (map snd pairs).
Proof.
  intros Hcalled HD doc.
  assert (Hhash : forall n v, In (n, v) pairs -> hashable n = true).
  { clear HD doc. induction Hcalled as [|f nv items pairs [_ Hh] _ IH];
      intros n v Hin; [destruct Hin|].
    destruct Hin as [->|Hin]; [exact Hh | exact (IH n v Hin)]. }
  assert (Hagree : forall n v n' v', In (n, v) pairs -> In (n', v') pairs ->
                                     key_eqb n n' = true -> v = v').
  { intros n v n' v' H1 H2 E. rewrite Forall_forall in HD.
    pose proof (HD _ H1) as G1. pose proof (HD _ H2) as G2. simpl in G1, G2.
    rewrite (dget_key_eqb _ _ _ E) in G1. congruence. }
  assert (Hget : forall n v, In (n, v) pairs ->
                             dget n (assign_all pairs []) = Some v).
  { intros n v Hin. apply (assign_all_get pairs [] Hagree Hhash). left. exact Hin. }
  assert (Hkeys : forall k, In k (dkeys (assign_all pairs [])) -> In k (map fst pairs)).
  { intros k Hk. destruct (assign_all_keys _ _ _ Hk) as [[]|H]. exact H. }
  assert (Hnames : forallb hashable (map fst pairs) = true).
  { apply forallb_forall. intros k Hk. apply in_map_iff in Hk.
    destruct Hk as ([n v] & <- & Hin). exact (Hhash n v Hin). }
  assert (Hkh : forallb hashable (dkeys (assign_all pairs [])) = true).
  { apply forallb_forall. intros k Hk. rewrite forallb_forall in Hnames.
    apply Hnames. apply Hkeys. exact Hk. }
  split.
  - unfold read_sample, doc.
    cbn [bind py_all py_in existsb fst is_str String.eqb Ascii.eqb Bool.eqb orb negb
         py_getitem hashable dget key_eqb py_keys].
    rewrite (comprehension_hashed _ Hkh). cbn [bind].
    rewrite (factor_names_pairs _ _ Hcalled). cbn [bind].
    assert (Hs : set_eqb (dkeys (assign_all pairs [])) (map fst pairs) = true).
    { apply (set_eqb_spec _ _ Hkh Hnames). intros x. split.
      - intros (y & Hy & E). exists y. split; [apply Hkeys; exact Hy | exact E].
      - intros (y & Hy & E). apply in_map_iff in Hy.
        destruct Hy as ([n v] & <- & Hin). simpl in E.
        assert (Hm : dmem n (assign_all pairs []) = true)
          by (unfold dmem; rewrite (Hget n v Hin); reflexivity).
        destruct (dmem_In_dkeys _ _ Hm) as (k' & Hk' & Ek).
        exists k'. split; [exact Hk'|].
        apply (key_eqb_trans _ _ _ E). apply key_eqb_sym. exact Ek. }
    rewrite Hs. reflexivity.
  - unfold ordered_values. cbn [py_iter bind]. apply comprehension_Forall2.
    unfold doc. cbn [py_getitem hashable dget key_eqb String.eqb Ascii.eqb Bool.eqb bind].
    clear doc Hkh Hnames Hkeys Hagree HD.
    assert (Hall : forall nv, In nv pairs ->
                     dget (fst nv) (assign_all pairs []) = Some (snd nv)).
    { intros [n v] Hin. exact (Hget n v Hin). }
    clear Hget Hhash. revert Hall. generalize (assign_all pairs []). intros r.
    induction Hcalled as [|f nv items pairs [Hn Hh] _ IH]; intros Hall.
    + constructor.
    + cbn [map]. constructor.
      * rewrite Hn. cbn [bind py_getitem]. rewrite Hh.
        rewrite (Hall nv (or_introl eq_refl)). reflexivity.
      * apply IH. intros nv' Hin. apply Hall. right. exact Hin.
Qed.

Lemma consistent_called st fs :
  consistent st -> factors st = PList fs ->
  Forall (fun f => exists n, py_getitem f (PStr "name") = Ok n /\ hashable n = true) fs.
Proof.
  intros [_ (items & Hi & Hc) _ _] Hfs. rewrite Hfs in Hi. injection Hi as <-.
  eapply Forall_impl; [|exact Hc].
  intros f (n & Hn & Hh & _). exists n. split; assumption.
Qed.

Lemma stored_sample_scored st fs name s :
  reachable st -> factors st = PList fs -> dget name (samples st) = Some s ->
  exists D, scored_by D fs (values s).
Proof.
  intros Hr Hfs Hs. destruct (reachable_scores_go_by_name _ Hr) as (items & Hi & Hall).
  rewrite Hfs in Hi. injection Hi as <-.
  exact (dget_Forall (fun s => exists D, scored_by D fs (values s)) _ _ _ Hall Hs).
Qed.

Lemma plain_assign_all pairs names :
  map fst pairs = map PStr names ->
  forallb plain_json (map snd pairs) = true ->
  plain_json (PDict (assign_all pairs [])) = true.
Proof.
  intros Hk Hv. cbn [plain_json]. apply forallb_forall. intros [k v] Hin.
  cbn [fst snd].
  assert (Hkey : In k (map fst pairs)).
  { destruct (assign_all_keys pairs [] k) as [[]|H]; [|exact H].
    apply (in_map fst) in Hin. exact Hin. }
  rewrite Hk in Hkey. apply in_map_iff in Hkey. destruct Hkey as (n & <- & _).
  assert (Hall : Forall (fun kv => plain_json (snd kv) = true) (assign_all pairs [])).
  { apply (assign_all_values (fun v => plain_json v = true)); [constructor|].
    rewrite forallb_forall in Hv. apply Forall_forall. intros nv Hnv.
    apply Hv. apply in_map. exact Hnv. }
  rewrite Forall_forall in Hall. exact (Hall _ Hin).
Qed.

Lemma named_pairs fs names (pairs : list (pyval * pyval)) :
  named fs names ->
  Forall2 (fun f nv => py_getitem f (PStr "name") = Ok (fst nv) /\
                       hashable (fst nv) = true) fs pairs ->
  map fst pairs = map PStr names.
Proof.
  intros H. revert pairs. induction H as [|f n fs names Hf _ IH]; intros pairs Hp.
  - inversion Hp. reflexivity.
  - inversion Hp as [|f' nv fs' pairs' [Hn _] Hrest]; subst.
    cbn [map]. rewrite (IH _ Hrest). f_equal. congruence.
Qed.

(** X10: in every reachable session whose factors are a list, the object
    [save_sample] passes to [json.dump] for a stored sample passes the
    checks of [load_sample] against the factors of the session, also
    when factor names repeat, and holds the name, the colour and, by
    factor, the scores of the sample; a session with these factors and
    no sample of that name loads exactly the sample.  When the factor
    names are strings and the sample holds JSON values, every key of
    the object is a string. *)
Theorem saved_sample_reads_back st fs name s :
  reachable st -> factors st = PList fs -> name <> "" ->
  dget (PStr name) (samples st) = Some s ->
  exists doc,
    save_sample st name true (SaveTo true) = Ok (Dumped doc) /\
    read_sample (factors st) (Ok doc) = Ok doc /\
    py_getitem doc (PStr "name") = Ok (PStr name) /\
    py_getitem doc (PStr "color") = Ok (color s) /\
    ordered_values (factors st) doc = Ok (values s) /\
    (forall st',
       factors st' = factors st -> fs <> [] ->
       dmem (PStr name) (samples st') = false ->
       exists st'',
         load_sample st' (File (Ok doc)) = Returned st'' None /\
         dget (PStr name) (samples st'') = Some s) /\
    (forall names,
       named fs names -> forallb plain_json (values s) = true ->
       plain_json (color s) = true -> plain_json doc = true).
Proof.
  intros Hr Hfs Hname Hs.
  destruct (stored_sample_scored _ _ _ _ Hr Hfs Hs) as [D HD].
  destruct (scored_pairs _ _ _ HD) as (pairs & Hvals & Hcalled & Hget).
  pose proof (saved_object_reads_back D fs pairs (PStr name) (color s) Hcalled Hget)
    as [Hread Hord].
  cbv zeta in Hread, Hord.
  set (doc := PDict [(PStr "name", PStr name); (PStr "color", color s);
                     (PStr "values", PDict (assign_all pairs []))]) in *.
  exists doc. repeat split.
  - unfold save_sample.
    destruct (samples st) as [|kv rest] eqn:Es; [discriminate|].
    cbn [List.length Nat.eqb]. apply String.eqb_neq in Hname. rewrite Hname.
    cbn [negb andb]. rewrite Hs. unfold output_data. rewrite Hfs, Hvals.
    pose proof (values_by_name_assign fs pairs [] [] Hcalled) as Hv.
    cbn [app List.length] in Hv. rewrite Hv. reflexivity.
  - rewrite Hfs. exact Hread.
  - rewrite Hfs, Hvals. exact Hord.
  - intros st' Hst' Hne Hnew. unfold load_sample. rewrite Hst', Hfs.
    replace (truthy (PList fs)) with true by (destruct fs; [congruence | reflexivity]).
    cbn [negb]. rewrite Hread.
    cbn [doc py_getitem hashable dget key_eqb String.eqb Ascii.eqb Bool.eqb bind hashed].
    rewrite Hnew. fold doc. rewrite Hord. cbn [bind].
    eexists. split; [reflexivity|]. cbn [samples].
    rewrite dget_dset_same by reflexivity. rewrite <- Hvals. destruct s. reflexivity.
  - intros names Hnamed Hpv Hpc. unfold doc. cbn [plain_json forallb fst snd].
    rewrite Hpc. rewrite Hvals in Hpv.
    pose proof (plain_assign_all pairs names (named_pairs _ _ _ Hnamed Hcalled) Hpv)
      as Hp.
    cbn [plain_json] in Hp. rewrite Hp. reflexivity.
Qed.

Lemma session_A_A_X_reachable : reachable Repeated.session_A_A_X.
Proof.
  apply (run_reachable Repeated.trace_A_A_X init _ None reachable_init).
  vm_compute. reflexivity.
Qed.

Lemma saved_sample_reads_back_witness :
  exists doc,
    save_sample Repeated.session_A_A_X "X" true (SaveTo true) = Ok (Dumped doc) /\
    read_sample (factors Repeated.session_A_A_X) (Ok doc) = Ok doc /\
    ordered_values (factors Repeated.session_A_A_X) doc
      = Ok (values Repeated.sample_X) /\
    (exists st'',
       load_sample Repeated.session_A_A (File (Ok doc)) = Returned st'' None /\
       dget (PStr "X") (samples st'') = Some Repeated.sample_X) /\
    plain_json doc = true.
Proof.
  destruct (saved_sample_reads_back Repeated.session_A_A_X
              [factor "A" "one"; factor "A" "two"] "X" Repeated.sample_X
              session_A_A_X_reachable)
    as (doc & H1 & H2 & _ & _ & H5 & H6 & H7).
  - reflexivity.
  - discriminate.
  - reflexivity.
  - exists doc. repeat split; try assumption.
    + apply (H6 Repeated.session_A_A); [reflexivity | discriminate | reflexivity].
    + apply (H7 ["A"; "A"]); [repeat constructor | reflexivity | reflexivity].
Defined.

Lemma Forall2_nth_error {A B} (R : A -> B -> Prop) l l' :
  Forall2 R l l' ->
  forall i x, nth_error l i = Some x ->
  exists y, nth_error l' i = Some y /\ R x y.
Proof.
  induction 1 as [|a b l l' Hab _ IH]; intros i x Hi.
  - destruct i; discriminate.
  - destruct i as [|i]; simpl in *.
    + injection Hi as <-. exists b. split; [reflexivity | exact Hab].
    + exact (IH i x Hi).
Qed.

(** X11: in every reachable session, two factors whose names are equal
    have the same score in every stored sample. *)
Theorem same_name_same_score st items name s i j f g n n' :
  reachable st -> py_iter (factors st) = Ok items ->
  In (name, s) (samples st) ->
  nth_error items i = Some f -> nth_error items j = Some g ->
  py_getitem f (PStr "name") = Ok n -> py_getitem g (PStr "name") = Ok n' ->
  key_eqb n n' = true ->
  exists v, nth_error (values s) i = Some v /\ nth_error (values s) j = Some v.
Proof.
  intros Hr Hi Hin Hf Hg Hn Hn' E.
  destruct (reachable_scores_go_by_name _ Hr) as (items' & Hi' & Hall).
  rewrite Hi in Hi'. injection Hi' as <-.
  rewrite Forall_forall in Hall. destruct (Hall _ Hin) as [D HD]. simpl in HD.
  destruct (Forall2_nth_error _ _ _ HD i f Hf) as (v & Hv & m & Hm & _ & Hd).
  destruct (Forall2_nth_error _ _ _ HD j g Hg) as (w & Hw & m' & Hm' & _ & Hd').
  rewrite Hn in Hm. injection Hm as <-. rewrite Hn' in Hm'. injection Hm' as <-.
  rewrite (dget_key_eqb _ _ _ E) in Hd. rewrite Hd in Hd'. injection Hd' as <-.
  exists v. split; assumption.
Qed.

Lemma same_name_same_score_witness :
  exists v,
    nth_error (values Repeated.sample_X) 0 = Some v /\
    nth_error (values Repeated.sample_X) 1 = Some v.
Proof.
  apply (same_name_same_score Repeated.session_A_A_X
           [factor "A" "one"; factor "A" "two"] (PStr "X") Repeated.sample_X
           0 1 (factor "A" "one") (factor "A" "two") (PStr "A") (PStr "A")
           session_A_A_X_reachable);
    try reflexivity.
  left. reflexivity.
Defined.

(** ** Slots that cannot fail *)

Lemma factors_shape st :
  consistent st -> plain_json (factors st) = true ->
  (exists fs, factors st = PList fs) \/ py_len (factors st) = Ok 0.
Proof.
  intros [_ (items & Hi & Hc) _ _] Hj.
  destruct (factors st) as [| b | z | q | s | l | d]; try discriminate.
  - destruct s as [|a s]; [right; reflexivity|].
    simpl in Hi. injection Hi as <-.
    inversion Hc as [|x l (n & Hn & _) _]; subst. discriminate.
  - left. exists l. reflexivity.
  - destruct d as [|[k v] d]; [right; reflexivity|].
    simpl in Hi. injection Hi as <-.
    inversion Hc as [|x l (n & Hn & _) _]; subst.
    simpl in Hj. destruct k; try discriminate.
Qed.

Lemma values_by_name_total st name s :
  reachable st -> plain_json (factors st) = true ->
  dget name (samples st) = Some s ->
  exists by_name, values_by_name (factors st) 0 (values s) [] = Ok by_name.
Proof.
  intros Hr Hj Hs. pose proof (reachable_consistent _ Hr) as Hc.
  destruct (factors_shape _ Hc Hj) as [[fs Hfs]|Hlen].
  - destruct (stored_sample_scored _ _ _ _ Hr Hfs Hs) as [D HD].
    destruct (scored_pairs _ _ _ HD) as (pairs & Hvals & Hcalled & _).
    rewrite Hfs, Hvals.
    pose proof (values_by_name_assign fs pairs [] [] Hcalled) as Hv.
    cbn [app List.length] in Hv. eexists. exact Hv.
  - pose proof (dget_Forall (fun s => py_len (factors st) = Ok (List.length (values s)))
                  _ _ _ (shapes_ok _ Hc) Hs) as Hl.
    rewrite Hlen in Hl. injection Hl as Hl.
    destruct (values s); [|discriminate]. eexists. reflexivity.
Qed.

(** X12: in a reachable session whose factor document is JSON no
    exception leaves [add_sample], whatever the dialog returns, nor
    [save_sample] when the sample picked in its dialog is in the store,
    nor [change_sample_color] for a sample of the store. *)
Theorem slots_do_not_raise st :
  reachable st -> plain_json (factors st) = true ->
  (forall name ok, exists st' shown, add_sample st name ok = Returned st' shown) /\
  (forall sample_to_save ok dlg,
     (ok = true -> sample_to_save <> "" ->
      dmem (PStr sample_to_save) (samples st) = true) ->
     exists r, save_sample st sample_to_save ok dlg = Ok r) /\
  (forall name picked,
     dmem name (samples st) = true ->
     exists st', change_sample_color st name picked = Returned st' None).
Proof.
  intros Hr Hj. pose proof (reachable_consistent _ Hr) as Hc. split; [|split].
  - intros name ok.
    destruct ok; [|eexists; eexists; reflexivity].
    destruct (String.eqb name "") eqn:En.
    { unfold add_sample. rewrite En. eexists. eexists. reflexivity. }
    destruct (dmem (PStr name) (samples st)) eqn:Ed.
    { unfold add_sample. rewrite En, Ed. eexists. eexists. reflexivity. }
    apply String.eqb_neq in En.
    destruct (add_sample_stores _ _ Hc En Ed) as (vals & c & Ha & _).
    eexists. eexists. exact Ha.
  - intros n ok dlg Hoffered. unfold save_sample.
    destruct (List.length (samples st) =? 0); [eexists; reflexivity|].
    destruct ok; [|eexists; reflexivity].
    destruct (String.eqb n "") eqn:En; [eexists; reflexivity|].
    cbn [andb negb]. apply String.eqb_neq in En.
    pose proof (Hoffered eq_refl En) as Hm. unfold dmem in Hm.
    destruct (dget (PStr n) (samples st)) as [s|] eqn:Es; [|discriminate].
    unfold output_data.
    destruct (values_by_name_total _ _ _ Hr Hj Es) as [by_name Hv].
    rewrite Hv. cbn [bind].
    destruct dlg as [|[|]]; eexists; reflexivity.
  - intros name picked Hm. unfold change_sample_color, hashed.
    rewrite (dmem_hashable _ _ Hm). cbn [bind]. unfold dmem in Hm.
    destruct (dget name (samples st)) as [s|]; [|discriminate].
    destruct picked; eexists; reflexivity.
Qed.

Lemma slots_do_not_raise_witness :
  (exists st' shown,
     add_sample Sessions.session_with_Z "Y" true = Returned st' shown) /\
  (exists r, save_sample Sessions.session_with_Z "Z" true (SaveTo true) = Ok r) /\
  (exists st',
     change_sample_color Sessions.session_with_Z (PStr "Z") (Some "#000000")
       = Returned st' None).
Proof.
  destruct (slots_do_not_raise Sessions.session_with_Z session_with_Z_reachable)
    as (H1 & H2 & H3); [reflexivity|].
  split; [|split].
  - apply H1.
  - apply H2. intros _ _. reflexivity.
  - apply H3. reflexivity.
Defined.

(** ** Files the [try] blocks do not cover *)

Lemma py_all_objects_then_scalar objs x rest :
  Forall (fun d => has_key "name" d /\ has_key "description" d) objs ->
  scalar x = true ->
  py_all has_name_and_description (map PDict objs ++ x :: rest) = Raise TypeError.
Proof.
  intros Hobjs Hx. induction Hobjs as [|d objs [Hn Hd] _ IH]; cbn [map app py_all].
  - unfold has_name_and_description. destruct x; try discriminate; reflexivity.
  - unfold has_name_and_description at 1.
    rewrite (py_in_dict_true _ _ Hn). cbn [bind].
    rewrite (py_in_dict_true _ _ Hd). cbn [bind]. exact IH.
Qed.

(** X13: [load_factors] catches no [TypeError].  A factor document that
    is a number, a boolean or null, and a factor list in which such a
    value follows complete factor objects, end the slot with an
    uncaught [TypeError] instead of the error message. *)
Theorem factor_file_type_errors st :
  (forall doc, scalar doc = true ->
     load_factors st (File (Ok doc)) = Uncaught TypeError) /\
  (forall objs x rest,
     Forall (fun d => has_key "name" d /\ has_key "description" d) objs ->
     scalar x = true ->
     load_factors st (File (Ok (PList (map PDict objs ++ x :: rest))))
       = Uncaught TypeError).
Proof.
  split.
  - intros doc H. destruct doc; try discriminate; reflexivity.
  - intros objs x rest Hobjs Hx. unfold load_factors, read_factors.
    cbn [bind py_iter]. rewrite (py_all_objects_then_scalar _ _ _ Hobjs Hx).
    reflexivity.
Qed.

Lemma factor_file_type_errors_witness :
  load_factors Examples.session_ABC_X (File (Ok (PInt 3))) = Uncaught TypeError /\
  load_factors Examples.session_ABC_X
      (File (Ok (PList (map PDict BadFiles.complete_objects ++ PNone :: []))))
    = Uncaught TypeError.
Proof.
  destruct (factor_file_type_errors Examples.session_ABC_X) as [H1 H2]. split.
  - apply H1. reflexivity.
  - apply H2; [|reflexivity].
    repeat constructor; eexists; simpl; eauto.
Defined.

Lemma dget_has_key k d v : dget (PStr k) d = Some v -> has_key k d.
Proof.
  induction d as [|[k0 v0] d IH]; simpl; [discriminate|].
  destruct (key_eqb k0 (PStr k)) eqn:E.
  - intros _.
    destruct (key_eqb_cases _ _ E) as [[_ H]|[(s & -> & H)|(x & y & _ & H & _)]];
      try discriminate.
    injection H as ->. exists v0. left. reflexivity.
  - intros H. destruct (IH H) as [w Hw]. exists w. right. exact Hw.
Qed.

Lemma py_all_sample_keys d :
  has_key "name" d -> has_key "values" d -> has_key "color" d ->
  py_all (fun k => py_in k (PDict d)) ["name"; "values"; "color"] = Ok true.
Proof.
  intros H1 H2 H3. cbn [py_all].
  rewrite (py_in_dict_true _ _ H1). cbn [bind].
  rewrite (py_in_dict_true _ _ H2). cbn [bind].
  rewrite (py_in_dict_true _ _ H3). reflexivity.
Qed.

Lemma py_all_sample_keys_missing d k :
  In k ["name"; "values"; "color"] -> ~ has_key k d ->
  py_all (fun k => py_in k (PDict d)) ["name"; "values"; "color"] = Ok false.
Proof.
  intros Hk Hmiss. cbn [py_all].
  destruct (py_in "name" (PDict d)) as [b1|e] eqn:E1; [|discriminate].
  destruct b1; cbn [bind]; [|reflexivity].
  destruct (py_in "values" (PDict d)) as [b2|e] eqn:E2; [|discriminate].
  destruct b2; cbn [bind]; [|reflexivity].
  destruct (py_in "color" (PDict d)) as [b3|e] eqn:E3; [|discriminate].
  destruct b3; cbn [bind]; [|reflexivity].
  exfalso. apply Hmiss.
  destruct Hk as [<-|[<-|[<-|[]]]].
  - apply (py_in_dict _ _ _ E1). reflexivity.
  - apply (py_in_dict _ _ _ E2). reflexivity.
  - apply (py_in_dict _ _ _ E3). reflexivity.
Qed.

(** X14: with factors loaded, [load_sample] shows the sample-file
    message and changes nothing when the file cannot be read or parsed
    and when the document is an object that lacks `name`, `values` or
    `color`; but a document that is a number, a boolean or null ends the
    slot with an uncaught [TypeError], and an object whose `values` is
    not an object with an uncaught [AttributeError]. *)
Theorem sample_file_errors st :
  truthy (factors st) = true ->
  (forall e, caught e = true ->
     load_sample st (File (Raise e)) = Returned st (Some FailedToLoadSampleFile)) /\
  (forall d k,
     In k ["name"; "values"; "color"] -> ~ has_key k d ->
     load_sample st (File (Ok (PDict d)))
       = Returned st (Some FailedToLoadSampleFile)) /\
  (forall doc, scalar doc = true ->
     load_sample st (File (Ok doc)) = Uncaught TypeError) /\
  (forall d v,
     has_key "name" d -> has_key "color" d ->
     dget (PStr "values") d = Some v -> (forall D, v <> PDict D) ->
     load_sample st (File (Ok (PDict d))) = Uncaught AttributeError).
Proof.
  intros Ht. unfold load_sample. rewrite Ht. cbn [negb]. repeat split.
  - intros e He. unfold read_sample. cbn [bind]. rewrite He. reflexivity.
  - intros d k Hk Hmiss. unfold read_sample. cbn [bind].
    rewrite (py_all_sample_keys_missing _ _ Hk Hmiss). reflexivity.
  - intros doc Hs. destruct doc; try discriminate; reflexivity.
  - intros d v Hn Hc Hv Hnot. unfold read_sample. cbn [bind].
    rewrite (py_all_sample_keys _ Hn (dget_has_key _ _ _ Hv) Hc).
    cbn [bind negb py_getitem hashable]. rewrite Hv. cbn [bind].
    destruct v; try reflexivity. exfalso. apply (Hnot d0). reflexivity.
Qed.

Lemma sample_file_errors_witness :
  load_sample Examples.session_ABC_X (File (Raise JSONDecodeError))
    = Returned Examples.session_ABC_X (Some FailedToLoadSampleFile) /\
  load_sample Examples.session_ABC_X (File (Ok (PDict BadFiles.sample_without_color)))
    = Returned Examples.session_ABC_X (Some FailedToLoadSampleFile) /\
  load_sample Examples.session_ABC_X (File (Ok PNone)) = Uncaught TypeError /\
  load_sample Examples.session_ABC_X (File (Ok (PDict BadFiles.sample_with_list)))
    = Uncaught AttributeError.
Proof.
  destruct (sample_file_errors Examples.session_ABC_X eq_refl) as (H1 & H2 & H3 & H4).
  split; [|split; [|split]].
  - apply H1. reflexivity.
  - apply (H2 _ "color").
    + right. right. left. reflexivity.
    + intros [v Hv]. simpl in Hv. destruct Hv as [Hv|[Hv|[]]]; discriminate Hv.
  - apply H3. reflexivity.
  - apply (H4 _ (PList [PInt 7; PInt 3; PInt 5])).
    + eexists. left. reflexivity.
    + eexists. right. left. reflexivity.
    + reflexivity.
    + intros D. discriminate.
Defined.

(** ** What the chart shows *)

Lemma removelast_close_loop {A} (l : list A) : l <> [] -> removelast (close_loop l) = l.
Proof.
  destruct l as [|x l]; [congruence|]. intros _. unfold close_loop.
  cbn [firstn]. apply removelast_last.
Qed.

Lemma drawn_lines m (ss : pydict sample) lns :
  1 <= m ->
  Forall (fun kv => List.length (values (snd kv)) = m) ss ->
  comprehension
    (fun kv : pyval * sample =>
       pts <- polygon m (values (snd kv)) ;;
       Ok {| label := fst kv; line_color := color (snd kv); points := pts |})
    ss = Ok lns ->
  map label lns = dkeys ss /\
  map line_color lns = map (fun kv => color (snd kv)) ss /\
  map points lns
    = map (fun kv => combine (chart_angles m) (close_loop (values (snd kv)))) ss.
Proof.
  intros Hm Hall H. apply comprehension_Forall2 in H.
  induction H as [|kv ln ss lns Hb _ IH].
  - repeat split.
  - inversion Hall as [|x l Hlen Hrest]; subst.
    rewrite (polygon_draws _ _ Hm eq_refl) in Hb. cbn [bind] in Hb.
    injection Hb as <-. destruct (IH Hrest) as (H1 & H2 & H3).
    unfold dkeys in *. cbn [map label line_color points].
    rewrite H1, H2, H3. repeat split.
Qed.

(** X15: what [_update_chart] draws in a reachable session.  Without
    factors it is the text 'Load factors to begin'.  With [m] factors
    it is [m] grid angles, those of [linspace], labelled with the [m]
    factor names, and one line per stored sample, in the order of the
    store, labelled with the sample's name, in the sample's colour, and
    made of the [m + 1] points that pair the closed angles with the
    closed scores. *)
Theorem chart_of_session st :
  reachable st ->
  (truthy (factors st) = false -> _update_chart st = Ok None) /\
  (truthy (factors st) = true ->
   exists c m,
     _update_chart st = Ok (Some c) /\
     py_len (factors st) = Ok m /\ 1 <= m /\
     thetagrids c = linspace 0 (2 * PI) m /\
     Ok (axis_labels c)
       = (items <- py_iter (factors st) ;;
          comprehension (fun f => py_getitem f (PStr "name")) items) /\
     List.length (axis_labels c) = m /\
     map label (lines c) = dkeys (samples st) /\
     map line_color (lines c) = map (fun kv => color (snd kv)) (samples st) /\
     map points (lines c)
       = map (fun kv => combine (chart_angles m) (close_loop (values (snd kv))))
             (samples st) /\
     Forall (fun ln => List.length (points ln) = m + 1) (lines c)).
Proof.
  intros Hr. split.
  - intros Ht. unfold _update_chart. rewrite Ht. reflexivity.
  - intros Ht.
    destruct (reachable_consistent _ Hr) as [_ (items & Hi & Hc) H3 _].
    pose proof (py_iter_len _ _ Hi) as Hl.
    pose proof (truthy_len _ _ Ht Hl) as Hm.
    destruct (comprehension_ok (fun f => py_getitem f (PStr "name")) items)
      as [names Hn].
    { intros f Hf. rewrite Forall_forall in Hc.
      destruct (Hc f Hf) as (name & Hname & _). exists name. exact Hname. }
    assert (Hshape : Forall (fun kv : pyval * sample =>
                               List.length (values (snd kv)) = List.length items)
                            (samples st)).
    { eapply Forall_impl; [|exact H3]. intros kv Hkv. rewrite Hl in Hkv.
      injection Hkv as Hkv. symmetry. exact Hkv. }
    destruct (comprehension_ok
                (fun kv : pyval * sample =>
                   pts <- polygon (List.length items) (values (snd kv)) ;;
                   Ok {| label := fst kv; line_color := color (snd kv);
                         points := pts |})
                (samples st)) as [lns Hd].
    { intros kv Hkv. rewrite Forall_forall in Hshape.
      rewrite (polygon_draws _ _ Hm (Hshape kv Hkv)). cbn [bind].
      eexists. reflexivity. }
    destruct (drawn_lines _ _ _ Hm Hshape Hd) as (H1 & H2 & H4).
    eexists. exists (List.length items).
    unfold _update_chart. rewrite Ht. cbn [negb]. rewrite Hl, Hi. cbn [bind].
    rewrite Hn. cbn [bind]. rewrite Hd. cbn [bind].
    split; [reflexivity|]. cbn [thetagrids axis_labels lines].
    split; [reflexivity|]. split; [exact Hm|]. split.
    { unfold chart_angles. apply removelast_close_loop.
      intros E. pose proof (linspace_length 0 (2 * PI) (List.length items)) as L.
      rewrite E in L. simpl in L. lia. }
    split; [reflexivity|].
    split; [exact (comprehension_length _ _ _ Hn)|].
    split; [exact H1|]. split; [exact H2|]. split; [exact H4|].
    apply Forall_forall. intros ln Hln.
    apply (in_map points) in Hln. rewrite H4 in Hln. apply in_map_iff in Hln.
    destruct Hln as (kv & <- & Hkv). rewrite Forall_forall in Hshape.
    pose proof (Hshape kv Hkv) as Hlen.
    rewrite length_combine. unfold chart_angles.
    rewrite !close_loop_length.
    + rewrite linspace_length, Hlen. lia.
    + intros E. rewrite E in Hlen. simpl in Hlen. lia.
    + intros E. pose proof (linspace_length 0 (2 * PI) (List.length items)) as L.
      rewrite E in L. simpl in L. lia.
Qed.

Lemma chart_of_session_witness :
  exists c m,
    _update_chart Sessions.session_with_Z = Ok (Some c) /\
    py_len (factors Sessions.session_with_Z) = Ok m /\ 1 <= m /\
    thetagrids c = linspace 0 (2 * PI) m /\
    Ok (axis_labels c)
      = (items <- py_iter (factors Sessions.session_with_Z) ;;
         comprehension (fun f => py_getitem f (PStr "name")) items) /\
    List.length (axis_labels c) = m /\
    map label (lines c) = dkeys (samples Sessions.session_with_Z) /\
    map line_color (lines c)
      = map (fun kv => color (snd kv)) (samples Sessions.session_with_Z) /\
    map points (lines c)
      = map (fun kv => combine (chart_angles m) (close_loop (values (snd kv))))
            (samples Sessions.session_with_Z) /\
    Forall (fun ln => List.length (points ln) = m + 1) (lines c).
Proof.
  apply (proj2 (chart_of_session Sessions.session_with_Z session_with_Z_reachable)).
  reflexivity.
Defined.

(** X16: for [m] factors the grid angles start at 0, increase strictly
    and stay below a full turn: for [i < j < m] the angles [a] of axis
    [i] and [b] of axis [j] satisfy [0 <= a < b < 2 * PI]. *)
Theorem chart_angles_spread m i j :
  i < j -> j < m ->
  exists a b,
    nth_error (linspace 0 (2 * PI) m) i = Some a /\
    nth_error (linspace 0 (2 * PI) m) j = Some b /\
    (0 <= a < b)%R /\ (b < 2 * PI)%R.
Proof.
  intros Hij Hjm.
  exists (INR i * ((2 * PI - 0) / INR m) + 0)%R,
         (INR j * ((2 * PI - 0) / INR m) + 0)%R.
  split; [apply linspace_nth; lia|]. split; [apply linspace_nth; lia|].
  assert (Hm : (0 < INR m)%R) by (apply lt_0_INR; lia).
  assert (Hpi : (0 < 2 * PI)%R) by (pose proof PI_RGT_0; lra).
  assert (Ht : (0 < (2 * PI - 0) / INR m)%R).
  { apply Rdiv_lt_0_compat; lra. }
  assert (Hi : (0 <= INR i)%R) by apply pos_INR.
  assert (Hlt : (INR i < INR j)%R) by (apply lt_INR; exact Hij).
  assert (Hlt' : (INR j < INR m)%R) by (apply lt_INR; exact Hjm).
  assert (Hfull : (INR m * ((2 * PI - 0) / INR m) = 2 * PI)%R) by (field; lra).
  set (t := ((2 * PI - 0) / INR m)%R) in *.
  repeat split.
  - pose proof (Rmult_le_pos _ _ Hi (Rlt_le _ _ Ht)). lra.
  - pose proof (Rmult_lt_compat_r _ _ _ Ht Hlt). lra.
  - pose proof (Rmult_lt_compat_r _ _ _ Ht Hlt'). lra.
Qed.

Lemma chart_angles_spread_witness :
  exists a b,
    nth_error (linspace 0 (2 * PI) 5) 1 = Some a /\
    nth_error (linspace 0 (2 * PI) 5) 4 = Some b /\
    (0 <= a < b)%R /\ (b < 2 * PI)%R.
Proof. apply (chart_angles_spread 5 1 4); lia. Defined.

(** ** The order of the scores in a sample file *)

Lemma key_eqb_comm a b : key_eqb a b = key_eqb b a.
Proof.
  destruct (key_eqb a b) eqn:E.
  - symmetry. apply key_eqb_sym. exact E.
  - symmetry. apply key_eqb_false_sym. exact E.
Qed.

Lemma dmem_cons {V} (k : pyval) (kv : pyval * V) (d : pydict V) :
  dmem k (kv :: d) = key_eqb (fst kv) k || dmem k d.
Proof. unfold dmem. destruct kv as [k0 v0]. simpl. destruct (key_eqb k0 k); reflexivity. Qed.

Lemma dmem_perm {V} (k : pyval) (d d' : pydict V) :
  Permutation d d' -> dmem k d = dmem k d'.
Proof.
  induction 1 as [|x l l' _ IH|x y l|l l' l'' _ IH1 _ IH2].
  - reflexivity.
  - rewrite !dmem_cons, IH. reflexivity.
  - rewrite !dmem_cons. destruct (key_eqb (fst x) k), (key_eqb (fst y) k); reflexivity.
  - congruence.
Qed.

Lemma unique_keys_perm {V} (d d' : pydict V) :
  Permutation d d' -> unique_keys d = unique_keys d'.
Proof.
  induction 1 as [|x l l' Hp IH|x y l|l l' l'' _ IH1 _ IH2].
  - reflexivity.
  - cbn [unique_keys]. rewrite IH, (dmem_perm _ _ _ Hp). reflexivity.
  - cbn [unique_keys]. rewrite !dmem_cons, (key_eqb_comm (fst x) (fst y)).
    destruct (key_eqb (fst y) (fst x)), (dmem (fst y) l), (dmem (fst x) l),
      (unique_keys l); reflexivity.
  - congruence.
Qed.

Lemma dget_perm {V} (k : pyval) (d d' : pydict V) :
  Permutation d d' -> unique_keys d = true -> dget k d = dget k d'.
Proof.
  induction 1 as [|[k0 v0] l l' Hp IH|[kx vx] [ky vy] l|l l' l'' Hp1 IH1 _ IH2].
  - reflexivity.
  - cbn [unique_keys dget]. rewrite andb_true_iff. intros [_ Hu].
    rewrite (IH Hu). reflexivity.
  - cbn [unique_keys dget fst]. rewrite dmem_cons. cbn [fst].
    rewrite !andb_true_iff, negb_true_iff, orb_false_iff. intros [[Exy _] _].
    destruct (key_eqb ky k) eqn:Ey, (key_eqb kx k) eqn:Ex; try reflexivity.
    rewrite (key_eqb_trans _ _ _ Ex (key_eqb_sym _ _ Ey)) in Exy. discriminate.
  - intros Hu. rewrite (IH1 Hu). apply IH2.
    rewrite <- (unique_keys_perm _ _ Hp1). exact Hu.
Qed.

Lemma member_dkeys_dmem {V} (x : pyval) (d : pydict V) :
  member x (dkeys d) <-> dmem x d = true.
Proof.
  split.
  - intros (y & Hy & E). apply (In_dkeys_dmem _ _ _ Hy). apply key_eqb_sym. exact E.
  - intros H. destruct (dmem_In_dkeys _ _ H) as (k' & Hk & E).
    exists k'. split; [exact Hk | apply key_eqb_sym; exact E].
Qed.

Lemma set_eqb_same_set s s' t :
  forallb hashable s = true -> forallb hashable s' = true ->
  forallb hashable t = true ->
  same_set s s' -> set_eqb s t = set_eqb s' t.
Proof.
  intros Hs Hs' Ht Hsame.
  destruct (set_eqb s t) eqn:E, (set_eqb s' t) eqn:E'; try reflexivity.
  - apply (set_eqb_spec _ _ Hs Ht) in E.
    assert (H : set_eqb s' t = true).
    { apply (set_eqb_spec _ _ Hs' Ht). intros x. rewrite <- (Hsame x). apply E. }
    congruence.
  - apply (set_eqb_spec _ _ Hs' Ht) in E'.
    assert (H : set_eqb s t = true).
    { apply (set_eqb_spec _ _ Hs Ht). intros x. rewrite (Hsame x). apply E'. }
    congruence.
Qed.

Lemma read_sample_object fs name c D :
  forallb hashable (dkeys D) = true ->
  read_sample fs (Ok (sample_object name c D))
    = (rhs <- factor_names fs ;;
       if negb (set_eqb (dkeys D) rhs) then Raise ValueError
       else Ok (sample_object name c D)).
Proof.
  intros Hh. unfold read_sample, sample_object.
  cbn [bind py_all py_in existsb fst is_str String.eqb Ascii.eqb Bool.eqb orb negb
       py_getitem hashable dget key_eqb py_keys].
  rewrite (comprehension_hashed _ Hh). reflexivity.
Qed.

Lemma ordered_values_object fs name c D :
  ordered_values fs (sample_object name c D)
    = (items <- py_iter fs ;;
       comprehension
         (fun f => n <- py_getitem f (PStr "name") ;; py_getitem (PDict D) n)
         items).
Proof. reflexivity. Qed.

(** X17: the order of the items of `values` in a sample file does not
    matter: two sample documents with the same name and colour whose
    `values` hold the same items in a different order make
    [load_sample] end the same way, in the same session. *)
Theorem values_order_irrelevant st name c D D' :
  Permutation D D' -> unique_keys D = true ->
  forallb hashable (dkeys D) = true ->
  load_sample st (File (Ok (sample_object name c D)))
    = load_sample st (File (Ok (sample_object name c D'))).
Proof.
  intros Hp Hu Hh.
  assert (Hh' : forallb hashable (dkeys D') = true).
  { apply forallb_forall. intros k Hk. rewrite forallb_forall in Hh. apply Hh.
    unfold dkeys in *. apply (Permutation_in _ (Permutation_map fst (Permutation_sym Hp))).
    exact Hk. }
  assert (Hget : forall k, dget k D = dget k D')
    by (intros k; apply dget_perm; assumption).
  unfold load_sample. destruct (negb (truthy (factors st))); [reflexivity|].
  rewrite (read_sample_object _ _ _ _ Hh), (read_sample_object _ _ _ _ Hh').
  destruct (factor_names (factors st)) as [rhs|e] eqn:En; cbn [bind]; [|reflexivity].
  assert (Heq : set_eqb (dkeys D) rhs = set_eqb (dkeys D') rhs).
  { apply set_eqb_same_set; try assumption.
    - exact (factor_names_hashable _ _ En).
    - intros x. rewrite !member_dkeys_dmem. unfold dmem. rewrite Hget. reflexivity. }
  rewrite <- Heq. destruct (set_eqb (dkeys D) rhs); cbn [negb caught]; [|reflexivity].
  cbn [sample_object py_getitem hashable dget key_eqb String.eqb Ascii.eqb Bool.eqb bind].
  fold (sample_object name c D). fold (sample_object name c D').
  destruct (hashed name) as [key|e]; [|reflexivity].
  destruct (dmem key (samples st)); [reflexivity|].
  rewrite !ordered_values_object.
  destruct (py_iter (factors st)) as [items|e]; cbn [bind]; [|reflexivity].
  rewrite (comprehension_ext
             (fun f => n <- py_getitem f (PStr "name") ;; py_getitem (PDict D) n)
             (fun f => n <- py_getitem f (PStr "name") ;; py_getitem (PDict D') n)).
  - reflexivity.
  - intros f. destruct (py_getitem f (PStr "name")) as [n|e]; cbn [bind py_getitem];
      [|reflexivity].
    rewrite Hget. reflexivity.
Qed.

Lemma values_order_irrelevant_witness :
  load_sample RoundTrip.session_ABC
      (File (Ok (sample_object (PStr "Z") (PStr "#ea4335") Orders.values_ABC)))
    = load_sample RoundTrip.session_ABC
        (File (Ok (sample_object (PStr "Z") (PStr "#ea4335") Orders.values_CAB))).
Proof.
  apply (values_order_irrelevant RoundTrip.session_ABC (PStr "Z") (PStr "#ea4335")
           Orders.values_ABC Orders.values_CAB).
  - apply Permutation_sym.
    apply (Permutation_cons_append
             [(PStr "A", PInt 1); (PStr "B", PInt 4)] (PStr "C", PInt 9)).
  - reflexivity.
  - reflexivity.
Defined.

(** ** What a loaded sample holds *)

(** X18: when [load_sample] stores a sample, the `values` of the file is
    an object whose key set equals the set of factor names, and the
    stored sample holds, for each factor in factor order, the value the
    file gives under that factor's name, and the colour of the file. *)
Theorem loaded_scores_follow_factors st data st' :
  load_sample st (File (Ok data)) = Returned st' None ->
  exists D names items name s,
    py_getitem data (PStr "values") = Ok (PDict D) /\
    factor_names (factors st) = Ok names /\
    same_set (dkeys D) names /\
    py_iter (factors st) = Ok items /\
    py_getitem data (PStr "name") = Ok name /\
    dget name (samples st') = Some s /\
    scored_by D items (values s) /\
    py_getitem data (PStr "color") = Ok (color s).
Proof.
  intros H.
  destruct (read_sample_values_object _ _ _ (load_sample_read _ _ _ H))
    as (_ & D & names & HD & Hh & Hn & Hs).
  destruct (load_sample_success _ _ _ H)
    as (name & vals & c & Hname & Hhn & _ & Hv & Hc & ->).
  assert (Hi : exists items, py_iter (factors st) = Ok items).
  { unfold factor_names in Hn. destruct (py_iter (factors st)) as [items|e];
      [eexists; reflexivity | discriminate]. }
  destruct Hi as [items Hi].
  exists D, names, items, name, {| values := vals; color := c |}.
  repeat split; try assumption.
  - apply (set_eqb_spec _ _ Hh (factor_names_hashable _ _ Hn)) in Hs. apply Hs.
  - apply (set_eqb_spec _ _ Hh (factor_names_hashable _ _ Hn)) in Hs. apply Hs.
  - cbn [with_sample samples]. apply dget_dset_same. exact Hhn.
  - exact (ordered_values_scored _ _ _ _ _ HD Hi Hv).
Qed.

Lemma loaded_scores_follow_factors_witness :
  exists D names items name s,
    py_getitem SampleFiles.sample_Z_ABC (PStr "values") = Ok (PDict D) /\
    factor_names (factors Examples.session_ABC_X) = Ok names /\
    same_set (dkeys D) names /\
    py_iter (factors Examples.session_ABC_X) = Ok items /\
    py_getitem SampleFiles.sample_Z_ABC (PStr "name") = Ok name /\
    dget name (samples Sessions.session_with_Z) = Some s /\
    scored_by D items (values s) /\
    py_getitem SampleFiles.sample_Z_ABC (PStr "color") = Ok (color s).
Proof.
  apply (loaded_scores_follow_factors Examples.session_ABC_X
           SampleFiles.sample_Z_ABC Sessions.session_with_Z).
  reflexivity.
Defined.

(** ** The factors of a reachable session *)

Lemma setup_controls_fields items : forall c0 c,
  setup_controls items c0 = Ok c ->
  Forall (fun f => exists n d, py_getitem f (PStr "name") = Ok n /\
                               hashable n = true /\
                               py_getitem f (PStr "description") = Ok d) items.
Proof.
  induction items as [|f items IH]; simpl; intros c0 c H; [constructor|].
  destruct (py_getitem f (PStr "name")) as [n|e] eqn:En; cbn [bind] in H;
    [|discriminate].
  destruct (py_getitem f (PStr "description")) as [d|e] eqn:Ed; cbn [bind] in H;
    [|discriminate].
  unfold hashed in H. destruct (hashable n) eqn:Eh; cbn [bind] in H; [|discriminate].
  constructor; [|exact (IH _ _ H)].
  exists n, d. split; [exact En|]. split; [exact Eh | exact Ed].
Qed.

Lemma step_factors st ev st' shown :
  step st ev = Returned st' shown ->
  factors st' = factors st \/
  exists items c,
    py_iter (factors st') = Ok items /\ setup_controls items [] = Ok c.
Proof.
  destruct ev; simpl.
  - intros H.
    destruct (load_factors_cases _ _ _ _ H)
      as [->|(_ & doc & items & c & _ & Hi & _ & Hc & ->)]; [left; reflexivity|].
    right. exists items, c. split; assumption.
  - intros H.
    destruct (load_sample_cases _ _ _ _ H)
      as [->|(_ & data & name & s & _ & _ & _ & _ & _ & _ & ->)]; left; reflexivity.
  - destruct (btn_add_sample st); [|intros H; injection H as <- _; left; reflexivity].
    intros H.
    destruct (add_sample_cases _ _ _ _ _ H)
      as [->|(_ & _ & _ & _ & vals & c & _ & _ & ->)]; left; reflexivity.
  - destruct (btn_save_sample st);
      [destruct (save_sample st sample_to_save ok dlg) as [[m|doc]|e]|];
      try discriminate; intros H; injection H as <- _; left; reflexivity.
  - destruct (dmem sample_name (samples st));
      [|intros H; injection H as <- _; left; reflexivity].
    intros H. destruct (change_sample_color_cases _ _ _ _ _ H) as (_ & s & _ & _ & Hp).
    destruct picked; subst st'; left; reflexivity.
  - intros H. injection H as <- _. unfold slider_moved.
    destruct (dget name (factor_controls st)); left; reflexivity.
Qed.

(** X19: in every reachable session the factor document can be iterated
    and each of its items has a `name`, which can be a dictionary key,
    and a `description`. *)
Theorem factors_have_fields st :
  reachable st ->
  exists items,
    py_iter (factors st) = Ok items /\
    Forall (fun f => exists n d, py_getitem f (PStr "name") = Ok n /\
                                 hashable n = true /\
                                 py_getitem f (PStr "description") = Ok d) items.
Proof.
  induction 1 as [|st ev st' shown _ IH Hstep].
  - exists []. split; [reflexivity | constructor].
  - destruct (step_factors _ _ _ _ Hstep) as [->|(items & c & Hi & Hc)];
      [exact IH|].
    exists items. split; [exact Hi | exact (setup_controls_fields _ _ _ Hc)].
Qed.

Lemma factors_have_fields_witness :
  exists items,
    py_iter (factors Examples.session_ABC_X) = Ok items /\
    Forall (fun f => exists n d, py_getitem f (PStr "name") = Ok n /\
                                 hashable n = true /\
                                 py_getitem f (PStr "description") = Ok d) items.
Proof. apply (factors_have_fields Examples.session_ABC_X session_ABC_X_reachable). Defined.
